(** * Layered configuration synthesis of the Cline auto-updater

    A shallow embedding of [src/adaptive_settings.py] (deep merge engine and
    layer selector) and [src/rules_generator.py] (selection, deduplication
    and priority ordering of rule texts), with the properties of the
    specification stated over it; then of [src/workflow_optimizer.py], of
    the parts of [src/config_analyzer.py] that build the snapshot and of the
    write-back of [main.py], with further properties of the code.

    Python dictionaries are finite maps with string keys ([gmap string _]):
    none of the properties below depends on the insertion order of a
    dictionary, and equality of dictionaries in Python ignores it too. *)

From Stdlib Require Import ZArith QArith Ascii String.
From stdpp Require Import gmap strings list fin_maps sorting.
Close Scope Q_scope.

(** ** Configuration trees *)

(** The immutable leaves of a JSON-compatible value. *)
Inductive scalar :=
  | SNone
  | SBool (b : bool)
  | SInt (z : Z)
  | SFloat (q : Q)
  | SStr (s : string).

(** A configuration value: a scalar, a sequence or a mapping. *)
#[warnings="-register-all"]
Inductive value :=
  | VScalar (s : scalar)
  | VList (l : list value)
  | VDict (m : gmap string value).

Abbreviation VB b := (VScalar (SBool b)).
Abbreviation VI z := (VScalar (SInt z)).
Abbreviation VS s := (VScalar (SStr s)).
Abbreviation VF q := (VScalar (SFloat q)).

Abbreviation tree := (gmap string value).

(** [isinstance(v, dict)] *)
Definition is_dict (v : value) : bool :=
  match v with VDict _ => true | _ => false end.

(** Nesting depth, the measure the inductions on trees go by. *)
Fixpoint depth (v : value) : nat :=
  match v with
  | VScalar _ => 0
  | VList l => S (foldr (fun x acc => depth x `max` acc) 0 l)
  | VDict m => S (map_fold (fun _ x acc => depth x `max` acc) 0 m)
  end.

(** ** The deep merge engine (adaptive_settings.py, lines 411-430) *)

(** [_deep_copy]: dictionaries and lists are rebuilt, anything else is
    returned as it is. *)
Fixpoint _deep_copy (obj : value) : value :=
  match obj with
  | VDict m => VDict (_deep_copy <$> m)
  | VList l => VList (_deep_copy <$> l)
  | _ => obj
  end.

(** The loop of [_merge_settings] over [update.items()], by recursion on the
    update tree; [result] starts as the deep copy of [base]. *)
Fixpoint merge_update (update : value) (base : tree) : tree :=
  match update with
  | VDict items =>
      map_fold (fun key value result =>
        match result !! key, value with
        | Some (VDict sub), VDict _ =>
            <[key := VDict (merge_update value sub)]> result
        | _, _ => <[key := _deep_copy value]> result
        end) (_deep_copy <$> base) items
  | _ => _deep_copy <$> base
  end.

Definition _merge_settings (base update : tree) : tree :=
  merge_update (VDict update) base.

(** [layers.reduce(merge, start)]: the fold of [generate_adaptive_config]. *)
Definition merge_layers (start : tree) (layers : list tree) : tree :=
  foldl _merge_settings start layers.

(** What one merge does to the slot of a single key. *)
Definition merge_slot (b u : option value) : option value :=
  match b, u with
  | Some (VDict bm), Some (VDict um) => Some (VDict (_merge_settings bm um))
  | _, Some v => Some (_deep_copy v)
  | Some v, None => Some (_deep_copy v)
  | None, None => None
  end.

(** Helpers of the idempotence proof: the slots of a key across layers. *)
Definition nondict_slot (u : option value) : bool :=
  match u with Some v => negb (is_dict v) | None => false end.

Definition dict_of_slot (u : option value) : option tree :=
  match u with Some (VDict d) => Some d | _ => None end.

Definition dict_part (x : option value) : tree := default ∅ (dict_of_slot x).


(** ** The same engine over a store of mutable objects

    Dictionaries and lists are Python objects with an identity: two
    references to one object see each other's writes.  The store is the
    list of the objects allocated so far, an address is an index in it, and
    a reference is an immutable scalar or the address of an object. *)

Abbreviation loc := nat.

Inductive ref :=
  | RScalar (s : scalar)
  | RObj (l : loc).

Inductive obj :=
  | ODict (items : gmap string ref)
  | OList (elems : list ref).

Abbreviation store := (list obj).

(** Creating an object: it gets the next free address. *)
Definition alloc (o : obj) (h : store) : ref * store := (RObj (length h), h ++ [o]).

(** [isinstance(v, dict)] on a reference. *)
Definition is_dict_ref (h : store) (v : ref) : bool :=
  match v with
  | RObj l => match h !! l with Some (ODict _) => true | _ => false end
  | RScalar _ => false
  end.

(** [d[key] = v] on the dictionary at address [d]: a write in place. *)
Definition set_item (d : loc) (key : string) (v : ref) (h : store) : option store :=
  match h !! d with
  | Some (ODict items) => Some (<[d := ODict (<[key := v]> items)]> h)
  | _ => None
  end.

(** One round of the dictionary comprehension of [_deep_copy]. *)
Definition copy_item (copy : ref -> store -> option (ref * store))
    (key : string) (v : ref) (acc : option (gmap string ref * store))
    : option (gmap string ref * store) :=
  '(items, h) ← acc;
  '(c, h') ← copy v h;
  Some (<[key := c]> items, h').

(** One round of the list comprehension of [_deep_copy]. *)
Definition copy_elem (copy : ref -> store -> option (ref * store))
    (acc : option (list ref * store)) (v : ref) : option (list ref * store) :=
  '(elems, h) ← acc;
  '(c, h') ← copy v h;
  Some (elems ++ [c], h').

(** [_deep_copy] over the store.  The recursion follows references, so it
    is bounded by [fuel]; [None] is running out of it, or following an
    address that holds no object. *)
Fixpoint deep_copy_st (fuel : nat) (v : ref) (h : store) : option (ref * store) :=
  match fuel with
  | 0 => None
  | S fuel =>
      match v with
      | RScalar _ => Some (v, h)
      | RObj l =>
          match h !! l with
          | Some (ODict items) =>
              '(items', h') ← map_fold (copy_item (deep_copy_st fuel)) (Some (∅, h)) items;
              Some (alloc (ODict items') h')
          | Some (OList elems) =>
              '(elems', h') ← foldl (copy_elem (deep_copy_st fuel)) (Some ([], h)) elems;
              Some (alloc (OList elems') h')
          | None => None
          end
      end
  end.

(** The body of the loop of [_merge_settings] for one item of [update];
    [result] is the address of the dictionary being built. *)
Definition merge_item
    (merge : loc -> loc -> store -> option (loc * store))
    (copy : ref -> store -> option (ref * store))
    (result : loc) (key : string) (v : ref) (acc : option store) : option store :=
  h ← acc;
  match h !! result with
  | Some (ODict items) =>
      match items !! key, v with
      | Some (RObj sub), RObj u =>
          if is_dict_ref h (RObj sub) && is_dict_ref h (RObj u) then
            '(m, h') ← merge sub u h; set_item result key (RObj m) h'
          else
            '(c, h') ← copy v h; set_item result key c h'
      | _, _ => '(c, h') ← copy v h; set_item result key c h'
      end
  | _ => None
  end.

(** [_merge_settings] over the store: addresses of [base] and [update] in,
    address of the result out. *)
Fixpoint merge_settings_st (fuel : nat) (base update : loc) (h : store)
    : option (loc * store) :=
  match fuel with
  | 0 => None
  | S fuel =>
      '(result, h1) ← deep_copy_st fuel (RObj base) h;
      match result, h1 !! update with
      | RObj r, Some (ODict items) =>
          h2 ← map_fold (merge_item (merge_settings_st fuel) (deep_copy_st fuel) r)
                 (Some h1) items;
          Some (r, h2)
      | _, _ => None
      end
  end.

(** The fold of [generate_adaptive_config] over the store. *)
Fixpoint merge_layers_st (fuel : nat) (acc : loc) (layers : list loc) (h : store)
    : option (loc * store) :=
  match layers with
  | [] => Some (acc, h)
  | L :: layers =>
      '(r, h') ← merge_settings_st fuel acc L h;
      merge_layers_st fuel r layers h'
  end.

(** [repr_in P h v t]: in store [h] the reference [v] denotes the tree [t],
    and every object of that denotation lives at an address in [P]. *)
#[warnings="-register-all"]
Inductive repr_in (P : loc -> Prop) (h : store) : ref -> value -> Prop :=
  | repr_scalar s : repr_in P h (RScalar s) (VScalar s)
  | repr_list l elems vs :
      P l -> h !! l = Some (OList elems) ->
      Forall2 (repr_in P h) elems vs ->
      repr_in P h (RObj l) (VList vs)
  | repr_dict l items (m : tree) :
      P l -> h !! l = Some (ODict items) ->
      (forall k, option_Forall2 (repr_in P h) (items !! k) (m !! k)) ->
      repr_in P h (RObj l) (VDict m).

Definition repr : store -> ref -> value -> Prop := repr_in (fun _ => True).

(** The objects a reference leads to. *)
Inductive reach (h : store) : ref -> loc -> Prop :=
  | reach_here l : reach h (RObj l) l
  | reach_item l items k v l' :
      h !! l = Some (ODict items) -> items !! k = Some v ->
      reach h v l' -> reach h (RObj l) l'
  | reach_elem l elems v l' :
      h !! l = Some (OList elems) -> v ∈ elems ->
      reach h v l' -> reach h (RObj l) l'.

(** A small store to run the engine on: the overlay's ["codeStyle"] object
    is shared with another dictionary, as a catalog entry is. *)
Definition demo_store : store :=
  [ ODict {[ "indentation" := RScalar (SInt 4) ]};                      (* 0 *)
    ODict {[ "codeStyle" := RObj 0; "requestLimit" := RScalar (SInt 25) ]}; (* 1: base *)
    ODict {[ "indentation" := RScalar (SInt 2); "quotes" := RScalar (SStr "single") ]}; (* 2 *)
    OList [RScalar (SInt 1); RObj 2];                                     (* 3 *)
    ODict {[ "codeStyle" := RObj 2; "tags" := RObj 3 ]};                  (* 4: update *)
    ODict {[ "codeStyle" := RObj 2 ]} ].                                  (* 5: a catalog *)

Definition demo_base : tree :=
  {[ "codeStyle" := VDict {[ "indentation" := VI 4 ]}; "requestLimit" := VI 25 ]}.

Definition demo_update : tree :=
  {[ "codeStyle" := VDict {[ "indentation" := VI 2; "quotes" := VS "single" ]};
     "tags" := VList [VI 1; VDict {[ "indentation" := VI 2; "quotes" := VS "single" ]}] ]}.

(** Nothing that was in [h] has been written to on the way to [h']. *)
Definition unchanged (h h' : store) : Prop :=
  forall l o, h !! l = Some o -> h' !! l = Some o.

(** What a successful copy of a reference denoting [t] looks like: nothing
    in the store was written to, and the copy denotes [t] with new objects
    only. *)
Definition copy_post (h : store) (t : value) (res : option (ref * store)) : Prop :=
  exists v' h', res = Some (v', h') /\ unchanged h h'
    /\ repr_in (fun l => length h <= l) h' v' t.

(** The same for a merge of two dictionaries denoting [tb] and [tu]. *)
Definition merge_post (h : store) (tb tu : tree) (res : option (loc * store)) : Prop :=
  exists r h', res = Some (r, h') /\ unchanged h h'
    /\ repr_in (fun l => length h <= l) h' (RObj r) (VDict (_merge_settings tb tu)).

(** Nothing but the object at [r] has been written to. *)
Definition unchanged_but (r : loc) (h h' : store) : Prop :=
  forall l o, l <> r -> h !! l = Some o -> h' !! l = Some o.

(** A bound on the depth of every tree a fold goes through. *)
Definition layers_depth (start : tree) (layers : list tree) : nat :=
  depth (VDict start) `max` max_list ((fun t => depth (VDict t)) <$> layers).

(** ** The signal snapshot

    The two dictionaries the synthesis functions read.  Every section and
    every field may be absent ([None]): the code reads them with
    [d.get(key, default)]. *)

Record project_structure_t := {
  project_type : option string;
  languages : option (list string);
  frameworks : option (list string);
  total_files : option Z;
  file_counts : option (gmap string Z)
}.

Record usage_patterns_t := {
  sessions_count : option Z;
  error_patterns : option (list value)
}.

Record vscode_settings_t := {
  cline_settings : option tree
}.

Record current_rules_t := {
  rules_exists : option bool;       (* 'exists' *)
  rules_content : option string     (* 'content' *)
}.

Record workflow_info_t := {
  workflow_content : option string  (* 'content' *)
}.

Record current_workflows_t := {
  workflows_exists : option bool;                     (* 'exists' *)
  workflows : option (gmap string workflow_info_t)
}.

Record config_data_t := {
  project_structure : option project_structure_t;
  vscode_settings : option vscode_settings_t;
  usage_patterns : option usage_patterns_t;
  current_rules : option current_rules_t;
  current_workflows : option current_workflows_t
}.

Record memory_info_t := {
  memory_percent : option Q;        (* 'percent' *)
  memory_total : option Z           (* 'total', in bytes *)
}.

Record cpu_info_t := {
  cpu_percent : option Q;           (* 'percent' *)
  cpu_count : option Z              (* 'count' *)
}.

(** [system_metrics] is tested for emptiness, so the sections the engine
    does not read (swap, disk, ...) are kept by name. *)
Record system_metrics_t := {
  memory : option memory_info_t;
  cpu : option cpu_info_t;
  other_sections : list string
}.

Record issue_t := {
  issue_type : string;              (* 'type' *)
  issue_severity : string           (* 'severity' *)
}.

Record performance_data_t := {
  system_metrics : option system_metrics_t;
  performance_issues : option (list issue_t);
  perf_error_patterns : option (list value)   (* 'error_patterns' *)
}.

(** The empty dictionaries [{}] the defaults of [get] stand for. *)
Definition no_project_structure : project_structure_t :=
  {| project_type := None; languages := None; frameworks := None;
     total_files := None; file_counts := None |}.
Definition no_usage_patterns : usage_patterns_t :=
  {| sessions_count := None; error_patterns := None |}.
Definition no_vscode_settings : vscode_settings_t := {| cline_settings := None |}.
Definition no_current_rules : current_rules_t :=
  {| rules_exists := None; rules_content := None |}.
Definition no_current_workflows : current_workflows_t :=
  {| workflows_exists := None; workflows := None |}.
Definition no_memory_info : memory_info_t :=
  {| memory_percent := None; memory_total := None |}.
Definition no_cpu_info : cpu_info_t := {| cpu_percent := None; cpu_count := None |}.
Definition no_system_metrics : system_metrics_t :=
  {| memory := None; cpu := None; other_sections := [] |}.

Definition empty_config_data : config_data_t :=
  {| project_structure := None; vscode_settings := None; usage_patterns := None;
     current_rules := None; current_workflows := None |}.
Definition empty_performance_data : performance_data_t :=
  {| system_metrics := None; performance_issues := None; perf_error_patterns := None |}.

(** [not system_metrics]: the dictionary has no key. *)
Definition system_metrics_is_empty (sm : system_metrics_t) : bool :=
  match memory sm, cpu sm, other_sections sm with
  | None, None, [] => true
  | _, _, _ => false
  end.

(** ** Python helpers *)

(** [d.update(other)]: every key of [other] is written into [d]. *)
Definition dict_update (d other : tree) : tree := other ∪ d.

(** Truth value of the result of [d.get(key)]. *)
Definition truthy (v : option value) : bool :=
  match v with
  | None | Some (VScalar SNone) => false
  | Some (VScalar (SBool b)) => b
  | Some (VScalar (SInt z)) => negb (z =? 0)%Z
  | Some (VScalar (SFloat q)) => negb (Qeq_bool q 0)
  | Some (VScalar (SStr s)) => negb (String.eqb s EmptyString)
  | Some (VList l) => negb (bool_decide (l = []))
  | Some (VDict m) => negb (bool_decide (m = ∅))
  end.

(** [d.get(key, {})] where the value, when present, is a mapping. *)
Definition get_dict (d : tree) (key : string) : tree :=
  match d !! key with Some (VDict m) => m | _ => ∅ end.

Definition Qgtb (a b : Q) : bool := negb (Qle_bool a b).
Definition Qltb (a b : Q) : bool := negb (Qle_bool b a).

(** ** Catalogs of adaptive_settings.py, lines 16-139 *)

Definition default_codeStyle : tree :=
  {[ "indentation" := VI 4; "quotes" := VS "double";
     "semicolons" := VB true; "trailingCommas" := VB true ]}.

Definition default_performance : tree :=
  {[ "enableCaching" := VB true; "maxCacheSize" := VI 100;
     "parallelProcessing" := VB false; "memoryOptimization" := VB false ]}.

Definition default_security : tree :=
  {[ "restrictFileAccess" := VB true; "sanitizeInputs" := VB true;
     "logSecurityEvents" := VB true ]}.

Definition default_cline_settings : tree :=
  list_to_map
    [ ("autoApprove", VB false);
      ("alwaysAllowReadOnly", VB true);
      ("alwaysAllowWriteOnly", VB false);
      ("requestLimit", VI 25);
      ("contextWindow", VI 200000);
      ("maxResponseTokens", VI 8192);
      ("temperature", VF (1 # 10)%Q);
      ("debugMode", VB false);
      ("experimentalFeatures", VB false);
      ("customInstructions", VS EmptyString);
      ("preferredLanguage", VS "ru");
      ("codeStyle", VDict default_codeStyle);
      ("performance", VDict default_performance);
      ("security", VDict default_security) ].

Definition default_settings : tree :=
  {[ "cline_settings" := VDict default_cline_settings ]}.

Definition python_settings : tree :=
  {[ "codeStyle" := VDict {[ "indentation" := VI 4; "quotes" := VS "double";
                             "lineLength" := VI 88 ]};
     "linting" := VDict {[ "enableFlake8" := VB true; "enableBlack" := VB true;
                           "enableMypy" := VB true ]};
     "testing" := VDict {[ "framework" := VS "pytest"; "coverage" := VB true;
                           "autoDiscovery" := VB true ]} ]}.

Definition javascript_settings : tree :=
  {[ "codeStyle" := VDict {[ "indentation" := VI 2; "quotes" := VS "single";
                             "semicolons" := VB false; "trailingCommas" := VB true ]};
     "linting" := VDict {[ "enableESLint" := VB true; "enablePrettier" := VB true ]};
     "build" := VDict {[ "enableSourceMaps" := VB true; "minification" := VB true ]} ]}.

Definition typescript_settings : tree :=
  {[ "codeStyle" := VDict {[ "indentation" := VI 2; "quotes" := VS "single";
                             "semicolons" := VB false; "strictMode" := VB true ]};
     "typeChecking" := VDict {[ "strict" := VB true; "noImplicitAny" := VB true;
                                "strictNullChecks" := VB true ]} ]}.

Definition web_settings : tree :=
  {[ "features" := VDict {[ "autoReload" := VB true; "livePreview" := VB true;
                            "responsiveDesign" := VB true ]};
     "optimization" := VDict {[ "imageOptimization" := VB true;
                                "cssMinification" := VB true;
                                "jsMinification" := VB true ]} ]}.

Definition project_specific_settings : gmap string tree :=
  {[ "python" := python_settings; "javascript" := javascript_settings;
     "typescript" := typescript_settings; "web" := web_settings ]}.

Definition high_memory : tree :=
  {[ "contextWindow" := VI 300000; "maxResponseTokens" := VI 12288;
     "enableCaching" := VB true; "maxCacheSize" := VI 200;
     "parallelProcessing" := VB true ]}.

Definition low_memory : tree :=
  {[ "contextWindow" := VI 100000; "maxResponseTokens" := VI 4096;
     "enableCaching" := VB false; "maxCacheSize" := VI 50;
     "parallelProcessing" := VB false; "memoryOptimization" := VB true ]}.

Definition high_cpu : tree :=
  {[ "parallelProcessing" := VB true; "backgroundProcessing" := VB true;
     "optimizeAlgorithms" := VB true ]}.

Definition low_cpu : tree :=
  {[ "parallelProcessing" := VB false; "backgroundProcessing" := VB false;
     "simpleAlgorithms" := VB true ]}.

Definition performance_settings : gmap string tree :=
  {[ "high_memory" := high_memory; "low_memory" := low_memory;
     "high_cpu" := high_cpu; "low_cpu" := low_cpu ]}.

(** ** The layer selector (adaptive_settings.py, lines 141-409) *)

(** Every layer is a dictionary with the single key ['cline_settings']. *)
Definition settings_layer (cs : tree) : tree := {[ "cline_settings" := VDict cs ]}.

(** [_is_web_project] *)
Definition _is_web_project (ps : project_structure_t) : bool :=
  let langs := default [] (languages ps) in
  let fws := default [] (frameworks ps) in
  let web_indicators := ["javascript"; "typescript"; "html"; "css"] in
  let web_frameworks := ["nodejs"; "react"; "vue"; "angular"] in
  existsb (fun lang => bool_decide (lang ∈ web_indicators)) langs
  || existsb (fun fw => bool_decide (fw ∈ web_frameworks)) fws.

(** The three steps of [_adapt_for_project_type], each an update of the
    inner dictionary. *)
Definition apply_language (langs : list string) (cs : tree) : tree :=
  match langs with
  | primary_language :: _ =>
      match project_specific_settings !! primary_language with
      | Some lang_settings => dict_update cs lang_settings
      | None => cs
      end
  | [] => cs
  end.

Definition apply_project_type (ptype : string) (cs : tree) : tree :=
  match project_specific_settings !! ptype with
  | Some type_settings => dict_update cs type_settings
  | None => cs
  end.

Definition apply_web (ps : project_structure_t) (cs : tree) : tree :=
  if _is_web_project ps
  then dict_update cs (default ∅ (project_specific_settings !! "web"))
  else cs.

Definition _adapt_for_project_type (config_data : config_data_t) : tree :=
  let ps := default no_project_structure (project_structure config_data) in
  let ptype := default "unknown" (project_type ps) in
  let langs := default [] (languages ps) in
  settings_layer (apply_web ps (apply_project_type ptype (apply_language langs ∅))).

(** The memory tier: [if ... elif ...], lines 219-229. *)
Definition apply_memory_tier (memory_info : memory_info_t) (cs : tree) : tree :=
  let percent := default 0%Q (memory_percent memory_info) in
  let memory_total_gb := (inject_Z (default 0%Z (memory_total memory_info))
                          / inject_Z (1024 ^ 3))%Q in
  if Qgtb percent 80 || Qltb memory_total_gb 4 then
    dict_update cs (performance_settings !!! "low_memory")
  else if Qgtb memory_total_gb 16 then
    dict_update cs (performance_settings !!! "high_memory")
  else cs.

(** The CPU tier, lines 232-242. *)
Definition apply_cpu_tier (cpu_info : cpu_info_t) (cs : tree) : tree :=
  let percent := default 0%Q (cpu_percent cpu_info) in
  let count := default 1%Z (cpu_count cpu_info) in
  if Qgtb percent 80 || (count <? 4)%Z then
    dict_update cs (performance_settings !!! "low_cpu")
  else if (8 <? count)%Z then
    dict_update cs (performance_settings !!! "high_cpu")
  else cs.

(** One round of the loop over [performance_issues], lines 245-251. *)
Definition apply_issue (cs : tree) (issue : issue_t) : tree :=
  if String.eqb (issue_type issue) "memory" && String.eqb (issue_severity issue) "high" then
    <["enableCaching" := VB false]> (<["memoryOptimization" := VB true]> cs)
  else if String.eqb (issue_type issue) "cpu" && String.eqb (issue_severity issue) "high" then
    <["maxResponseTokens" := VI 4096]> (<["parallelProcessing" := VB false]> cs)
  else cs.

Definition _adapt_for_performance (performance_data : performance_data_t) : tree :=
  let sm := default no_system_metrics (system_metrics performance_data) in
  let issues := default [] (performance_issues performance_data) in
  if system_metrics_is_empty sm then settings_layer ∅
  else
    let memory_info := default no_memory_info (memory sm) in
    let cpu_info := default no_cpu_info (cpu sm) in
    settings_layer
      (foldl apply_issue (apply_cpu_tier cpu_info (apply_memory_tier memory_info ∅)) issues).

(** The scale tier, lines 264-282. *)
Definition apply_scale (files : Z) (cs : tree) : tree :=
  if (100 <? files)%Z then
    dict_update cs {[ "requestLimit" := VI 50; "contextWindow" := VI 250000;
                      "enableCaching" := VB true; "maxCacheSize" := VI 150 ]}
  else if (50 <? files)%Z then
    dict_update cs {[ "requestLimit" := VI 35; "contextWindow" := VI 200000;
                      "enableCaching" := VB true ]}
  else
    dict_update cs {[ "requestLimit" := VI 20; "contextWindow" := VI 150000 ]}.

(** The polyglot bonus, lines 285-289; ['contextWindow'] holds an integer
    here, the scale tier has just written it. *)
Definition apply_polyglot (languages_count : nat) (cs : tree) : tree :=
  if (2 <? languages_count)%nat then
    let current := match cs !! "contextWindow" with
                   | Some (VI n) => n
                   | _ => 200000%Z
                   end in
    dict_update cs {[ "contextWindow" := VI (current + 50000);
                      "maxResponseTokens" := VI 10240 ]}
  else cs.

Definition _adapt_for_project_scale (config_data : config_data_t) : tree :=
  let ps := default no_project_structure (project_structure config_data) in
  let files := default 0%Z (total_files ps) in
  let languages_count := length (default [] (languages ps)) in
  settings_layer (apply_polyglot languages_count (apply_scale files ∅)).

Definition _adapt_for_usage_patterns (config_data : config_data_t)
    (performance_data : performance_data_t) : tree :=
  let up := default no_usage_patterns (usage_patterns config_data) in
  let sessions := default 0%Z (sessions_count up) in
  let cs : tree := ∅ in
  let cs :=
    if (100 <? sessions)%Z then
      dict_update cs {[ "autoApprove" := VB true; "experimentalFeatures" := VB true;
                        "debugMode" := VB false ]}
    else if (sessions <? 10)%Z then
      dict_update cs {[ "autoApprove" := VB false; "experimentalFeatures" := VB false;
                        "debugMode" := VB true ]}
    else cs in
  let errors := default [] (error_patterns up) in
  let cs :=
    if (10 <? length errors)%nat then
      dict_update cs {[ "temperature" := VF (1 # 20)%Q;
                        "security" := VDict {[ "restrictFileAccess" := VB true;
                                               "sanitizeInputs" := VB true ]} ]}
    else cs in
  settings_layer cs.

Definition preserve_keys : list string :=
  ["customInstructions"; "preferredLanguage"; "autoApprove"].

(** One round of the loop of [_preserve_user_settings]. *)
Definition preserve_key (current : tree) (user : tree) (key : string) : tree :=
  match current !! key with
  | Some v => <[key := v]> user
  | None => user
  end.

Definition _preserve_user_settings (config_data : config_data_t) : tree :=
  let vs := default no_vscode_settings (vscode_settings config_data) in
  let current_cline_settings := default ∅ (cline_settings vs) in
  settings_layer (foldl (preserve_key current_cline_settings) ∅ preserve_keys).

Definition watcher_exclude : tree :=
  {[ "**/.git/objects/**" := VB true; "**/.git/subtree-cache/**" := VB true;
     "**/node_modules/**" := VB true; "**/.hg/store/**" := VB true ]}.

Definition _generate_vscode_config (adaptive_config : tree)
    (config_data : config_data_t) : tree :=
  let ps := default no_project_structure (project_structure config_data) in
  let langs := default [] (languages ps) in
  let vc : tree := ∅ in
  let vc :=
    if bool_decide ("python" ∈ langs) then
      dict_update vc
        {[ "python.defaultInterpreterPath" := VS "./venv/bin/python";
           "python.linting.enabled" := VB true;
           "python.linting.pylintEnabled" := VB true;
           "python.formatting.provider" := VS "black";
           "python.testing.pytestEnabled" := VB true ]}
    else vc in
  let vc :=
    if bool_decide ("javascript" ∈ langs) || bool_decide ("typescript" ∈ langs) then
      dict_update vc
        {[ "eslint.enable" := VB true;
           "prettier.enable" := VB true;
           "javascript.preferences.includePackageJsonAutoImports" := VS "auto";
           "typescript.preferences.includePackageJsonAutoImports" := VS "auto" ]}
    else vc in
  let cs := get_dict adaptive_config "cline_settings" in
  let code_style := get_dict cs "codeStyle" in
  let vc :=
    if negb (bool_decide (code_style = ∅)) then
      dict_update vc
        {[ "editor.tabSize" := default (VI 4) (code_style !! "indentation");
           "editor.insertSpaces" := VB true;
           "editor.detectIndentation" := VB false ]}
    else vc in
  let performance := get_dict cs "performance" in
  let vc :=
    if truthy (performance !! "memoryOptimization") then
      dict_update vc
        {[ "typescript.disableAutomaticTypeAcquisition" := VB true;
           "search.followSymlinks" := VB false;
           "files.watcherExclude" := VDict watcher_exclude ]}
    else vc in
  vc.

(** The five merged layers, in the order [generate_adaptive_config] folds
    them. *)
Definition selected_layers (config_data : config_data_t)
    (performance_data : performance_data_t) : list tree :=
  [ _adapt_for_project_type config_data;
    _adapt_for_performance performance_data;
    _adapt_for_project_scale config_data;
    _adapt_for_usage_patterns config_data performance_data;
    _preserve_user_settings config_data ].

Definition generate_adaptive_config (config_data : config_data_t)
    (performance_data : performance_data_t) : tree :=
  let adaptive_config := _deep_copy <$> default_settings in
  let adaptive_config := _merge_settings adaptive_config (_adapt_for_project_type config_data) in
  let adaptive_config := _merge_settings adaptive_config (_adapt_for_performance performance_data) in
  let adaptive_config := _merge_settings adaptive_config (_adapt_for_project_scale config_data) in
  let adaptive_config :=
    _merge_settings adaptive_config (_adapt_for_usage_patterns config_data performance_data) in
  let adaptive_config := _merge_settings adaptive_config (_preserve_user_settings config_data) in
  let vscode_config := _generate_vscode_config adaptive_config config_data in
  dict_update adaptive_config vscode_config.

(** [config['cline_settings'][key]] of a generated configuration. *)
Definition final_setting (config : tree) (key : string) : option value :=
  get_dict config "cline_settings" !! key.

(** The snapshot of the tier example: memory at 85 percent, all else absent. *)
Definition low_memory_snapshot : performance_data_t :=
  {| system_metrics :=
       Some {| memory := Some {| memory_percent := Some 85%Q; memory_total := None |};
               cpu := None; other_sections := [] |};
     performance_issues := None;
     perf_error_patterns := None |}.

(** The same with every field present at its default. *)
Definition default_config_data : config_data_t :=
  {| project_structure :=
       Some {| project_type := Some "unknown"; languages := Some [];
               frameworks := Some []; total_files := Some 0%Z;
               file_counts := Some ∅ |};
     vscode_settings := Some {| cline_settings := Some ∅ |};
     usage_patterns := Some {| sessions_count := Some 0%Z; error_patterns := Some [] |};
     current_rules := Some {| rules_exists := Some false; rules_content := Some EmptyString |};
     current_workflows := Some {| workflows_exists := Some false; workflows := Some ∅ |} |}.

(** The inner dictionary of a layer. *)
Definition inner (layer : tree) : tree := get_dict layer "cline_settings".

(** The keys each kind of layer may write, by the catalogs and the literal
    dictionaries of the selector. *)
Definition project_keys : gset string :=
  {[ "codeStyle"; "linting"; "testing"; "build"; "typeChecking"; "features";
     "optimization" ]}.

Definition performance_keys : gset string :=
  {[ "contextWindow"; "maxResponseTokens"; "enableCaching"; "maxCacheSize";
     "parallelProcessing"; "memoryOptimization"; "backgroundProcessing";
     "optimizeAlgorithms"; "simpleAlgorithms" ]}.

Definition scale_keys : gset string :=
  {[ "requestLimit"; "contextWindow"; "enableCaching"; "maxCacheSize";
     "maxResponseTokens" ]}.

Definition usage_keys : gset string :=
  {[ "autoApprove"; "experimentalFeatures"; "debugMode"; "temperature"; "security" ]}.

Definition user_keys : gset string :=
  {[ "customInstructions"; "preferredLanguage"; "autoApprove" ]}.

(** The inner dictionaries of the five layers, and their fold over the
    default inner dictionary. *)
Definition inner_layers (config_data : config_data_t)
    (performance_data : performance_data_t) : list tree :=
  inner <$> selected_layers config_data performance_data.

Definition merged_cline_settings (config_data : config_data_t)
    (performance_data : performance_data_t) : tree :=
  merge_layers default_cline_settings (inner_layers config_data performance_data).

Definition editor_keys : gset string :=
  {[ "python.defaultInterpreterPath"; "python.linting.enabled";
     "python.linting.pylintEnabled"; "python.formatting.provider";
     "python.testing.pytestEnabled"; "eslint.enable"; "prettier.enable";
     "javascript.preferences.includePackageJsonAutoImports";
     "typescript.preferences.includePackageJsonAutoImports";
     "editor.tabSize"; "editor.insertSpaces"; "editor.detectIndentation";
     "typescript.disableAutomaticTypeAcquisition"; "search.followSymlinks";
     "files.watcherExclude" ]}.

(** The tier example again, the absent fields written out at their defaults. *)
Definition low_memory_snapshot_defaults : performance_data_t :=
  {| system_metrics :=
       Some {| memory := Some {| memory_percent := Some 85%Q; memory_total := Some 0%Z |};
               cpu := Some {| cpu_percent := Some 0%Q; cpu_count := Some 1%Z |};
               other_sections := [] |};
     performance_issues := Some [];
     perf_error_patterns := Some [] |}.

(** Memory at 85 percent on a 32 GiB machine: both tier conditions hold. *)
Definition busy_large_memory : memory_info_t :=
  {| memory_percent := Some 85%Q; memory_total := Some (32 * 2 ^ 30)%Z |}.

Definition busy_large_snapshot : performance_data_t :=
  {| system_metrics :=
       Some {| memory := Some busy_large_memory; cpu := None; other_sections := [] |};
     performance_issues := None;
     perf_error_patterns := None |}.

(** A Go project with some Python in it: the head language has no catalog
    entry, a later one has. *)
Definition go_python_project : config_data_t :=
  {| project_structure :=
       Some {| project_type := Some "go"; languages := Some ["go"; "python"];
               frameworks := Some []; total_files := Some 10%Z; file_counts := None |};
     vscode_settings := None; usage_patterns := None;
     current_rules := None; current_workflows := None |}.

(** ** The rules generator (rules_generator.py)

    Texts are byte strings in UTF-8, as the source file has them; a
    substring test on UTF-8 bytes is the substring test on the characters. *)

Module RulesGenerator.

(** An exception raised by the code. *)
Inductive exn :=
  | KeyError (key : string).

Definition result (A : Type) : Type := exn + A.

(** [d[key]] where the key may be missing. *)
Definition getitem {A} (key : string) (field : option A) : result A :=
  match field with
  | Some v => inr v
  | None => inl (KeyError key)
  end.

Definition newline : string := String "010"%char EmptyString.

(** [needle in hay] on strings. *)
Fixpoint contains (needle hay : string) : bool :=
  if String.prefix needle hay then true
  else match hay with
       | EmptyString => false
       | String _ hay' => contains needle hay'
       end.

(** [any(keyword in text for keyword in keywords)] *)
Definition any_keyword (keywords : list string) (text : string) : bool :=
  existsb (fun keyword => contains keyword text) keywords.

(** [text.split('\n')] *)
Fixpoint split_lines_from (current : string) (text : string) : list string :=
  match text with
  | EmptyString => [current]
  | String c rest =>
      if Ascii.eqb c "010"%char then current :: split_lines_from EmptyString rest
      else split_lines_from (current +:+ String c EmptyString) rest
  end.

Definition split_lines (text : string) : list string :=
  split_lines_from EmptyString text.

(** [sep.join(items)] *)
Definition join (sep : string) (items : list string) : string := String.concat sep items.

(** *** Catalogs, lines 17-123 *)

Definition base_rules_general : list string :=
  [ "Всегда используй понятные и описательные имена для переменных, функций и классов";
    "Добавляй комментарии для сложных алгоритмов и бизнес-логики";
    "Следуй принципам SOLID при разработке";
    "Избегай дублирования кода (DRY принцип)";
    "Используй константы вместо магических чисел" ].

Definition base_rules_security : list string :=
  [ "Никогда не храни пароли и секретные ключи в коде";
    "Всегда валидируй пользовательский ввод";
    "Используй HTTPS для всех внешних запросов";
    "Логируй события безопасности";
    "Применяй принцип минимальных привилегий" ].

Definition base_rules_performance : list string :=
  [ "Оптимизируй циклы и избегай излишней вложенности";
    "Используй кеширование для дорогостоящих операций";
    "Применяй ленивую загрузку где это возможно";
    "Минимизируй количество запросов к базе данных";
    "Профилируй код при подозрении на узкие места" ].

Definition base_rules_testing : list string :=
  [ "Пиши unit-тесты для всех публичных методов";
    "Стремись к покрытию тестами не менее 80%";
    "Используй моки для внешних зависимостей";
    "Группируй тесты логически по модулям";
    "Тестируй граничные случаи и ошибки" ].

Definition base_rules_documentation : list string :=
  [ "Пиши docstrings для всех публичных функций и классов";
    "Обновляй README.md при значимых изменениях";
    "Документируй API endpoints с примерами";
    "Веди changelog для релизов";
    "Добавляй инлайн-комментарии для неочевидного кода" ].

Definition base_rules : gmap string (list string) :=
  list_to_map
    [ ("general", base_rules_general);
      ("security", base_rules_security);
      ("performance", base_rules_performance);
      ("testing", base_rules_testing);
      ("documentation", base_rules_documentation) ].

Definition language_specific_rules_python : list string :=
  [ "Следуй PEP 8 для стиля кода";
    "Используй type hints для всех функций";
    "Применяй list/dict comprehensions где уместно";
    "Обрабатывай исключения специфично, избегай голого except";
    "Используй f-strings для форматирования строк";
    "Применяй dataclasses для структур данных";
    "Используй pathlib вместо os.path для работы с путями" ].

Definition language_specific_rules_javascript : list string :=
  [ "Используй const/let вместо var";
    "Применяй строгий режим 'use strict'";
    "Используй async/await вместо промисов где возможно";
    "Применяй деструктуризацию объектов и массивов";
    "Используй модульную систему ES6";
    "Проверяй типы с помощью TypeScript или JSDoc" ].

Definition language_specific_rules_typescript : list string :=
  [ "Всегда указывай типы для параметров и возвращаемых значений";
    "Используй интерфейсы для описания структур данных";
    "Применяй generic типы для переиспользуемого кода";
    "Избегай any типа, используй unknown вместо него";
    "Используй enum для перечислений";
    "Применяй strict режим в tsconfig.json" ].

Definition language_specific_rules_java : list string :=
  [ "Следуй соглашениям по именованию Java";
    "Используй аннотации для метаданных";
    "Применяй Stream API для обработки коллекций";
    "Используй Optional для значений, которые могут быть null";
    "Следуй принципам объектно-ориентированного программирования";
    "Применяй паттерн Builder для сложных объектов" ].

Definition language_specific_rules_rust : list string :=
  [ "Используй Result<T, E> для обработки ошибок";
    "Применяй match для pattern matching";
    "Избегай паники (panic!) в библиотечном коде";
    "Используй References и Borrowing правильно";
    "Применяй трейты для полиморфизма";
    "Следуй принципам zero-cost abstractions" ].

Definition language_specific_rules : gmap string (list string) :=
  list_to_map
    [ ("python", language_specific_rules_python);
      ("javascript", language_specific_rules_javascript);
      ("typescript", language_specific_rules_typescript);
      ("java", language_specific_rules_java);
      ("rust", language_specific_rules_rust) ].

Definition framework_rules_react : list string :=
  [ "Используй функциональные компоненты с хуками";
    "Применяй useCallback и useMemo для оптимизации";
    "Следуй принципу единственной ответственности для компонентов";
    "Используй prop-types или TypeScript для типизации";
    "Применяй условный рендеринг осознанно" ].

Definition framework_rules_django : list string :=
  [ "Используй Django ORM вместо сырого SQL";
    "Применяй миграции для изменения схемы БД";
    "Используй Django Forms для валидации";
    "Применяй middleware для кросс-функциональных задач";
    "Следуй MTV паттерну Django" ].

Definition framework_rules_flask : list string :=
  [ "Используй Blueprints для организации приложения";
    "Применяй декораторы для авторизации";
    "Используй Flask-SQLAlchemy для работы с БД";
    "Валидируй данные с помощью Marshmallow или WTForms";
    "Применяй application factory pattern" ].

Definition framework_rules : gmap string (list string) :=
  list_to_map
    [ ("react", framework_rules_react);
      ("django", framework_rules_django);
      ("flask", framework_rules_flask) ].

(** *** A part of [str.lower] and [str.strip] to run examples with

    [str.lower] on the Latin letters of ASCII and on the letters of the
    Russian alphabet (two bytes each in UTF-8), other bytes unchanged;
    [str.strip] on the white space of ASCII.  The properties below are
    proved for every pair of functions in their place. *)

Definition between (lo n hi : nat) : bool := (lo <=? n)%nat && (n <=? hi)%nat.

Fixpoint py_lower (s : string) : string :=
  match s with
  | EmptyString => EmptyString
  | String c rest =>
      let n := nat_of_ascii c in
      if between 65 n 90 then String (ascii_of_nat (n + 32)) (py_lower rest)
      else if (n =? 208)%nat then
        match rest with
        | String d rest' =>
            let m := nat_of_ascii d in
            if between 144 m 159 then
              String c (String (ascii_of_nat (m + 32)) (py_lower rest'))
            else if between 160 m 175 then
              String (ascii_of_nat 209) (String (ascii_of_nat (m - 32)) (py_lower rest'))
            else if (m =? 129)%nat then
              String (ascii_of_nat 209) (String (ascii_of_nat 145) (py_lower rest'))
            else String c (String d (py_lower rest'))
        | EmptyString => String c EmptyString
        end
      else String c (py_lower rest)
  end.

Definition is_space (c : ascii) : bool :=
  let n := nat_of_ascii c in between 9 n 13 || between 28 n 32.

Fixpoint lstrip (s : string) : string :=
  match s with
  | String c rest => if is_space c then lstrip rest else s
  | EmptyString => EmptyString
  end.

Fixpoint rstrip (s : string) : string :=
  match s with
  | String c rest =>
      match rstrip rest with
      | EmptyString => if is_space c then EmptyString else String c EmptyString
      | rest' => String c rest'
      end
  | EmptyString => EmptyString
  end.

Definition py_strip (s : string) : string := rstrip (lstrip s).

(** [_is_web_project], lines 363-372 *)
Definition _is_web_project (config_data : config_data_t) : bool :=
  let ps := default no_project_structure (project_structure config_data) in
  let langs := default [] (languages ps) in
  let fws := default [] (frameworks ps) in
  let web_indicators := ["javascript"; "typescript"; "nodejs"; "react"; "vue"; "angular"] in
  existsb (fun indicator => bool_decide (indicator ∈ langs ++ fws)) web_indicators.

(** [_has_tests], lines 374-386 *)
Definition _has_tests (config_data : config_data_t) : bool :=
  let ps := default no_project_structure (project_structure config_data) in
  let counts := default ∅ (file_counts ps) in
  let test_indicators := [".test."; ".spec."; "_test."; "test_"; "tests/"] in
  existsb (fun file_pattern => any_keyword test_indicators file_pattern)
    (fst <$> map_to_list counts).

Section generator.
(** [str.lower], [str.strip] and the time stamp
    [datetime.now().strftime(...)] of the run. *)
Variable lower : string -> string.
Variable strip : string -> string.
Variable now : string.

(** [_select_base_rules], lines 160-185 *)
Definition _select_base_rules (config_data : config_data_t)
    (performance_data : performance_data_t) : list string :=
  let selected := take 3 (base_rules !!! "general") in
  let selected :=
    if _is_web_project config_data
    then selected ++ take 3 (base_rules !!! "security") else selected in
  let issues := default [] (performance_issues performance_data) in
  let selected :=
    match issues with
    | _ :: _ => selected ++ take 2 (base_rules !!! "performance")
    | [] => selected
    end in
  let selected :=
    if _has_tests config_data
    then selected ++ take 3 (base_rules !!! "testing")
    else selected ++ ["Создавай тесты для критически важного функционала"] in
  selected ++ take 2 (base_rules !!! "documentation").

(** [_select_language_rules], lines 187-199 *)
Definition _select_language_rules (config_data : config_data_t) : list string :=
  let ps := default no_project_structure (project_structure config_data) in
  flat_map (fun language =>
              match language_specific_rules !! language with
              | Some rules => take 5 rules
              | None => []
              end) (default [] (languages ps)).

(** [_detect_specific_frameworks], lines 388-395 *)
Definition _detect_specific_frameworks (config_data : config_data_t) : list string := [].

(** [_select_framework_rules], lines 201-216 *)
Definition _select_framework_rules (config_data : config_data_t) : list string :=
  let ps := default no_project_structure (project_structure config_data) in
  let fws := default [] (frameworks ps) ++ _detect_specific_frameworks config_data in
  flat_map (fun framework =>
              match framework_rules !! framework with
              | Some rules => take 3 rules
              | None => []
              end) fws.

(** [_generate_adaptive_rules], lines 218-244 *)
Definition _generate_adaptive_rules (performance_data : performance_data_t) : list string :=
  let issues := default [] (performance_issues performance_data) in
  let adaptive_rules :=
    flat_map (fun issue =>
      if String.eqb (issue_type issue) "memory" then
        [ "Освобождай неиспользуемые ресурсы и закрывай соединения";
          "Используй генераторы вместо списков для больших данных";
          "Мониторь использование памяти в критических частях кода" ]
      else if String.eqb (issue_type issue) "cpu" then
        [ "Оптимизируй алгоритмы с высокой вычислительной сложностью";
          "Используй многопоточность для CPU-интенсивных задач";
          "Кеширyй результаты дорогостоящих вычислений" ]
      else []) issues in
  match default [] (perf_error_patterns performance_data) with
  | _ :: _ =>
      adaptive_rules ++ ["Обрабатывай исключения на уровне приложения, не игнорируй их"]
  | [] => adaptive_rules
  end.

(** [_is_custom_rule], lines 397-417 *)
Definition _is_custom_rule (rule : string) : bool :=
  let all_base_rules :=
    concat (snd <$> map_to_list base_rules)
    ++ concat (snd <$> map_to_list language_specific_rules)
    ++ concat (snd <$> map_to_list framework_rules) in
  let rule_lower := strip (lower rule) in
  negb (existsb (fun base_rule => String.eqb rule_lower (strip (lower base_rule)))
          all_base_rules).

(** [_preserve_custom_rules], lines 246-260 *)
Definition _preserve_custom_rules (config_data : config_data_t) : list string :=
  let cr := default no_current_rules (current_rules config_data) in
  match rules_exists cr, rules_content cr with
  | Some true, Some (String c content) =>
      let existing_content := String c content in
      flat_map (fun line =>
        let line := strip line in
        if negb (String.eqb line EmptyString) && negb (String.prefix "#" line)
           && _is_custom_rule line
        then [line] else []) (split_lines existing_content)
  | _, _ => []
  end.

(** The loop of [_remove_duplicates], lines 264-271. *)
Fixpoint remove_duplicates_from (seen : gset string) (unique_rules : list string)
    (rules : list string) : list string :=
  match rules with
  | [] => unique_rules
  | rule :: rules =>
      let rule_lower := strip (lower rule) in
      if decide (rule_lower ∈ seen)
      then remove_duplicates_from seen unique_rules rules
      else remove_duplicates_from ({[ rule_lower ]} ∪ seen) (unique_rules ++ [rule]) rules
  end.

(** [_remove_duplicates], lines 262-273 *)
Definition _remove_duplicates (rules : list string) : list string :=
  remove_duplicates_from ∅ [] rules.

(** [rule_priority], lines 278-298 *)
Definition rule_priority (rule : string) : Z :=
  let rule_lower := lower rule in
  if any_keyword ["security"; "пароль"; "ключ"; "auth"] rule_lower then 1
  else if any_keyword ["test"; "тест"; "качество"] rule_lower then 2
  else if any_keyword ["performance"; "производительность"; "оптимиз"] rule_lower then 3
  else if any_keyword ["style"; "стиль"; "комментар"; "документ"] rule_lower then 4
  else 5.

(** [sorted(items, key=key)] is a stable sort; any stable sort returns
    the same list, insertion from the right is the one written here. *)
Fixpoint insert_by_key {A} (key : A -> Z) (x : A) (l : list A) : list A :=
  match l with
  | [] => [x]
  | y :: l' => if (key x <=? key y)%Z then x :: l else y :: insert_by_key key x l'
  end.

Definition sorted_by_key {A} (key : A -> Z) (items : list A) : list A :=
  foldr (insert_by_key key) [] items.

(** [_prioritize_rules], lines 275-300 *)
Definition _prioritize_rules (rules : list string) (config_data : config_data_t)
    : list string :=
  sorted_by_key rule_priority rules.

(** The category a rule is printed under, lines 336-350. *)
Definition rule_category (rule : string) : string :=
  let rule_lower := lower rule in
  if any_keyword ["security"; "безопас"; "пароль"; "ключ"] rule_lower then "Безопасность"
  else if any_keyword ["test"; "тест"] rule_lower then "Тестирование"
  else if any_keyword ["performance"; "производительность"; "оптимиз"] rule_lower
    then "Производительность"
  else if any_keyword ["doc"; "документ"; "комментар"] rule_lower then "Документация"
  else if any_keyword ["style"; "стиль"; "format"; "качество"] rule_lower
    then "Качество кода"
  else "Общие правила".

Definition category_names : list string :=
  [ "Безопасность"; "Качество кода"; "Производительность"; "Тестирование";
    "Документация"; "Общие правила" ].

(** The lines of one category, lines 353-359. *)
Definition category_lines (rules : list string) (category_name : string) : list string :=
  match filter (fun rule => rule_category rule = category_name) rules with
  | [] => []
  | category_rules =>
      ["## " +:+ category_name; EmptyString]
      ++ ((fun rule => "- " +:+ rule) <$> category_rules) ++ [EmptyString]
  end.

(** [_format_rules_file], lines 302-361.  [project_info['project_type']]
    is read whenever [project_info.get('project_type')] is not
    ['unknown'], [None] included. *)
Definition _format_rules_file (rules : list string) (config_data : config_data_t)
    : result string :=
  let lines :=
    [ "# Правила Cline для проекта"; "# Автогенерированно: " +:+ now; EmptyString ] in
  let project_info := default no_project_structure (project_structure config_data) in
  match
    (if bool_decide (project_type project_info = Some "unknown") then inr lines
     else match getitem "project_type" (project_type project_info) with
          | inr ptype => inr (lines ++ ["# Тип проекта: " +:+ ptype])
          | inl e => inl e
          end)
  with
  | inl e => inl e
  | inr lines =>
      let lines :=
        match languages project_info with
        | Some (l :: ls) => lines ++ ["# Языки: " +:+ join ", " (l :: ls)]
        | _ => lines
        end in
      let lines :=
        match frameworks project_info with
        | Some (f :: fs) => lines ++ ["# Фреймворки: " +:+ join ", " (f :: fs)]
        | _ => lines
        end in
      let lines := lines ++ [EmptyString] in
      let lines := lines ++ flat_map (category_lines rules) category_names in
      inr (join newline lines)
  end.

(** [generate_improved_rules], lines 125-158 *)
Definition generate_improved_rules (config_data : config_data_t)
    (performance_data : performance_data_t) : result string :=
  let selected_rules :=
    _select_base_rules config_data performance_data
    ++ _select_language_rules config_data
    ++ _select_framework_rules config_data
    ++ _generate_adaptive_rules performance_data
    ++ _preserve_custom_rules config_data in
  let selected_rules := _remove_duplicates selected_rules in
  let selected_rules := _prioritize_rules selected_rules config_data in
  _format_rules_file selected_rules config_data.
End generator.

End RulesGenerator.


(** ** Definitions for the further properties *)

(** An issue of the given type and of high severity, the test of lines 246
    and 249. *)
Definition is_high (kind : string) (issue : issue_t) : bool :=
  String.eqb (issue_type issue) kind && String.eqb (issue_severity issue) "high".

(** A snapshot on a large idle machine with a memory issue of high
    severity. *)
Definition large_machine_with_issue : performance_data_t :=
  {| system_metrics :=
       Some {| memory := Some {| memory_percent := Some 40%Q;
                                 memory_total := Some (32 * 2 ^ 30)%Z |};
               cpu := Some {| cpu_percent := Some 10%Q; cpu_count := Some 16%Z |};
               other_sections := ["swap"; "disk"] |};
     performance_issues :=
       Some [ {| issue_type := "memory"; issue_severity := "high" |} ];
     perf_error_patterns := None |}.


(** [_determine_project_type] (config_analyzer.py, lines 375-393); only
    membership in [structure['languages']] is read. *)
Definition _determine_project_type (langs : list string) : string :=
  if bool_decide ("python" ∈ langs) then "python"
  else if bool_decide ("javascript" ∈ langs) || bool_decide ("typescript" ∈ langs) then "web"
  else if bool_decide ("java" ∈ langs) then "java"
  else if bool_decide ("rust" ∈ langs) then "rust"
  else if bool_decide ("go" ∈ langs) then "go"
  else if bool_decide ("cpp" ∈ langs) then "cpp"
  else "unknown".

(** A project structure as [_analyze_project_structure] builds it (lines
    137-178): the project type is the one determined from the languages. *)
Definition analyzed_project (langs fws : list string) (files : Z)
    (counts : gmap string Z) : project_structure_t :=
  {| project_type := Some (_determine_project_type langs);
     languages := Some langs; frameworks := Some fws;
     total_files := Some files; file_counts := Some counts |}.

(** A user who switched auto-approval on, in a fresh installation (fewer
    than ten sessions, where the novice layer switches it off). *)
Definition cautious_user_config : config_data_t :=
  {| project_structure := None;
     vscode_settings :=
       Some {| cline_settings := Some {[ "autoApprove" := VB true; "theme" := VS "dark" ]} |};
     usage_patterns := Some {| sessions_count := Some 3%Z; error_patterns := None |};
     current_rules := None; current_workflows := None |}.

(** [_analyze_vscode_settings] (config_analyzer.py, lines 106-135) on the
    value read from [settings.json], [None] when the file does not exist:
    the entries whose key starts with ['cline.'] are kept, under their full
    keys.  A value that is no object has no [items()]; the exception is
    caught and the dictionary returned has no ['cline_settings']. *)
Definition _analyze_vscode_settings (settings_file : option value) : vscode_settings_t :=
  match settings_file with
  | None => {| cline_settings := Some ∅ |}
  | Some (VDict settings) =>
      {| cline_settings :=
           Some (filter (fun kv => Is_true (String.prefix "cline." kv.1)) settings) |}
  | Some _ => {| cline_settings := None |}
  end.

(** [update_vscode_settings] (main.py, lines 132-150) as a function from
    the value read from [settings.json] ([None] when the file does not
    exist) to the value written back; [None] when an exception is raised
    ([items()] of a value that is no dictionary, item assignment on a
    value that is no object). *)
Definition update_vscode_settings (settings_file : option value) (config : tree)
    : option value :=
  let settings := default (VDict ∅) settings_file in
  match default (VDict ∅) (config !! "cline_settings") with
  | VDict cline_settings =>
      map_fold (fun key value settings =>
                  match settings with
                  | Some (VDict s) => Some (VDict (<[ "cline." +:+ key := value ]> s))
                  | _ => None
                  end) (Some settings) cline_settings
  | _ => None
  end.

(** The snapshot of a run: the sections as the analyzer fills them. *)
Definition analyzed_config (settings_file : option value) (ps : project_structure_t)
    (up : usage_patterns_t) (cr : current_rules_t) (cw : current_workflows_t)
    : config_data_t :=
  {| project_structure := Some ps;
     vscode_settings := Some (_analyze_vscode_settings settings_file);
     usage_patterns := Some up;
     current_rules := Some cr;
     current_workflows := Some cw |}.

(** The rules of the three catalogs, in the order [_is_custom_rule]
    collects them (rules_generator.py, lines 400-409). *)
Definition all_base_rules : list string :=
  concat (snd <$> map_to_list RulesGenerator.base_rules)
  ++ concat (snd <$> map_to_list RulesGenerator.language_specific_rules)
  ++ concat (snd <$> map_to_list RulesGenerator.framework_rules).

(** [_analyze_clinerules] (config_analyzer.py, lines 39-70) on the text of
    [.clinerules], [None] when the file does not exist. *)
Definition _analyze_clinerules (clinerules : option string) : current_rules_t :=
  match clinerules with
  | None => {| rules_exists := Some false; rules_content := Some EmptyString |}
  | Some content => {| rules_exists := Some true; rules_content := Some content |}
  end.

(** A Python project without a [.clinerules] file, and the same project
    with the given text as its [.clinerules]. *)
Definition python_project : project_structure_t :=
  analyzed_project ["python"] [] 12 ∅.

Definition project_with_rules (clinerules : option string) : config_data_t :=
  {| project_structure := Some python_project;
     vscode_settings := None; usage_patterns := None;
     current_rules := Some (_analyze_clinerules clinerules);
     current_workflows := None |}.


(** ** The workflow optimizer (workflow_optimizer.py) *)

Module WorkflowOptimizer.

(** A workflow template: ['name'], ['description'] and ['steps']. *)
Record workflow_data_t := {
  name : string;
  description : string;
  steps : list string
}.

#[global] Instance workflow_data_inhabited : Inhabited workflow_data_t :=
  populate {| name := EmptyString; description := EmptyString; steps := [] |}.

(** *** Catalogs, lines 15-209.  The workflows of a language or of a
    framework are kept in the order of the dictionary. *)

Definition base_workflows_development : workflow_data_t :=
  {| name := "Разработка нового функционала";
     description := "Стандартный процесс разработки новой функции";
     steps :=
       [ "1. Анализ требований и планирование архитектуры";
         "2. Создание или обновление технического задания";
         "3. Разработка основной логики функции";
         "4. Написание unit-тестов для новой функциональности";
         "5. Создание интеграционных тестов при необходимости";
         "6. Обновление документации (README, docs, комментарии)";
         "7. Проведение код-ревью и рефакторинг при необходимости";
         "8. Тестирование в тестовой среде";
         "9. Создание changelog записи";
         "10. Подготовка к деплою" ] |}.

Definition base_workflows_bugfix : workflow_data_t :=
  {| name := "Исправление багов";
     description := "Процесс исправления обнаруженных ошибок";
     steps :=
       [ "1. Воспроизведение и подтверждение бага";
         "2. Анализ кода и выявление причины проблемы";
         "3. Разработка тест-кейса для воспроизведения бага";
         "4. Исправление проблемы в коде";
         "5. Проверка, что тест теперь проходит успешно";
         "6. Запуск полного набора тестов";
         "7. Обновление документации при необходимости";
         "8. Код-ревью изменений";
         "9. Тестирование исправления в тестовой среде";
         "10. Документирование исправления в changelog" ] |}.

Definition base_workflows_refactoring : workflow_data_t :=
  {| name := "Рефакторинг кода";
     description := "Улучшение структуры и качества существующего кода";
     steps :=
       [ "1. Определение области для рефакторинга";
         "2. Создание плана рефакторинга";
         "3. Написание тестов для покрытия текущего поведения";
         "4. Поэтапное проведение рефакторинга";
         "5. Запуск тестов после каждого значимого изменения";
         "6. Обновление документации и комментариев";
         "7. Проверка производительности после рефакторинга";
         "8. Код-ревью изменений";
         "9. Интеграционное тестирование";
         "10. Документирование изменений" ] |}.

Definition base_workflows_testing : workflow_data_t :=
  {| name := "Тестирование";
     description := "Создание и поддержание тестового покрытия";
     steps :=
       [ "1. Анализ текущего тестового покрытия";
         "2. Определение критических областей для тестирования";
         "3. Написание unit-тестов для новых компонентов";
         "4. Создание интеграционных тестов";
         "5. Разработка end-to-end тестов при необходимости";
         "6. Настройка автоматического запуска тестов";
         "7. Создание моков для внешних зависимостей";
         "8. Тестирование граничных случаев и ошибок";
         "9. Анализ и улучшение покрытия тестами";
         "10. Документирование тестовых сценариев" ] |}.

Definition base_workflows_deployment : workflow_data_t :=
  {| name := "Деплоймент";
     description := "Процесс развертывания приложения";
     steps :=
       [ "1. Подготовка production окружения";
         "2. Проверка всех тестов перед деплоем";
         "3. Создание резервной копии текущей версии";
         "4. Обновление переменных окружения при необходимости";
         "5. Запуск деплоймента в production";
         "6. Проверка работоспособности сервиса после деплоя";
         "7. Мониторинг логов и метрик";
         "8. Smoke тестирование основной функциональности";
         "9. Уведомление команды об успешном деплое";
         "10. Обновление документации по развертыванию" ] |}.

Definition base_workflows : gmap string workflow_data_t :=
  list_to_map
    [ ("development", base_workflows_development);
      ("bugfix", base_workflows_bugfix);
      ("refactoring", base_workflows_refactoring);
      ("testing", base_workflows_testing);
      ("deployment", base_workflows_deployment) ].

Definition language_workflows_python_setup : workflow_data_t :=
  {| name := "Настройка Python проекта";
     description := "Инициализация и настройка Python проекта";
     steps :=
       [ "1. Создание виртуального окружения (python -m venv venv)";
         "2. Активация виртуального окружения";
         "3. Создание requirements.txt или pyproject.toml";
         "4. Установка зависимостей разработки (pytest, black, flake8)";
         "5. Настройка pre-commit hooks";
         "6. Создание .gitignore для Python проекта";
         "7. Настройка IDE/редактора (VS Code settings)";
         "8. Создание базовой структуры проекта";
         "9. Инициализация тестового фреймворка";
         "10. Создание README.md с инструкциями по запуску" ] |}.

Definition language_workflows_python_package : workflow_data_t :=
  {| name := "Создание Python пакета";
     description := "Процесс создания переиспользуемого Python пакета";
     steps :=
       [ "1. Создание setup.py или pyproject.toml";
         "2. Определение структуры пакета (__init__.py файлы)";
         "3. Написание основного функционала модулей";
         "4. Создание comprehensive тестов";
         "5. Написание документации (docstrings, README)";
         "6. Настройка CI/CD для автоматического тестирования";
         "7. Версионирование пакета (semantic versioning)";
         "8. Создание CHANGELOG.md";
         "9. Подготовка к публикации в PyPI";
         "10. Создание документации на Read the Docs" ] |}.

Definition language_workflows_node_setup : workflow_data_t :=
  {| name := "Настройка Node.js проекта";
     description := "Инициализация Node.js/npm проекта";
     steps :=
       [ "1. Инициализация проекта (npm init)";
         "2. Установка зависимостей разработки (eslint, prettier, jest)";
         "3. Создание .eslintrc и .prettierrc конфигураций";
         "4. Настройка npm scripts в package.json";
         "5. Создание .gitignore для Node.js";
         "6. Настройка Jest для тестирования";
         "7. Создание базовой структуры проекта (src, tests)";
         "8. Настройка Babel при необходимости";
         "9. Инициализация Git репозитория";
         "10. Создание README с инструкциями" ] |}.

Definition language_workflows_react_component : workflow_data_t :=
  {| name := "Создание React компонента";
     description := "Процесс разработки React компонента";
     steps :=
       [ "1. Планирование интерфейса и props компонента";
         "2. Создание базовой структуры компонента";
         "3. Добавление PropTypes или TypeScript типов";
         "4. Написание unit-тестов с Jest и React Testing Library";
         "5. Создание Storybook истории для компонента";
         "6. Добавление стилизации (CSS/styled-components)";
         "7. Тестирование accessibility (a11y)";
         "8. Оптимизация производительности (React.memo, useMemo)";
         "9. Интеграция в основное приложение";
         "10. Документирование компонента и его API" ] |}.

Definition language_workflows : gmap string (list (string * workflow_data_t)) :=
  list_to_map
    [ ("python", [ ("python_setup", language_workflows_python_setup); ("python_package", language_workflows_python_package) ]);
      ("javascript", [ ("node_setup", language_workflows_node_setup); ("react_component", language_workflows_react_component) ]) ].

Definition framework_workflows_django_app : workflow_data_t :=
  {| name := "Создание Django приложения";
     description := "Разработка нового Django app";
     steps :=
       [ "1. Создание Django app (python manage.py startapp)";
         "2. Регистрация app в settings.py";
         "3. Создание моделей в models.py";
         "4. Создание и применение миграций";
         "5. Создание views для обработки запросов";
         "6. Настройка URLs в urls.py";
         "7. Создание шаблонов в templates/";
         "8. Написание тестов для models и views";
         "9. Создание Django forms при необходимости";
         "10. Настройка admin interface" ] |}.

Definition framework_workflows_flask_api : workflow_data_t :=
  {| name := "Создание Flask API";
     description := "Разработка RESTful API на Flask";
     steps :=
       [ "1. Настройка Flask приложения и blueprints";
         "2. Создание моделей с SQLAlchemy";
         "3. Настройка сериализации с Marshmallow";
         "4. Создание endpoints для CRUD операций";
         "5. Добавление валидации данных";
         "6. Настройка аутентификации и авторизации";
         "7. Написание unit и integration тестов";
         "8. Создание API документации (Swagger/OpenAPI)";
         "9. Добавление логирования и обработки ошибок";
         "10. Настройка CORS и security headers" ] |}.

Definition framework_workflows : gmap string (list (string * workflow_data_t)) :=
  list_to_map
    [ ("django", [ ("django_app", framework_workflows_django_app) ]);
      ("flask", [ ("flask_api", framework_workflows_flask_api) ]) ].

(** [s.endswith(suffix)] *)
Definition endswith (s suffix : string) : bool :=
  String.prefix (String.rev suffix) (String.rev s).

(** [_needs_refactoring], lines 376-390 *)
Definition _needs_refactoring (config_data : config_data_t) : bool :=
  let ps := default no_project_structure (project_structure config_data) in
  if (50 <? default 0 (total_files ps))%Z then true
  else if (2 <? length (default [] (languages ps)))%nat then true
  else false.

(** [_has_adequate_tests], lines 392-410.  The ratio of two counts is
    compared with 0.2 as a rational number; so does the floating-point
    division for counts below 2^53. *)
Definition _has_adequate_tests (config_data : config_data_t) : bool :=
  let ps := default no_project_structure (project_structure config_data) in
  let counts := default ∅ (file_counts ps) in
  let total := map_fold (fun _ count acc => (acc + count)%Z) 0%Z counts in
  let test_files :=
    map_fold (fun ext count acc =>
                if RulesGenerator.contains "test" ext || RulesGenerator.contains "spec" ext
                then (acc + count)%Z else acc) 0%Z counts in
  if (0 <? total)%Z
  then Qle_bool (2 # 10) (inject_Z test_files / inject_Z total)
  else false.

(** [_is_deployable_project], lines 412-422 *)
Definition _is_deployable_project (config_data : config_data_t) : bool :=
  let ps := default no_project_structure (project_structure config_data) in
  let langs := default [] (languages ps) in
  let fws := default [] (frameworks ps) in
  let web_indicators := ["javascript"; "typescript"; "python"; "nodejs"] in
  existsb (fun indicator => bool_decide (indicator ∈ langs ++ fws)) web_indicators.

(** [_has_react_indicators], lines 476-482 *)
Definition _has_react_indicators (config_data : config_data_t) : bool :=
  let ps := default no_project_structure (project_structure config_data) in
  let counts := default ∅ (file_counts ps) in
  bool_decide (".jsx" ∈ dom counts) || bool_decide (".tsx" ∈ dom counts).

(** [_is_workflow_needed], lines 424-444 *)
Definition _is_workflow_needed (workflow_name : string) (config_data : config_data_t)
    : bool :=
  let ps := default no_project_structure (project_structure config_data) in
  let langs := default [] (languages ps) in
  if String.eqb workflow_name "python_setup" then bool_decide ("python" ∈ langs)
  else if String.eqb workflow_name "node_setup"
    then bool_decide ("javascript" ∈ langs) || bool_decide ("typescript" ∈ langs)
  else if String.eqb workflow_name "react_component" then _has_react_indicators config_data
  else if endswith workflow_name "_app" || endswith workflow_name "_api" then true
  else true.

(** [_is_custom_workflow], lines 446-465 *)
Definition _is_custom_workflow (workflow_name : string) (workflow_info : workflow_info_t)
    : bool :=
  if bool_decide (workflow_name ∈ dom base_workflows) then false
  else if existsb (fun lang_workflows => bool_decide (workflow_name ∈ lang_workflows.*1))
            (snd <$> map_to_list language_workflows) then false
  else if existsb (fun fw_workflows => bool_decide (workflow_name ∈ fw_workflows.*1))
            (snd <$> map_to_list framework_workflows) then false
  else true.

(** [_detect_frameworks_from_files], lines 467-474 *)
Definition _detect_frameworks_from_files (config_data : config_data_t) : list string := [].

Section optimizer.
(** The time stamp [datetime.now().strftime(...)] put on a workflow, read
    when the workflow is formatted. *)
Variable now : workflow_data_t -> string.

(** [_format_workflow], lines 350-374 *)
Definition _format_workflow (workflow_data : workflow_data_t) : string :=
  let lines :=
    [ "# " +:+ name workflow_data; EmptyString;
      "**Описание:** " +:+ description workflow_data; EmptyString;
      "## Шаги выполнения:"; EmptyString ] in
  let lines := lines ++ steps workflow_data in
  let lines :=
    lines ++
    [ EmptyString; "## Дополнительные заметки:"; EmptyString;
      "- Всегда создавайте резервные копии перед критическими изменениями";
      "- Проводите код-ревью для всех значимых изменений";
      "- Документируйте все изменения в changelog";
      "- Тестируйте изменения в изолированной среде";
      EmptyString;
      "*Создано автоматически: " +:+ now workflow_data +:+ "*" ] in
  RulesGenerator.join RulesGenerator.newline lines.

(** [_select_base_workflows], lines 237-257 *)
Definition _select_base_workflows (config_data : config_data_t)
    (performance_data : performance_data_t) : gmap string string :=
  let selected : gmap string string := ∅ in
  let selected :=
    <[ "development" := _format_workflow (base_workflows !!! "development") ]> selected in
  let selected :=
    <[ "bugfix" := _format_workflow (base_workflows !!! "bugfix") ]> selected in
  let selected :=
    if _needs_refactoring config_data
    then <[ "refactoring" := _format_workflow (base_workflows !!! "refactoring") ]> selected
    else selected in
  let selected :=
    if negb (_has_adequate_tests config_data)
    then <[ "testing" := _format_workflow (base_workflows !!! "testing") ]> selected
    else selected in
  let selected :=
    if _is_deployable_project config_data
    then <[ "deployment" := _format_workflow (base_workflows !!! "deployment") ]> selected
    else selected in
  selected.

(** The loops of lines 266-272 and 287-292: for every key that the
    catalog has, its workflows that are needed are formatted and stored. *)
Definition select_workflows (catalog : gmap string (list (string * workflow_data_t)))
    (config_data : config_data_t) (keys : list string) : gmap string string :=
  foldl (fun selected key =>
           match catalog !! key with
           | Some key_workflows =>
               foldl (fun selected item =>
                        if _is_workflow_needed item.1 config_data
                        then <[ item.1 := _format_workflow item.2 ]> selected
                        else selected) selected key_workflows
           | None => selected
           end) ∅ keys.

(** [_select_language_workflows], lines 259-274 *)
Definition _select_language_workflows (config_data : config_data_t) : gmap string string :=
  let ps := default no_project_structure (project_structure config_data) in
  select_workflows language_workflows config_data (default [] (languages ps)).

(** [_select_framework_workflows], lines 276-294 *)
Definition _select_framework_workflows (config_data : config_data_t) : gmap string string :=
  let ps := default no_project_structure (project_structure config_data) in
  let fws := default [] (frameworks ps) ++ _detect_frameworks_from_files config_data in
  select_workflows framework_workflows config_data fws.

(** [_preserve_custom_workflows], lines 296-309.  [workflow_info['content']]
    raises when a custom workflow has no ['content']. *)
Definition _preserve_custom_workflows (config_data : config_data_t)
    : RulesGenerator.result (gmap string string) :=
  let cw := default no_current_workflows (current_workflows config_data) in
  if default false (workflows_exists cw) then
    map_fold (fun workflow_name workflow_info custom_workflows =>
                match custom_workflows with
                | inl e => inl e
                | inr custom =>
                    if _is_custom_workflow workflow_name workflow_info then
                      match RulesGenerator.getitem "content" (workflow_content workflow_info) with
                      | inr content => inr (<[ workflow_name := content ]> custom)
                      | inl e => inl e
                      end
                    else inr custom
                end) (inr ∅) (default ∅ (workflows cw))
  else inr ∅.

(** The template of lines 318-333, with the steps added for the issues. *)
Definition perf_workflow (additional_steps : list string) : workflow_data_t :=
  {| name := "Оптимизация производительности";
     description := "Процесс выявления и устранения проблем производительности";
     steps :=
       [ "1. Профилирование приложения для выявления узких мест";
         "2. Анализ использования памяти и CPU";
         "3. Оптимизация алгоритмов и структур данных";
         "4. Внедрение кеширования где это уместно";
         "5. Оптимизация запросов к базе данных";
         "6. Минификация и сжатие статических ресурсов";
         "7. Настройка CDN и балансировки нагрузки";
         "8. Мониторинг метрик производительности";
         "9. A/B тестирование оптимизаций";
         "10. Документирование изменений производительности" ]
       ++ additional_steps |}.

(** The steps added for the issues, lines 335-341. *)
Definition additional_steps (performance_issues : list issue_t) : list string :=
  flat_map (fun issue =>
              if String.eqb (issue_type issue) "memory"
              then ["- Анализ утечек памяти и оптимизация GC"]
              else if String.eqb (issue_type issue) "cpu"
              then ["- Распараллеливание CPU-интенсивных операций"]
              else []) performance_issues.

(** [_adapt_workflows_for_performance], lines 311-348 *)
Definition _adapt_workflows_for_performance (workflows : gmap string string)
    (performance_data : performance_data_t) : gmap string string :=
  match default [] (performance_issues performance_data) with
  | [] => workflows
  | issue :: issues =>
      <[ "performance_optimization" :=
           _format_workflow (perf_workflow (additional_steps (issue :: issues))) ]> workflows
  end.

(** [optimize_workflows], lines 211-235; [update] lets the later
    dictionary win. *)
Definition optimize_workflows (config_data : config_data_t)
    (performance_data : performance_data_t)
    : RulesGenerator.result (gmap string string) :=
  let workflows : gmap string string := ∅ in
  let workflows := _select_base_workflows config_data performance_data ∪ workflows in
  let workflows := _select_language_workflows config_data ∪ workflows in
  let workflows := _select_framework_workflows config_data ∪ workflows in
  match _preserve_custom_workflows config_data with
  | inl e => inl e
  | inr custom_workflows =>
      let workflows := custom_workflows ∪ workflows in
      inr (_adapt_workflows_for_performance workflows performance_data)
  end.

End optimizer.

End WorkflowOptimizer.

(** [_analyze_workflows] (config_analyzer.py, lines 72-104) on the texts
    of the [*.md] files of [.cline/workflows], by file stem; [None] when
    the directory does not exist. *)
Definition _analyze_workflows (files : option (gmap string string)) : current_workflows_t :=
  match files with
  | None => {| workflows_exists := Some false; workflows := Some ∅ |}
  | Some files =>
      {| workflows_exists := Some true;
         workflows := Some ((fun content => {| workflow_content := Some content |}) <$> files) |}
  end.

(** The names of the workflows of the three catalogs. *)
Definition workflow_names : list string :=
  (map_to_list WorkflowOptimizer.base_workflows).*1
  ++ concat ((fun key_workflows => key_workflows.*1)
               <$> (snd <$> map_to_list WorkflowOptimizer.language_workflows))
  ++ concat ((fun key_workflows => key_workflows.*1)
               <$> (snd <$> map_to_list WorkflowOptimizer.framework_workflows)).

(** The workflows [optimize_workflows] has collected from the catalogs
    before it adds the custom ones (lines 219-226). *)
Definition generated_workflows (now : WorkflowOptimizer.workflow_data_t -> string)
    (config_data : config_data_t) (performance_data : performance_data_t)
    : gmap string string :=
  WorkflowOptimizer._select_framework_workflows now config_data
  ∪ (WorkflowOptimizer._select_language_workflows now config_data
     ∪ (WorkflowOptimizer._select_base_workflows now config_data performance_data ∪ ∅)).

(** The snapshot of a project whose workflow directory holds the given
    files. *)
Definition project_with_workflows (files : option (gmap string string)) : config_data_t :=
  {| project_structure := Some python_project;
     vscode_settings := None; usage_patterns := None; current_rules := None;
     current_workflows := Some (_analyze_workflows files) |}.

(** A snapshot with one CPU issue. *)
Definition cpu_issue_data : performance_data_t :=
  {| system_metrics := None;
     performance_issues := Some [ {| issue_type := "cpu"; issue_severity := "high" |} ];
     perf_error_patterns := None |}.

(** ** Induction on trees *)

Lemma depth_lookup (m : tree) k v : m !! k = Some v -> depth v < depth (VDict m).
Proof.
  simpl. revert k v.
  apply (map_fold_weak_ind
           (fun r (m : tree) => forall k v, m !! k = Some v -> depth v < S r)).
  - intros k v H. by rewrite lookup_empty in H.
  - intros i x m' r Hi IH k v H.
    destruct (decide (i = k)) as [->|Hne].
    + rewrite lookup_insert_eq in H. injection H as ->. lia.
    + rewrite lookup_insert_ne in H by done. specialize (IH _ _ H). lia.
Qed.

Lemma depth_elem (l : list value) v : v ∈ l -> depth v < depth (VList l).
Proof.
  simpl. induction 1 as [v l|v w l _ IH]; simpl; lia.
Qed.

Lemma value_depth_ind (P : value -> Prop) :
  (forall s, P (VScalar s)) ->
  (forall l, Forall P l -> P (VList l)) ->
  (forall m : tree, map_Forall (fun _ => P) m -> P (VDict m)) ->
  forall v, P v.
Proof.
  intros Hs Hl Hd v.
  remember (depth v) as n eqn:Hn. revert v Hn.
  induction n as [n IH] using lt_wf_ind. intros v ->.
  destruct v as [s|l|m].
  - apply Hs.
  - apply Hl, Forall_forall. intros x Hx.
    eapply IH; [by apply depth_elem|done].
  - apply Hd. intros k x Hk.
    eapply IH; [by eapply depth_lookup|done].
Qed.

(** In a model of values without object identity a deep copy is the value
    itself; the store model below is the one that tells copies apart. *)
Lemma deep_copy_id v : _deep_copy v = v.
Proof.
  induction v as [s|l IH|m IH] using value_depth_ind; simpl; [done| |].
  - f_equal. induction IH as [|x l Hx _ IHl]; [done|]. by apply (f_equal2 cons).
  - f_equal. apply map_eq. intros k. rewrite lookup_fmap.
    destruct (m !! k) as [x|] eqn:Hk; simpl; [|done].
    f_equal. by apply (IH k).
Qed.

Lemma deep_copy_tree_id (m : tree) : _deep_copy <$> m = m.
Proof.
  apply map_eq. intros k. rewrite lookup_fmap.
  destruct (m !! k); simpl; [|done]. by rewrite deep_copy_id.
Qed.

(** Key by key, [_merge_settings] is [merge_slot]. *)
Lemma lookup_merge_settings (base update : tree) k :
  _merge_settings base update !! k = merge_slot (base !! k) (update !! k).
Proof.
  unfold _merge_settings. simpl. rewrite deep_copy_tree_id. revert k.
  apply (map_fold_weak_ind (fun (r : tree) (m : tree) =>
           forall k, r !! k = merge_slot (base !! k) (m !! k))).
  - intros k. rewrite lookup_empty. unfold merge_slot.
    destruct (base !! k) as [[]|]; by rewrite ?deep_copy_id.
  - intros i x m r Hi IH k.
    assert (Hr : r !! i = base !! i).
    { rewrite IH, Hi. unfold merge_slot.
      destruct (base !! i) as [[]|]; by rewrite ?deep_copy_id. }
    destruct (decide (i = k)) as [<-|Hne].
    + rewrite lookup_insert_eq, Hr. unfold merge_slot.
      destruct (base !! i) as [[s|l|bm]|]; destruct x as [s'|l'|um];
        by rewrite lookup_insert_eq.
    + rewrite lookup_insert_ne by done. rewrite <- IH.
      destruct (r !! i) as [[s|l|bm]|]; destruct x as [s'|l'|um];
        by rewrite lookup_insert_ne.
Qed.

Ltac slot_cases :=
  cbv beta iota delta [merge_slot];
  rewrite ?deep_copy_id, ?deep_copy_tree_id; try done.

Lemma merge_slot_absent x : merge_slot x None = x.
Proof. destruct x as [[]|]; slot_cases. Qed.

Lemma merge_slot_nondict x v :
  is_dict v = false -> merge_slot x (Some v) = Some v.
Proof.
  intros Hv. destruct x as [[]|], v; try done; slot_cases.
Qed.

Lemma merge_settings_empty_l (d : tree) : _merge_settings ∅ d = d.
Proof.
  apply map_eq. intros k. rewrite lookup_merge_settings, lookup_empty.
  destruct (d !! k); slot_cases.
Qed.

Lemma merge_layers_app start l1 l2 :
  merge_layers start (l1 ++ l2) = merge_layers (merge_layers start l1) l2.
Proof. apply foldl_app. Qed.

(** The slot of a key after a fold is the fold of the slots. *)
Lemma lookup_merge_layers layers : forall start k,
  merge_layers start layers !! k = foldl merge_slot (start !! k) ((.!! k) <$> layers).
Proof.
  induction layers as [|L layers IH]; intros start k; simpl; [done|].
  unfold merge_layers in IH. by rewrite IH, lookup_merge_settings.
Qed.

Lemma foldl_merge_slot_absent us : forall x,
  Forall (fun u => u = None) us -> foldl merge_slot x us = x.
Proof.
  induction us as [|u us IH]; intros x Hus; simpl; [done|].
  inversion Hus as [|? ? -> Hus']; subst. rewrite merge_slot_absent. by apply IH.
Qed.

(** ** Idempotence of the fold *)

(** A layer that puts a non-mapping at the key cuts off everything before. *)
Lemma foldl_merge_slot_cut pre v post x :
  is_dict v = false ->
  foldl merge_slot x (pre ++ Some v :: post) = foldl merge_slot (Some v) post.
Proof.
  intros Hv. rewrite foldl_app. simpl. by rewrite merge_slot_nondict.
Qed.

(** When every layer has a mapping (or nothing) at the key, the slot after
    the fold is the fold of those mappings. *)
Lemma foldl_merge_slot_dicts us : forall x,
  Forall (fun u => nondict_slot u = false) us ->
  foldl merge_slot x us =
    match omap dict_of_slot us with
    | [] => x
    | ds => Some (VDict (merge_layers (dict_part x) ds))
    end.
Proof.
  induction us as [|u us IH]; intros x Hus; [done|].
  inversion Hus as [|? ? Hu Hus']; subst. simpl foldl. rewrite (IH _ Hus').
  destruct u as [[s|l|d]|]; simpl in Hu; try done;
    change (omap dict_of_slot (?u :: us))
      with (from_option (fun d => [d]) [] (dict_of_slot u) ++ omap dict_of_slot us);
    simpl app.
  - assert (Hx : merge_slot x (Some (VDict d))
                 = Some (VDict (_merge_settings (dict_part x) d))).
    { destruct x as [[]|]; unfold dict_part; simpl default;
        rewrite ?merge_settings_empty_l; slot_cases. }
    rewrite Hx. by destruct (omap dict_of_slot us).
  - by rewrite merge_slot_absent.
Qed.

Lemma merge_layers_idem_bounded n : forall layers : list tree,
  Forall (fun L => depth (VDict L) <= n) layers ->
  forall start,
    merge_layers (merge_layers start layers) layers = merge_layers start layers.
Proof.
  induction n as [|n IH]; intros layers Hb start.
  { destruct layers as [|L ?]; [done|].
    inversion Hb as [|? ? HL _]; subst. simpl in HL. lia. }
  apply map_eq. intros k. rewrite !lookup_merge_layers.
  set (us := (.!! k) <$> layers). generalize (start !! k). intros x.
  destruct (decide (Exists (fun u => nondict_slot u = true) us)) as [Hex|Hno].
  - apply Exists_exists in Hex as (u & Hin & Hu).
    apply list_elem_of_split in Hin as (pre & post & ->).
    destruct u as [v|]; [|done]. simpl in Hu. apply negb_true_iff in Hu.
    by rewrite !(foldl_merge_slot_cut pre v post _ Hu).
  - assert (Hall : Forall (fun u => nondict_slot u = false) us).
    { apply Forall_forall. intros u Hu. destruct (nondict_slot u) eqn:E; [|done].
      destruct Hno. apply Exists_exists. eauto. }
    rewrite !(foldl_merge_slot_dicts us _ Hall).
    destruct (omap dict_of_slot us) as [|d ds] eqn:Hds; [done|].
    change (dict_part (Some (VDict ?t))) with t. do 2 f_equal. apply IH.
    rewrite <- Hds. apply Forall_forall. intros d' Hd'.
    apply list_elem_of_omap in Hd' as (u & Hu & Hd').
    apply list_elem_of_fmap in Hu as (L & -> & HL).
    destruct (L !! k) as [[| |d'']|] eqn:HLk; simpl in Hd'; try done.
    injection Hd' as ->. apply depth_lookup in HLk.
    rewrite Forall_forall in Hb. specialize (Hb _ HL). lia.
Qed.

Lemma depth_bound_exists (layers : list tree) :
  exists n, Forall (fun L => depth (VDict L) <= n) layers.
Proof.
  induction layers as [|L layers [n IH]].
  - by exists 0.
  - exists (depth (VDict L) `max` n). constructor; [lia|].
    eapply Forall_impl; [exact IH|]. intros; simpl in *; lia.
Qed.

(** A layer that does not mention the key leaves its slot alone. *)
Lemma lookup_merge_layers_absent layers start k :
  Forall (fun L : tree => L !! k = None) layers ->
  merge_layers start layers !! k = start !! k.
Proof.
  intros H. rewrite lookup_merge_layers. apply foldl_merge_slot_absent.
  by apply Forall_fmap.
Qed.

(** ** Merge precedence *)

Lemma omap_dict_of_slot (k : string) (layers : list tree) :
  omap dict_of_slot ((.!! k) <$> layers)
  = omap (fun L : tree => dict_of_slot (L !! k)) layers.
Proof.
  induction layers as [|L layers IH]; [done|].
  rewrite fmap_cons. cbn [omap list_omap]. by rewrite <- IH.
Qed.

(** After a layer that sets a non-mapping value at the key, the slot of the
    key is the fold of the later layers' slots from that value. *)
Lemma lookup_merge_layers_cut (start overlay : tree) (earlier later : list tree) k v :
  overlay !! k = Some v -> is_dict v = false ->
  merge_layers start (earlier ++ overlay :: later) !! k
  = foldl merge_slot (Some v) ((.!! k) <$> later).
Proof.
  intros Hv Hnd. rewrite lookup_merge_layers, fmap_app, fmap_cons, Hv.
  by apply foldl_merge_slot_cut.
Qed.

(** C1, as stated.  The last layer that sets a non-mapping value at a key
    need not determine the final value there: of the layers [{k: 1}] and
    [{k: {a: 2}}], folded in this order, the first is the last one that sets
    a non-mapping value at [k], and the final value at [k] is [{a: 2}]. *)
Lemma last_nonmapping_layer_not_final :
  ({[ "k" := VI 1 ]} : tree) !! "k" = Some (VI 1)
  /\ is_dict (VI 1) = false
  /\ nondict_slot (({[ "k" := VDict {[ "a" := VI 2 ]} ]} : tree) !! "k") = false
  /\ merge_layers ∅ [ {[ "k" := VI 1 ]}; {[ "k" := VDict {[ "a" := VI 2 ]} ]} ] !! "k"
     = Some (VDict {[ "a" := VI 2 ]})
  /\ merge_layers ∅ [ {[ "k" := VI 1 ]}; {[ "k" := VDict {[ "a" := VI 2 ]} ]} ] !! "k"
     <> Some (VI 1).
Proof.
  split; [reflexivity|]. split; [reflexivity|]. split; [reflexivity|].
  assert (Hfinal : merge_layers ∅ [ {[ "k" := VI 1 ]};
                                    {[ "k" := VDict {[ "a" := VI 2 ]} ]} ] !! "k"
                   = Some (VDict {[ "a" := VI 2 ]})).
  { rewrite lookup_merge_layers. reflexivity. }
  split; [exact Hfinal|]. rewrite Hfinal. discriminate.
Qed.

(** C1. For every base, overlay and key: two mappings at the key are merged
    recursively; a key only one side defines gets a deep copy of that side's
    value; when both define it and one value is not a mapping (a sequence
    included) the overlay's value replaces the base's wholesale; a key
    neither defines stays undefined.  For layers folded in order, a layer
    that sets a non-mapping value at the key cuts off the start tree and
    every earlier layer: the final value is that of the fold of the later
    layers over this value alone.  So when no later layer sets the key, the
    value is the final one; and when the later layers set no non-mapping
    value there (the layer is the last one that does), the final value is
    the value itself if none of them sets the key, and otherwise the merge,
    in order, of the mappings they set, in which the value has no part. *)
Theorem merge_precedence (base overlay : tree) (k : string) :
  (forall b o, base !! k = Some (VDict b) -> overlay !! k = Some (VDict o) ->
     _merge_settings base overlay !! k = Some (VDict (_merge_settings b o)))
  /\ (forall v, base !! k = Some v -> overlay !! k = None ->
        _merge_settings base overlay !! k = Some (_deep_copy v) /\ _deep_copy v = v)
  /\ (forall v, base !! k = None -> overlay !! k = Some v ->
        _merge_settings base overlay !! k = Some (_deep_copy v) /\ _deep_copy v = v)
  /\ (forall b v, base !! k = Some b -> overlay !! k = Some v ->
        is_dict b && is_dict v = false ->
        _merge_settings base overlay !! k = Some v)
  /\ (base !! k = None -> overlay !! k = None ->
        _merge_settings base overlay !! k = None)
  /\ (forall start earlier later v,
        overlay !! k = Some v -> is_dict v = false ->
        Forall (fun L : tree => L !! k = None) later ->
        merge_layers start (earlier ++ overlay :: later) !! k = Some v)
  /\ (forall start earlier later v,
        overlay !! k = Some v -> is_dict v = false ->
        merge_layers start (earlier ++ overlay :: later) !! k
        = merge_layers {[ k := v ]} later !! k)
  /\ (forall start earlier later v,
        overlay !! k = Some v -> is_dict v = false ->
        Forall (fun L : tree => nondict_slot (L !! k) = false) later ->
        merge_layers start (earlier ++ overlay :: later) !! k
        = match omap (fun L : tree => dict_of_slot (L !! k)) later with
          | [] => Some v
          | ds => Some (VDict (merge_layers ∅ ds))
          end).
Proof.
  split; [|split; [|split; [|split; [|split; [|split; [|split]]]]]].
  - intros b o Hb Ho. by rewrite lookup_merge_settings, Hb, Ho.
  - intros v Hb Ho. split; [|apply deep_copy_id].
    rewrite lookup_merge_settings, Hb, Ho. by destruct v.
  - intros v Hb Ho. split; [|apply deep_copy_id].
    by rewrite lookup_merge_settings, Hb, Ho.
  - intros b v Hb Hv Hnd. rewrite lookup_merge_settings, Hb, Hv.
    destruct b, v; try done; slot_cases.
  - intros Hb Ho. by rewrite lookup_merge_settings, Hb, Ho.
  - intros start earlier later v Hv Hnd Hlater.
    rewrite merge_layers_app. simpl.
    change (foldl _merge_settings ?s later) with (merge_layers s later).
    rewrite lookup_merge_layers_absent by done.
    rewrite lookup_merge_settings, Hv. by apply merge_slot_nondict.
  - intros start earlier later v Hv Hnd.
    rewrite (lookup_merge_layers_cut _ _ _ _ _ _ Hv Hnd).
    by rewrite lookup_merge_layers, lookup_singleton_eq.
  - intros start earlier later v Hv Hnd Hlater.
    rewrite (lookup_merge_layers_cut _ _ _ _ _ _ Hv Hnd).
    rewrite foldl_merge_slot_dicts by (by rewrite Forall_fmap).
    rewrite omap_dict_of_slot.
    destruct (omap (fun L : tree => dict_of_slot (L !! k)) later) as [|d ds]; [done|].
    by destruct v.
Qed.

Definition c1_base : tree :=
  {[ "a" := VI 1; "m" := VDict {[ "x" := VI 1 ]}; "l" := VList [VI 1; VI 2] ]}.
Definition c1_overlay : tree :=
  {[ "m" := VDict {[ "y" := VI 2 ]}; "l" := VList [VI 3]; "n" := VI 7 ]}.

Lemma merge_precedence_witness :
  _merge_settings c1_base c1_overlay !! "m"
    = Some (VDict (_merge_settings {[ "x" := VI 1 ]} {[ "y" := VI 2 ]}))
  /\ _merge_settings c1_base c1_overlay !! "a" = Some (VI 1)
  /\ _merge_settings c1_base c1_overlay !! "n" = Some (VI 7)
  /\ _merge_settings c1_base c1_overlay !! "l" = Some (VList [VI 3])
  /\ merge_layers ∅ ([c1_base] ++ c1_overlay :: [c1_base]) !! "n" = Some (VI 7)
  /\ merge_layers c1_base ([c1_overlay] ++ {[ "k" := VI 1 ]}
                            :: [ {[ "k" := VDict {[ "a" := VI 2 ]} ]};
                                 {[ "k" := VDict {[ "b" := VI 3 ]} ]} ]) !! "k"
     = Some (VDict (merge_layers ∅ [ {[ "a" := VI 2 ]}; {[ "b" := VI 3 ]} ])).
Proof.
  pose proof (merge_precedence c1_base c1_overlay "m") as (Hm & _).
  pose proof (merge_precedence c1_base c1_overlay "a") as (_ & Ha & _).
  pose proof (merge_precedence c1_base c1_overlay "n") as (_ & _ & Hn & _ & _ & Hf & _).
  pose proof (merge_precedence c1_base c1_overlay "l") as (_ & _ & _ & Hl & _).
  pose proof (merge_precedence c1_base {[ "k" := VI 1 ]} "k")
    as (_ & _ & _ & _ & _ & _ & _ & Hlast).
  split; [apply Hm; reflexivity|].
  split; [apply (Ha (VI 1)); reflexivity|].
  split; [apply (Hn (VI 7)); reflexivity|].
  split; [apply (Hl (VList [VI 1; VI 2])); reflexivity|].
  split.
  { apply Hf; [reflexivity|reflexivity|]. constructor; [reflexivity|constructor]. }
  rewrite (Hlast c1_base [c1_overlay]
             [ {[ "k" := VDict {[ "a" := VI 2 ]} ]}; {[ "k" := VDict {[ "b" := VI 3 ]} ]} ]
             (VI 1)); [reflexivity|reflexivity|reflexivity|].
  repeat constructor.
Defined.

(** ** Idempotence *)

(** C3. Folding an ordered layer list again over the fold's own result gives
    an equal tree, from every start tree; in particular merging the same
    overlay twice is merging it once. *)
Theorem merge_layers_idempotent (start : tree) (layers : list tree) :
  merge_layers (merge_layers start layers) layers = merge_layers start layers
  /\ forall A B : tree,
       _merge_settings (_merge_settings A B) B = _merge_settings A B.
Proof.
  assert (Hfold : forall (s : tree) ls,
            merge_layers (merge_layers s ls) ls = merge_layers s ls).
  { intros s ls. destruct (depth_bound_exists ls) as [n Hn].
    by apply (merge_layers_idem_bounded n). }
  split; [apply Hfold|]. intros A B. apply (Hfold A [B]).
Qed.

(** ** The store model *)

Lemma unchanged_refl h : unchanged h h.
Proof. by intros l o. Qed.

Lemma unchanged_trans h1 h2 h3 : unchanged h1 h2 -> unchanged h2 h3 -> unchanged h1 h3.
Proof. intros H12 H23 l o Hl. eauto. Qed.

Lemma unchanged_length h h' : unchanged h h' -> length h <= length h'.
Proof.
  intros Hu. destruct (decide (length h <= length h')) as [|Hn]; [done|].
  destruct (lookup_lt_is_Some_2 h (length h')) as [o Ho]; [lia|].
  apply Hu, lookup_lt_Some in Ho. lia.
Qed.

Lemma unchanged_alloc h o : unchanged h (alloc o h).2.
Proof. intros l o' Hl. simpl. by apply lookup_app_l_Some. Qed.

Lemma unchanged_insert h (l : loc) o : length h <= l -> forall h', unchanged h h' -> unchanged h (<[l := o]> h').
Proof.
  intros Hl h' Hu l' o' Hl'. rewrite list_lookup_insert_ne; [by apply Hu|].
  apply lookup_lt_Some in Hl'. lia.
Qed.

Lemma Forall2_impl_r {A B} (R R' : A -> B -> Prop) xs ys :
  Forall (fun y => forall x, R x y -> R' x y) ys ->
  Forall2 R xs ys -> Forall2 R' xs ys.
Proof.
  intros HF H2. induction H2 as [|x y xs ys Hxy _ IH]; [constructor|].
  inversion HF; subst. constructor; auto.
Qed.

(** Moving a denotation to another store and another set of addresses. *)
Lemma repr_in_change (P Q : loc -> Prop) h h' :
  (forall l o, P l -> h !! l = Some o -> Q l /\ h' !! l = Some o) ->
  forall t v, repr_in P h v t -> repr_in Q h' v t.
Proof.
  intros HPQ t.
  induction t as [s|vs IH|m IH] using value_depth_ind; intros v Hv;
    inversion Hv as [|l elems ? Hl Hh Hel|l items ? Hl Hh Hit]; subst.
  - constructor.
  - destruct (HPQ _ _ Hl Hh). econstructor; [done..|].
    by eapply Forall2_impl_r.
  - destruct (HPQ _ _ Hl Hh). econstructor; [done..|].
    intros k. specialize (Hit k).
    destruct (m !! k) as [y|] eqn:Hk; inversion Hit; subst; constructor.
    by apply (IH k y Hk).
Qed.

Lemma repr_in_impl (P Q : loc -> Prop) h t v :
  (forall l, P l -> Q l) -> repr_in P h v t -> repr_in Q h v t.
Proof. intros HPQ. apply repr_in_change. naive_solver. Qed.

Lemma repr_in_unchanged P h h' t v :
  unchanged h h' -> repr_in P h v t -> repr_in P h' v t.
Proof. intros Hu. apply repr_in_change. naive_solver. Qed.

(** A denotation only uses addresses that hold an object. *)
Lemma repr_in_bounded P h t v :
  repr_in P h v t -> repr_in (fun l => P l /\ l < length h) h v t.
Proof.
  apply repr_in_change. intros l o HP Hl. split; [|done].
  split; [done|]. by eapply lookup_lt_Some.
Qed.

Lemma repr_is_dict P h v t : repr_in P h v t -> is_dict_ref h v = is_dict t.
Proof. destruct 1 as [|? ? ? ? Hl|? ? ? ? Hl]; simpl; by rewrite ?Hl. Qed.

(** Every object a reference leads to is one of its denotation. *)
Lemma repr_in_reach P h v l : reach h v l -> forall t, repr_in P h v t -> P l.
Proof.
  induction 1 as [l|l items k v l' Hl Hk _ IH|l elems v l' Hl Hv _ IH];
    intros t Ht; inversion Ht as [|? elems' ? HP Hh Hel|? items' ? HP Hh Hit]; subst.
  - done.
  - done.
  - rewrite Hl in Hh. done.
  - rewrite Hl in Hh. injection Hh as <-. specialize (Hit k). rewrite Hk in Hit.
    inversion Hit; subst. eauto.
  - rewrite Hl in Hh. injection Hh as <-.
    apply list_elem_of_lookup in Hv as [i Hi].
    destruct (Forall2_lookup_l _ _ _ _ _ Hel Hi) as (y & _ & Hy). eauto.
  - rewrite Hl in Hh. done.
Qed.

(** A reference denotes at most one tree. *)
Lemma repr_in_functional t : forall P Q h v t',
  repr_in P h v t -> repr_in Q h v t' -> t = t'.
Proof.
  induction t as [s|vs IH|m IH] using value_depth_ind; intros P Q h v t' Hv Hv';
    inversion Hv as [|l elems ? Hl Hh Hel|l items ? Hl Hh Hit]; subst;
    inversion Hv' as [|l' elems' vs' Hl' Hh' Hel'|l' items' m' Hl' Hh' Hit']; subst;
    try done; rewrite Hh in Hh'; try done; injection Hh' as <-.
  - f_equal. clear Hv Hv' Hh Hl Hl'. revert vs' Hel'.
    induction Hel as [|x y xs ys Hxy _ IHl]; intros vs' Hel';
      inversion Hel'; subst; [done|].
    inversion IH; subst. f_equal; eauto.
  - f_equal. apply map_eq. intros k.
    specialize (Hit k). specialize (Hit' k).
    destruct (items !! k) as [x|]; destruct (m !! k) as [y|] eqn:Hk;
      destruct (m' !! k) as [y'|]; inversion Hit; inversion Hit'; subst; [|done].
    f_equal. eapply (IH k y Hk); eauto.
Qed.

(** The store of a finite tree has no cycle: the denotation of something
    shallower than the tree at [r] does not pass through [r]. *)
Lemma repr_in_avoid t : forall P h v r tr,
  repr_in P h v t -> repr h (RObj r) tr -> depth t < depth tr ->
  repr_in (fun l => P l /\ l <> r) h v t.
Proof.
  induction t as [s|vs IH|m IH] using value_depth_ind; intros P h v r tr Hv Hr Hd;
    inversion Hv as [|l elems ? Hl Hh Hel|l items ? Hl Hh Hit]; subst.
  - constructor.
  - assert (l <> r).
    { intros ->. rewrite (repr_in_functional _ _ _ _ _ _ Hv Hr) in Hd. lia. }
    econstructor; [done..|].
    eapply Forall2_impl_r; [|exact Hel].
    rewrite Forall_forall in IH. apply Forall_forall. intros y Hy x Hxy.
    eapply (IH y Hy); eauto. apply depth_elem in Hy. lia.
  - assert (l <> r).
    { intros ->. rewrite (repr_in_functional _ _ _ _ _ _ Hv Hr) in Hd. lia. }
    econstructor; [done..|].
    intros k. specialize (Hit k).
    destruct (m !! k) as [y|] eqn:Hk; inversion Hit; subst; constructor.
    eapply (IH k y Hk); eauto. apply depth_lookup in Hk. lia.
Qed.

(** *** [_deep_copy] over the store *)

Lemma copy_elems_spec f h0 elems vs :
  Forall2 (repr h0) elems vs ->
  Forall (fun t => forall h v, repr h v t -> copy_post h t (deep_copy_st f v h)) vs ->
  forall acc accv h,
    unchanged h0 h ->
    Forall2 (repr_in (fun l => length h0 <= l) h) acc accv ->
    exists elems' h',
      foldl (copy_elem (deep_copy_st f)) (Some (acc, h)) elems = Some (elems', h')
      /\ unchanged h h'
      /\ Forall2 (repr_in (fun l => length h0 <= l) h') elems' (accv ++ vs).
Proof.
  induction 1 as [|x y xs ys Hxy _ IH]; intros Hcopy acc accv h Hu Hacc.
  - exists acc, h. rewrite app_nil_r. eauto using unchanged_refl.
  - inversion Hcopy as [|? ? Hy Hys]; subst.
    destruct (Hy h x) as (c & h1 & Hc & Hu1 & Hrc).
    { by eapply repr_in_unchanged. }
    simpl. rewrite Hc. simpl.
    destruct (IH Hys (acc ++ [c]) (accv ++ [y]) h1) as (elems' & h' & Hf & Hu' & Hr').
    { by eapply unchanged_trans. }
    { apply Forall2_app.
      - eapply Forall2_impl; [exact Hacc|]. intros. by eapply repr_in_unchanged.
      - constructor; [|constructor]. eapply repr_in_impl; [|exact Hrc].
        intros l Hl. simpl in Hl. apply unchanged_length in Hu. lia. }
    exists elems', h'. rewrite <- app_assoc in Hr'.
    eauto using unchanged_trans.
Qed.

Lemma copy_items_spec f h0 (items : gmap string ref) :
  forall tm : tree,
    (forall k, option_Forall2 (repr h0) (items !! k) (tm !! k)) ->
    map_Forall (fun _ t => forall h v, repr h v t -> copy_post h t (deep_copy_st f v h)) tm ->
    exists items' h',
      map_fold (copy_item (deep_copy_st f)) (Some (∅, h0)) items = Some (items', h')
      /\ unchanged h0 h'
      /\ forall k, option_Forall2 (repr_in (fun l => length h0 <= l) h') (items' !! k) (tm !! k).
Proof.
  apply (map_fold_weak_ind (fun acc (m : gmap string ref) => forall tm : tree,
    (forall k, option_Forall2 (repr h0) (m !! k) (tm !! k)) ->
    map_Forall (fun _ t => forall h v, repr h v t -> copy_post h t (deep_copy_st f v h)) tm ->
    exists items' h',
      acc = Some (items', h') /\ unchanged h0 h'
      /\ forall k, option_Forall2 (repr_in (fun l => length h0 <= l) h') (items' !! k) (tm !! k))).
  - intros tm Htm _. exists ∅, h0. split; [done|]. split; [apply unchanged_refl|].
    intros k. specialize (Htm k). rewrite lookup_empty in *.
    inversion Htm. constructor.
  - intros i x m acc Hi IH tm Htm Hcopy.
    destruct (IH (delete i tm)) as (items' & h1 & -> & Hu1 & Hr1).
    { intros k. destruct (decide (i = k)) as [<-|Hne].
      - rewrite Hi, lookup_delete_eq. constructor.
      - specialize (Htm k). by rewrite lookup_insert_ne, <- (lookup_delete_ne tm i k) in Htm. }
    { intros k t Hk. apply lookup_delete_Some in Hk as [_ Hk]. by apply (Hcopy k). }
    pose proof (Htm i) as Hx. rewrite lookup_insert_eq in Hx.
    destruct (tm !! i) as [tx|] eqn:Htx; inversion Hx as [? ? Hxt|]; subst.
    destruct (Hcopy i tx Htx h1 x) as (c & h2 & Hc & Hu2 & Hrc).
    { by eapply repr_in_unchanged. }
    exists (<[i := c]> items'), h2. simpl. rewrite Hc. simpl.
    split; [done|]. split; [by eapply unchanged_trans|].
    intros k. destruct (decide (i = k)) as [<-|Hne].
    + rewrite lookup_insert_eq, Htx. constructor.
      eapply repr_in_impl; [|exact Hrc].
      intros l Hl. simpl in Hl. apply unchanged_length in Hu1. lia.
    + rewrite lookup_insert_ne by done. specialize (Hr1 k).
      rewrite lookup_delete_ne in Hr1 by done.
      destruct Hr1; constructor. by eapply repr_in_unchanged.
Qed.

(** Enough fuel copies any finite tree: the copy denotes the same tree, is
    made of new objects only, and no object of the store is written to. *)
Lemma deep_copy_st_spec t : forall fuel h v,
  depth t < fuel -> repr h v t -> copy_post h t (deep_copy_st fuel v h).
Proof.
  induction t as [s|vs IH|m IH] using value_depth_ind; intros fuel h v Hfuel Hv;
    (destruct fuel as [|f]; [lia|]);
    inversion Hv as [|l elems ? Hl Hh Hel|l items ? Hl Hh Hit]; subst; simpl deep_copy_st.
  - exists (RScalar s), h. split; [done|]. split; [apply unchanged_refl|constructor].
  - rewrite Hh.
    destruct (copy_elems_spec f h elems vs Hel) with (acc := @nil ref) (accv := @nil value) (h := h)
      as (elems' & h' & -> & Hu & Hr); [|apply unchanged_refl|constructor|].
    { rewrite Forall_forall in IH. apply Forall_forall. intros y Hy h1 v1 Hv1.
      apply (IH y Hy); [|done]. apply depth_elem in Hy. lia. }
    simpl. eexists _, _. split; [done|].
    split; [eapply unchanged_trans; [exact Hu|apply unchanged_alloc]|].
    econstructor.
    + apply unchanged_length in Hu. lia.
    + simpl. by rewrite lookup_app_r, Nat.sub_diag.
    + eapply Forall2_impl; [exact Hr|]. intros x y Hxy.
      eapply repr_in_unchanged; [apply unchanged_alloc|done].
  - rewrite Hh.
    destruct (copy_items_spec f h items m Hit) as (items' & h' & -> & Hu & Hr).
    { intros k y Hk h1 v1 Hv1. apply (IH k y Hk); [|done].
      apply depth_lookup in Hk. lia. }
    simpl. eexists _, _. split; [done|].
    split; [eapply unchanged_trans; [exact Hu|apply unchanged_alloc]|].
    econstructor.
    + apply unchanged_length in Hu. lia.
    + simpl. by rewrite lookup_app_r, Nat.sub_diag.
    + intros k. destruct (Hr k); constructor.
      eapply repr_in_unchanged; [apply unchanged_alloc|done].
Qed.

(** *** [_merge_settings] over the store *)

Lemma merge_item_rec merge copy r key sub u h res :
  h !! r = Some (ODict res) -> res !! key = Some (RObj sub) ->
  is_dict_ref h (RObj sub) = true -> is_dict_ref h (RObj u) = true ->
  merge_item merge copy r key (RObj u) (Some h)
  = '(m, h') ← merge sub u h; set_item r key (RObj m) h'.
Proof.
  intros Hr Hk Hs Hu. unfold merge_item. simpl mbind at 1.
  rewrite Hr, Hk. simpl in Hs, Hu. by rewrite Hs, Hu.
Qed.

Lemma merge_item_copy merge copy r key v h res :
  h !! r = Some (ODict res) ->
  (forall sub, res !! key = Some sub -> is_dict_ref h sub && is_dict_ref h v = false) ->
  merge_item merge copy r key v (Some h)
  = '(c, h') ← copy v h; set_item r key c h'.
Proof.
  intros Hr Hnd. unfold merge_item. simpl mbind at 1. rewrite Hr.
  destruct (res !! key) as [[s|sub]|] eqn:Hk; [done| |done].
  destruct v as [s|u]; [done|].
  specialize (Hnd _ eq_refl). simpl in Hnd. by rewrite Hnd.
Qed.

Lemma set_item_spec r key c h res :
  h !! r = Some (ODict res) ->
  set_item r key c h = Some (<[r := ODict (<[key := c]> res)]> h).
Proof. intros Hr. unfold set_item. by rewrite Hr. Qed.

Section merge_loop.
Variables (f : nat) (tb : tree) (r n0 : loc) (h1 : store).
Hypothesis Hmerge : forall (tb' tu' : tree) h b u,
  repr h (RObj b) (VDict tb') -> repr h (RObj u) (VDict tu') ->
  depth (VDict tb') + depth (VDict tu') < f ->
  merge_post h tb' tu' (merge_settings_st f b u h).
Hypothesis Hr : n0 <= r.

(** The state of the loop once the items denoting [tu] have been merged. *)
Let loop_inv (acc : option store) (tu : tree) : Prop :=
  exists h2 res,
    acc = Some h2 /\ unchanged_but r h1 h2 /\ h2 !! r = Some (ODict res)
    /\ forall k, option_Forall2 (repr_in (fun l => n0 <= l /\ l <> r) h2)
                   (res !! k) (_merge_settings tb tu !! k).

Lemma merge_loop_spec res0 :
  h1 !! r = Some (ODict res0) ->
  (forall k, option_Forall2 (repr_in (fun l => n0 <= l /\ l <> r) h1)
               (res0 !! k) (tb !! k)) ->
  forall (items : gmap string ref) (tu : tree),
    (forall k, option_Forall2 (repr_in (fun l => l < n0) h1) (items !! k) (tu !! k)) ->
    (forall k tx, tu !! k = Some tx -> depth (VDict tb) + depth tx < f) ->
    loop_inv (map_fold (merge_item (merge_settings_st f) (deep_copy_st f) r)
                (Some h1) items) tu.
Proof.
  intros Hres0 Hrep0 items.
  apply (map_fold_weak_ind (fun acc (m : gmap string ref) => forall tu : tree,
    (forall k, option_Forall2 (repr_in (fun l => l < n0) h1) (m !! k) (tu !! k)) ->
    (forall k tx, tu !! k = Some tx -> depth (VDict tb) + depth tx < f) ->
    loop_inv acc tu)).
  - intros tu Htu _. exists h1, res0. split; [done|].
    split; [by intros l o _|]. split; [done|].
    intros k. rewrite lookup_merge_settings. specialize (Htu k).
    rewrite lookup_empty in Htu. inversion Htu. rewrite merge_slot_absent. apply Hrep0.
  - intros i x m acc Hi IH tu Htu Hd.
    destruct (IH (delete i tu)) as (h & res & -> & Hub & Hhr & Hres).
    { intros k. destruct (decide (i = k)) as [<-|Hne].
      - rewrite Hi, lookup_delete_eq. constructor.
      - specialize (Htu k).
        by rewrite lookup_insert_ne, <- (lookup_delete_ne tu i k) in Htu. }
    { intros k tx Hk. apply lookup_delete_Some in Hk as [_ Hk]. eauto. }
    pose proof (Htu i) as Hx. rewrite lookup_insert_eq in Hx.
    destruct (tu !! i) as [tx|] eqn:Htx; inversion Hx as [? ? Hxt|]; subst.
    assert (Hxh : repr h x tx).
    { eapply repr_in_change; [|exact Hxt]. intros l o Hl Ho. simpl in Hl.
      split; [done|]. apply Hub; [lia|done]. }
    pose proof (Hres i) as Hsl.
    rewrite lookup_merge_settings, lookup_delete_eq, merge_slot_absent in Hsl.
    assert (Hlen : r < length h) by (by eapply lookup_lt_Some).
    (* what the slots other than [i] become, whatever is written at [i] *)
    assert (Hother : forall h' c,
      unchanged h h' ->
      repr_in (fun l => length h <= l) h' c
        (default tx (merge_slot (tb !! i) (Some tx))) ->
      merge_slot (tb !! i) (Some tx)
        = Some (default tx (merge_slot (tb !! i) (Some tx))) ->
      loop_inv (Some (<[r := ODict (<[i := c]> res)]> h')) tu).
    { intros h' c Hu Hc Hslot.
      exists (<[r := ODict (<[i := c]> res)]> h'), (<[i := c]> res).
      split; [done|]. split.
      { intros l o Hl Ho. rewrite list_lookup_insert_ne by done. auto. }
      split.
      { apply list_lookup_insert_eq. apply unchanged_length in Hu. lia. }
      intros k. rewrite lookup_merge_settings.
      destruct (decide (i = k)) as [<-|Hne].
      - rewrite lookup_insert_eq, Htx, Hslot. constructor.
        eapply repr_in_change; [|exact Hc]. intros l o Hl Ho. simpl in Hl.
        split; [lia|]. rewrite list_lookup_insert_ne by lia. done.
      - rewrite lookup_insert_ne by done. specialize (Hres k).
        rewrite lookup_merge_settings, lookup_delete_ne in Hres by done.
        destruct Hres as [a b Hab|]; constructor.
        eapply repr_in_change; [|exact Hab]. intros l o [Hl1 Hl2] Ho.
        split; [done|]. rewrite list_lookup_insert_ne by done. auto. }
    destruct (tb !! i) as [tsub|] eqn:Htb;
      [destruct (is_dict tsub && is_dict tx) eqn:Hboth|].
    + (* two mappings: the recursive call *)
      apply andb_true_iff in Hboth as [Hd1 Hd2].
      destruct tsub as [| |bm]; try done. destruct tx as [| |um]; try done.
      inversion Hsl as [sub ? Hsub Hsubk|]; subst.
      assert (Hsubh : repr h sub (VDict bm)) by (eapply repr_in_impl; [|exact Hsub]; done).
      inversion Hsubh as [| |lsub ? ? _ Hlsub _]; subst.
      inversion Hxh as [| |lu ? ? _ Hlu _]; subst.
      rewrite (merge_item_rec _ _ r i lsub lu h res); simpl;
        rewrite ?Hlsub, ?Hlu; try done.
      destruct (Hmerge bm um h lsub lu) as (rm & h' & -> & Hu & Hrm); [done..| |].
      { specialize (Hd i _ Htx). apply depth_lookup in Htb. lia. }
      simpl. rewrite (set_item_spec r i _ h' res) by (by apply Hu).
      apply Hother; done.
    + (* otherwise: a copy of the overlay's value *)
      rewrite (merge_item_copy _ _ r i x h res Hhr).
      2:{ intros sub Hsubk. rewrite Hsubk in Hsl. inversion Hsl; subst.
          by rewrite (repr_is_dict _ _ _ _ H1), (repr_is_dict _ _ _ _ Hxh). }
      destruct (deep_copy_st_spec tx f h x) as (c & h' & -> & Hu & Hc); [|done|].
      { specialize (Hd i _ Htx). simpl in Hd. lia. }
      simpl. rewrite (set_item_spec r i _ h' res) by (by apply Hu).
      assert (Hslot : merge_slot (Some tsub) (Some tx) = Some tx).
      { destruct tsub, tx; try done; slot_cases. }
      apply Hother; rewrite ?Hslot; done.
    + rewrite (merge_item_copy _ _ r i x h res Hhr).
      2:{ intros sub Hsubk. rewrite Hsubk in Hsl. inversion Hsl. }
      destruct (deep_copy_st_spec tx f h x) as (c & h' & -> & Hu & Hc); [|done|].
      { specialize (Hd i _ Htx). simpl in Hd. lia. }
      simpl. rewrite (set_item_spec r i _ h' res) by (by apply Hu).
      assert (Hslot : merge_slot None (Some tx) = Some tx) by slot_cases.
      apply Hother; rewrite ?Hslot; done.
Qed.
End merge_loop.

(** Enough fuel merges any two finite trees: the result denotes the merge
    of the two trees, is made of new objects only, and no object of the
    store, so neither input, is written to. *)
Lemma merge_settings_st_spec : forall fuel (tb tu : tree) h base update,
  repr h (RObj base) (VDict tb) -> repr h (RObj update) (VDict tu) ->
  depth (VDict tb) + depth (VDict tu) < fuel ->
  merge_post h tb tu (merge_settings_st fuel base update h).
Proof.
  induction fuel as [|f IH]; intros tb tu h base update Hb Hu Hfuel; [lia|].
  simpl merge_settings_st.
  destruct (deep_copy_st_spec (VDict tb) f h (RObj base)) as (v & h1 & -> & Hu1 & Hv);
    [simpl in *; lia|done|].
  simpl. inversion Hv as [| |r res0 ? Hr Hres0 Hch]; subst.
  inversion Hu as [| |? items ? _ Hitems Hit]; subst.
  rewrite (Hu1 _ _ Hitems).
  destruct (merge_loop_spec f tb r (length h) h1 IH Hr res0 Hres0) with (items := items) (tu := tu)
    as (h2 & res & -> & Hub & Hh2 & Hres).
  - intros k. specialize (Hch k).
    destruct (tb !! k) as [y|] eqn:Hk; inversion Hch; subst; constructor.
    eapply repr_in_avoid; [done| |by eapply depth_lookup].
    eapply repr_in_impl; [|exact Hv]. done.
  - intros k. destruct (Hit k) as [x y Hxy|]; constructor.
    apply repr_in_bounded in Hxy.
    eapply repr_in_change; [|exact Hxy]. intros l o [_ Hl] Ho. split; [done|]. auto.
  - intros k tx Hk. apply depth_lookup in Hk. lia.
  - simpl. exists r, h2. split; [done|]. split.
    + intros l o Hl. apply Hub; [|by apply Hu1]. apply lookup_lt_Some in Hl. lia.
    + econstructor; [done..|]. intros k. destruct (Hres k); constructor.
      eapply repr_in_impl; [|done]. by intros l [? _].
Qed.

(** The depth of a merge is bounded by the depths of its arguments: this
    is what bounds the fuel of a whole fold. *)
Lemma depth_dict_le (m : tree) n :
  (forall k v, m !! k = Some v -> depth v < n) -> depth (VDict m) <= n `max` 1.
Proof.
  simpl. revert n.
  apply (map_fold_weak_ind (fun r (m : tree) => forall n,
           (forall k v, m !! k = Some v -> depth v < n) -> S r <= n `max` 1)).
  - intros n _. lia.
  - intros i x m' r Hi IH n Hn.
    specialize (IH n). specialize (Hn i x) as Hx. rewrite lookup_insert_eq in Hx.
    specialize (Hx eq_refl).
    assert (S r <= n `max` 1); [|lia].
    apply IH. intros k v Hk. apply (Hn k). rewrite lookup_insert_ne; [done|].
    intros ->. by rewrite Hi in Hk.
Qed.

Lemma depth_merge_settings n : forall b u : tree,
  depth (VDict b) <= n -> depth (VDict u) <= n ->
  depth (VDict (_merge_settings b u)) <= n.
Proof.
  induction n as [|n IH]; intros b u Hb Hu; [simpl in Hb; lia|].
  etransitivity; [apply (depth_dict_le _ (S n))|lia].
  intros k v. rewrite lookup_merge_settings.
  destruct (b !! k) as [x|] eqn:Hbk; destruct (u !! k) as [y|] eqn:Huk;
    try apply depth_lookup in Hbk; try apply depth_lookup in Huk.
  - destruct x as [| |bm], y as [| |um]; cbv beta iota delta [merge_slot];
      rewrite ?deep_copy_id; intros [= <-]; try lia.
    assert (depth (VDict (_merge_settings bm um)) <= n); [apply IH|]; lia.
  - rewrite merge_slot_absent. intros [= <-]. lia.
  - destruct y; cbv beta iota delta [merge_slot];
      rewrite ?deep_copy_id; intros [= <-]; lia.
  - done.
Qed.

Lemma layers_depth_cons (ta t : tree) ts :
  layers_depth ta (t :: ts)
  = depth (VDict ta)
    `max` (depth (VDict t) `max` max_list ((fun t => depth (VDict t)) <$> ts)).
Proof. done. Qed.

(** The fold: no object of the store is written to, so every layer is left
    as it was, and the result denotes the fold of the trees; after at least
    one merge it is made of new objects only. *)
Lemma merge_layers_st_spec fuel : forall layers (tls : list tree) h acc (ta : tree),
  repr h (RObj acc) (VDict ta) ->
  Forall2 (fun L t => repr h (RObj L) (VDict t)) layers tls ->
  2 * layers_depth ta tls < fuel ->
  exists r h',
    merge_layers_st fuel acc layers h = Some (r, h')
    /\ unchanged h h'
    /\ repr h' (RObj r) (VDict (merge_layers ta tls))
    /\ (layers = [] \/
        repr_in (fun l => length h <= l) h' (RObj r) (VDict (merge_layers ta tls))).
Proof.
  induction layers as [|L layers IH]; intros tls h acc ta Hacc Hl Hfuel;
    inversion Hl as [|? t ? ts HL Hls]; subst.
  - exists acc, h. eauto using unchanged_refl.
  - rewrite layers_depth_cons in Hfuel. simpl merge_layers_st.
    destruct (merge_settings_st_spec fuel ta t h acc L Hacc HL)
      as (r1 & h1 & -> & Hu1 & Hr1); [lia|].
    simpl mbind.
    destruct (IH ts h1 r1 (_merge_settings ta t)) as (r & h' & Heq & Hu & Hr & Hfresh).
    + eapply repr_in_impl; [|exact Hr1]. done.
    + eapply Forall2_impl; [exact Hls|]. intros. by eapply repr_in_unchanged.
    + unfold layers_depth.
      pose proof (depth_merge_settings (depth (VDict ta) `max` depth (VDict t)) ta t).
      lia.
    + exists r, h'. split; [done|]. split; [by eapply unchanged_trans|].
      split; [done|]. right. destruct Hfresh as [->|Hfresh].
      * inversion Hls; subst. simpl in Heq. injection Heq as <- <-. done.
      * eapply repr_in_impl; [|exact Hfresh].
        intros l Hl'. simpl in Hl'. apply unchanged_length in Hu1. lia.
Qed.

(** ** Non-mutation *)

(** C2. Merging two dictionaries of a store that denote finite trees
    returns, given enough fuel: no object that was in the store is written
    to, so both inputs denote the same trees before and after; the result
    denotes the merge of the two trees; and every object the result leads
    to is a new one, which neither input leads to.  The same holds for the
    fold of a list of layers over a start dictionary: every layer is
    structurally the same after the fold as before. *)
Theorem merge_settings_non_mutation (h : store) (base update : loc) (tb tu : tree) :
  repr h (RObj base) (VDict tb) ->
  repr h (RObj update) (VDict tu) ->
  (exists N, forall fuel, N <= fuel -> exists r h',
      merge_settings_st fuel base update h = Some (r, h')
      /\ (forall l o, h !! l = Some o -> h' !! l = Some o)
      /\ repr h' (RObj base) (VDict tb)
      /\ repr h' (RObj update) (VDict tu)
      /\ repr h' (RObj r) (VDict (_merge_settings tb tu))
      /\ forall l, reach h' (RObj r) l ->
           length h <= l /\ ~ reach h' (RObj base) l /\ ~ reach h' (RObj update) l)
  /\ (forall layers (tls : list tree),
        Forall2 (fun L t => repr h (RObj L) (VDict t)) layers tls ->
        exists N, forall fuel, N <= fuel -> exists r h',
          merge_layers_st fuel base layers h = Some (r, h')
          /\ (forall l o, h !! l = Some o -> h' !! l = Some o)
          /\ Forall2 (fun L t => repr h' (RObj L) (VDict t)) layers tls
          /\ repr h' (RObj r) (VDict (merge_layers tb tls))
          /\ (layers <> [] -> forall l, reach h' (RObj r) l -> length h <= l)).
Proof.
  intros Hb Hu. split.
  - exists (S (depth (VDict tb) + depth (VDict tu))). intros fuel Hfuel.
    destruct (merge_settings_st_spec fuel tb tu h base update Hb Hu)
      as (r & h' & Heq & Hun & Hr); [lia|].
    exists r, h'. split; [done|]. split; [done|].
    split; [by eapply repr_in_unchanged|]. split; [by eapply repr_in_unchanged|].
    split; [eapply repr_in_impl; [|exact Hr]; done|].
    intros l Hl. pose proof (repr_in_reach _ _ _ _ Hl _ Hr) as Hfresh. simpl in Hfresh.
    assert (Hold : forall v t, repr h v t -> ~ reach h' v l).
    { intros v t Hv Hreach. apply repr_in_bounded in Hv.
      eapply repr_in_unchanged in Hv; [|exact Hun].
      pose proof (repr_in_reach _ _ _ _ Hreach _ Hv) as [_ Hlt]. lia. }
    eauto.
  - intros layers tls Hl. exists (S (2 * layers_depth tb tls)). intros fuel Hfuel.
    destruct (merge_layers_st_spec fuel layers tls h base tb Hb Hl)
      as (r & h' & Heq & Hun & Hr & Hfresh); [lia|].
    exists r, h'. split; [done|]. split; [done|].
    split; [eapply Forall2_impl; [exact Hl|]; intros; by eapply repr_in_unchanged|].
    split; [done|]. intros Hne l Hreach. destruct Hfresh as [->|Hfresh]; [done|].
    apply (repr_in_reach _ _ _ _ Hreach _ Hfresh).
Qed.

Lemma slots_insert {A B} (R : A -> B -> Prop) (i : string) x y
    (m1 : gmap string A) (m2 : gmap string B) :
  R x y -> (forall k, option_Forall2 R (m1 !! k) (m2 !! k)) ->
  forall k, option_Forall2 R (<[i := x]> m1 !! k) (<[i := y]> m2 !! k).
Proof.
  intros Hxy Hm k. destruct (decide (i = k)) as [<-|Hne].
  - rewrite !lookup_insert_eq. by constructor.
  - by rewrite !lookup_insert_ne.
Qed.

Lemma slots_empty {A B} (R : A -> B -> Prop) (k : string) :
  option_Forall2 R ((∅ : gmap string A) !! k) ((∅ : gmap string B) !! k).
Proof. rewrite !lookup_empty. constructor. Qed.

Lemma demo_store_base : repr demo_store (RObj 1) (VDict demo_base).
Proof.
  assert (H0 : repr demo_store (RObj 0) (VDict {[ "indentation" := VI 4 ]})).
  { eapply repr_dict; [done|reflexivity|].
    apply slots_insert; [constructor|apply slots_empty]. }
  eapply repr_dict; [done|reflexivity|].
  apply slots_insert; [exact H0|].
  apply slots_insert; [constructor|apply slots_empty].
Defined.

Lemma demo_store_update : repr demo_store (RObj 4) (VDict demo_update).
Proof.
  assert (H2 : repr demo_store (RObj 2)
                 (VDict {[ "indentation" := VI 2; "quotes" := VS "single" ]})).
  { eapply repr_dict; [done|reflexivity|].
    apply slots_insert; [constructor|].
    apply slots_insert; [constructor|apply slots_empty]. }
  eapply repr_dict; [done|reflexivity|].
  apply slots_insert; [exact H2|].
  apply slots_insert; [|apply slots_empty].
  eapply repr_list; [done|reflexivity|].
  repeat constructor. exact H2.
Defined.

Lemma merge_settings_non_mutation_witness :
  exists N, forall fuel, N <= fuel -> exists r h',
    merge_settings_st fuel 1 4 demo_store = Some (r, h')
    /\ (forall l o, demo_store !! l = Some o -> h' !! l = Some o)
    /\ repr h' (RObj 1) (VDict demo_base)
    /\ repr h' (RObj 4) (VDict demo_update)
    /\ repr h' (RObj r) (VDict (_merge_settings demo_base demo_update))
    /\ forall l, reach h' (RObj r) l ->
         length demo_store <= l /\ ~ reach h' (RObj 1) l /\ ~ reach h' (RObj 4) l.
Proof.
  exact (proj1 (merge_settings_non_mutation demo_store 1 4 demo_base demo_update
                  demo_store_base demo_store_update)).
Defined.

(** ** The layer selector *)

Lemma lookup_settings_layer cs k :
  settings_layer cs !! k = if decide (k = "cline_settings") then Some (VDict cs) else None.
Proof.
  unfold settings_layer. case_decide as Hk.
  - subst. apply lookup_singleton_eq.
  - by apply lookup_singleton_ne.
Qed.

Lemma merge_settings_layer (b c : tree) :
  _merge_settings (settings_layer b) (settings_layer c)
  = settings_layer (_merge_settings b c).
Proof.
  apply map_eq. intros k. rewrite lookup_merge_settings, !lookup_settings_layer.
  by case_decide.
Qed.

Lemma merge_layers_settings_layer css : forall b,
  merge_layers (settings_layer b) (settings_layer <$> css)
  = settings_layer (merge_layers b css).
Proof.
  induction css as [|c css IH]; intros b; [done|].
  simpl. rewrite merge_settings_layer. apply IH.
Qed.

Lemma get_dict_settings_layer cs : get_dict (settings_layer cs) "cline_settings" = cs.
Proof. unfold get_dict. by rewrite lookup_settings_layer. Qed.

Lemma project_specific_settings_keys lang s :
  project_specific_settings !! lang = Some s -> dom s ⊆ project_keys.
Proof.
  revert lang s.
  change (map_Forall (fun _ (s : tree) => dom s ⊆ project_keys) project_specific_settings).
  apply (bool_decide_unpack _). vm_compute. exact I.
Qed.

Ltac dom_check := apply (bool_decide_unpack _); vm_compute; exact I.


Lemma dict_update_dom (K : gset string) (d o : tree) :
  dom d ⊆ K -> dom o ⊆ K -> dom (dict_update d o) ⊆ K.
Proof. unfold dict_update. rewrite dom_union_L. set_solver. Qed.

Lemma insert_dom (K : gset string) (d : tree) k v :
  k ∈ K -> dom d ⊆ K -> dom (<[k := v]> d) ⊆ K.
Proof. rewrite dom_insert_L. set_solver. Qed.

Lemma not_in_dom_lookup (K : gset string) (d : tree) k :
  dom d ⊆ K -> k ∉ K -> d !! k = None.
Proof. intros Hd Hk. apply not_elem_of_dom. set_solver. Qed.

Lemma inner_settings_layer cs : inner (settings_layer cs) = cs.
Proof. apply get_dict_settings_layer. Qed.

Lemma if_update_dom (K : gset string) (c : bool) (d o : tree) :
  dom d ⊆ K -> dom o ⊆ K -> dom (if c then dict_update d o else d) ⊆ K.
Proof. intros Hd Ho. destruct c; [by apply dict_update_dom|done]. Qed.

(** Goals [dom d ⊆ K] where [d] is built by the selector: follow the
    conditionals and updates of [d], check the literal dictionaries. *)
Ltac dom_walk :=
  repeat match goal with
  | |- dom (if _ then dict_update ?d _ else ?d) ⊆ _ => apply if_update_dom
  | |- dom (if ?c then _ else _) ⊆ _ => destruct c
  | |- dom (match ?x with _ => _ end) ⊆ _ => destruct x eqn:?
  | |- dom (dict_update _ _) ⊆ _ => apply dict_update_dom
  | |- dom (<[_ := _]> _) ⊆ _ => apply insert_dom
  | |- dom ∅ ⊆ _ => rewrite dom_empty_L; apply empty_subseteq
  | |- dom (default ∅ _) ⊆ _ => dom_check
  | |- dom (_ !!! _) ⊆ _ => dom_check
  | |- dom {[ _ := _ ]} ⊆ _ => dom_check
  | |- dom (<[_ := _]> _) ⊆ _ => dom_check
  | |- _ ∈ _ => dom_check
  | H : project_specific_settings !! _ = Some ?s |- dom ?s ⊆ _ =>
      exact (project_specific_settings_keys _ _ H)
  | |- dom _ ⊆ _ => assumption
  end.

(** *** Shape and keys of the five layers *)

Lemma project_type_layer cfg :
  _adapt_for_project_type cfg = settings_layer (inner (_adapt_for_project_type cfg))
  /\ dom (inner (_adapt_for_project_type cfg)) ⊆ project_keys.
Proof.
  unfold _adapt_for_project_type. rewrite inner_settings_layer. split; [done|].
  unfold apply_web, apply_project_type, apply_language. dom_walk.
Qed.

Lemma apply_issues_dom issues : forall cs,
  dom cs ⊆ performance_keys -> dom (foldl apply_issue cs issues) ⊆ performance_keys.
Proof.
  induction issues as [|i issues IH]; intros cs Hcs; [done|].
  simpl. apply IH. unfold apply_issue. dom_walk.
Qed.

Lemma performance_layer pd :
  _adapt_for_performance pd = settings_layer (inner (_adapt_for_performance pd))
  /\ dom (inner (_adapt_for_performance pd)) ⊆ performance_keys.
Proof.
  unfold _adapt_for_performance.
  destruct (system_metrics_is_empty _); rewrite inner_settings_layer; (split; [done|]).
  - rewrite dom_empty_L. set_solver.
  - apply apply_issues_dom. unfold apply_cpu_tier, apply_memory_tier. dom_walk.
Qed.

Lemma project_scale_layer cfg :
  _adapt_for_project_scale cfg = settings_layer (inner (_adapt_for_project_scale cfg))
  /\ dom (inner (_adapt_for_project_scale cfg)) ⊆ scale_keys.
Proof.
  unfold _adapt_for_project_scale. rewrite inner_settings_layer. split; [done|].
  unfold apply_polyglot, apply_scale. dom_walk.
Qed.

Lemma usage_patterns_layer cfg pd :
  _adapt_for_usage_patterns cfg pd = settings_layer (inner (_adapt_for_usage_patterns cfg pd))
  /\ dom (inner (_adapt_for_usage_patterns cfg pd)) ⊆ usage_keys.
Proof.
  unfold _adapt_for_usage_patterns. rewrite inner_settings_layer. split; [done|].
  cbv zeta. dom_walk.
Qed.

Lemma user_settings_layer cfg :
  _preserve_user_settings cfg = settings_layer (inner (_preserve_user_settings cfg))
  /\ dom (inner (_preserve_user_settings cfg)) ⊆ user_keys.
Proof.
  unfold _preserve_user_settings. rewrite inner_settings_layer. split; [done|].
  unfold preserve_keys. cbn [foldl]. unfold preserve_key. dom_walk.
Qed.

(** *** The result of [generate_adaptive_config] *)

Lemma selected_layers_shape cfg pd :
  selected_layers cfg pd = settings_layer <$> inner_layers cfg pd.
Proof.
  unfold inner_layers, selected_layers. simpl.
  rewrite <- (proj1 (project_type_layer cfg)), <- (proj1 (performance_layer pd)),
    <- (proj1 (project_scale_layer cfg)), <- (proj1 (usage_patterns_layer cfg pd)),
    <- (proj1 (user_settings_layer cfg)). done.
Qed.

(** The five merges of [generate_adaptive_config] are the fold of the
    selected layers over the defaults, and act on the inner dictionary. *)
Lemma merged_config cfg pd :
  merge_layers default_settings (selected_layers cfg pd)
  = settings_layer (merged_cline_settings cfg pd).
Proof.
  rewrite selected_layers_shape.
  apply (merge_layers_settings_layer _ default_cline_settings).
Qed.

Lemma generate_adaptive_config_unfold cfg pd :
  generate_adaptive_config cfg pd
  = dict_update (settings_layer (merged_cline_settings cfg pd))
      (_generate_vscode_config (settings_layer (merged_cline_settings cfg pd)) cfg).
Proof.
  unfold generate_adaptive_config. rewrite deep_copy_tree_id.
  by rewrite <- merged_config.
Qed.

(** The keys [_generate_vscode_config] may write. *)
Lemma vscode_config_dom a cfg : dom (_generate_vscode_config a cfg) ⊆ editor_keys.
Proof.
  unfold _generate_vscode_config. cbv zeta. dom_walk.
Qed.

Lemma final_setting_merged cfg pd k :
  final_setting (generate_adaptive_config cfg pd) k = merged_cline_settings cfg pd !! k.
Proof.
  rewrite generate_adaptive_config_unfold. unfold final_setting, get_dict, dict_update.
  rewrite lookup_union_r.
  - by rewrite lookup_settings_layer.
  - eapply not_in_dom_lookup; [apply vscode_config_dom|]. by vm_compute.
Qed.

(** The slot of a key of the final inner dictionary, layer by layer. *)
Lemma merged_cline_settings_lookup cfg pd k :
  merged_cline_settings cfg pd !! k
  = foldl merge_slot (default_cline_settings !! k) ((.!! k) <$> inner_layers cfg pd).
Proof. apply lookup_merge_layers. Qed.

Lemma vscode_config_without_memory_optimization a cfg :
  truthy (get_dict (get_dict a "cline_settings") "performance" !! "memoryOptimization") = false ->
  _generate_vscode_config a cfg !! "files.watcherExclude" = None.
Proof.
  intros Hm. unfold _generate_vscode_config. rewrite Hm.
  apply (not_in_dom_lookup (editor_keys ∖ {[ "files.watcherExclude" ]})); [|by vm_compute].
  cbv zeta. dom_walk.
Qed.

(** A key that no kind of layer writes is absent from all five. *)
Lemma selected_layers_absent cfg pd k :
  k ∉ project_keys -> k ∉ performance_keys -> k ∉ scale_keys ->
  k ∉ usage_keys -> k ∉ user_keys ->
  Forall (fun layer => inner layer !! k = None) (selected_layers cfg pd).
Proof.
  intros H1 H2 H3 H4 H5. unfold selected_layers.
  constructor; [exact (not_in_dom_lookup _ _ _ (proj2 (project_type_layer cfg)) H1)|].
  constructor; [exact (not_in_dom_lookup _ _ _ (proj2 (performance_layer pd)) H2)|].
  constructor; [exact (not_in_dom_lookup _ _ _ (proj2 (project_scale_layer cfg)) H3)|].
  constructor; [exact (not_in_dom_lookup _ _ _ (proj2 (usage_patterns_layer cfg pd)) H4)|].
  constructor; [exact (not_in_dom_lookup _ _ _ (proj2 (user_settings_layer cfg)) H5)|].
  constructor.
Qed.

Lemma merged_performance_section cfg pd :
  merged_cline_settings cfg pd !! "performance" = Some (VDict default_performance).
Proof.
  rewrite merged_cline_settings_lookup, foldl_merge_slot_absent; [done|].
  unfold inner_layers. rewrite !Forall_fmap.
  eapply Forall_impl; [apply (selected_layers_absent cfg pd "performance"); by vm_compute|].
  done.
Qed.

(** ** The nested performance mapping *)

(** C10. For every snapshot the nested ['performance'] mapping of the final
    tree is the default one, so its ['memoryOptimization'] is [False]: no
    layer writes the key ['performance'] (the low-memory tier writes a
    top-level ['memoryOptimization'], as the example shows); and the editor
    settings computed from the merged tree, hence the final output, have no
    ['files.watcherExclude']. *)
Theorem performance_section_is_default (cfg : config_data_t) (pd : performance_data_t) :
  final_setting (generate_adaptive_config cfg pd) "performance"
    = Some (VDict default_performance)
  /\ default_performance !! "memoryOptimization" = Some (VB false)
  /\ Forall (fun layer => inner layer !! "performance" = None) (selected_layers cfg pd)
  /\ final_setting (generate_adaptive_config empty_config_data low_memory_snapshot)
       "memoryOptimization" = Some (VB true)
  /\ _generate_vscode_config (merge_layers default_settings (selected_layers cfg pd)) cfg
       !! "files.watcherExclude" = None
  /\ generate_adaptive_config cfg pd !! "files.watcherExclude" = None.
Proof.
  assert (Hvs : _generate_vscode_config (settings_layer (merged_cline_settings cfg pd)) cfg
                !! "files.watcherExclude" = None).
  { apply vscode_config_without_memory_optimization.
    rewrite get_dict_settings_layer. unfold get_dict at 1.
    by rewrite merged_performance_section. }
  split; [by rewrite final_setting_merged, merged_performance_section|].
  split; [done|]. split.
  { apply selected_layers_absent; by vm_compute. }
  split; [by vm_compute|]. split; [by rewrite merged_config|].
  rewrite generate_adaptive_config_unfold. unfold dict_update.
  rewrite lookup_union_r by done. by rewrite lookup_settings_layer.
Qed.

(** ** The low-memory tier example *)

Lemma small_project_scale cfg k :
  (default 0 (total_files (default no_project_structure (project_structure cfg))) <= 50)%Z ->
  length (default [] (languages (default no_project_structure (project_structure cfg)))) <= 2 ->
  inner (_adapt_for_project_scale cfg) !! k
  = ({[ "requestLimit" := VI 20; "contextWindow" := VI 150000 ]} : tree) !! k.
Proof.
  intros Hf Hl. unfold _adapt_for_project_scale. rewrite inner_settings_layer.
  unfold apply_polyglot, apply_scale.
  destruct (Z.ltb_spec 100 (default 0%Z (total_files (default no_project_structure (project_structure cfg))))); [lia|].
  destruct (Z.ltb_spec 50 (default 0%Z (total_files (default no_project_structure (project_structure cfg))))); [lia|].
  destruct (Nat.ltb_spec 2 (length (default [] (languages (default no_project_structure (project_structure cfg)))))); [lia|].
  unfold dict_update. by rewrite (right_id_L ∅ (∪)).
Qed.

(** The statement of the example as the specification has it fails: the
    final context window is not the low-memory tier's. *)
Lemma low_memory_example_as_stated_fails :
  ~ (final_setting (generate_adaptive_config empty_config_data low_memory_snapshot)
       "contextWindow" = Some (VI 100000)
     /\ final_setting (generate_adaptive_config empty_config_data low_memory_snapshot)
          "maxResponseTokens" = Some (VI 4096)).
Proof. vm_compute. intros [H _]. discriminate H. Qed.

(** C4, amended. For a snapshot with memory at 85 percent and the other
    performance fields absent or at their defaults, the performance layer
    carries the low-memory tier ([contextWindow = 100000],
    [maxResponseTokens = 4096]); in the final tree [maxResponseTokens] is
    4096, and [contextWindow] is 150000, the value of the small-project
    scale layer merged after it, for every project of at most 50 files and
    at most two languages (absent or default fields included). *)
Theorem low_memory_tier_example (cfg : config_data_t) (pd : performance_data_t) :
  pd ∈ [low_memory_snapshot; low_memory_snapshot_defaults] ->
  (default 0 (total_files (default no_project_structure (project_structure cfg))) <= 50)%Z ->
  length (default [] (languages (default no_project_structure (project_structure cfg)))) <= 2 ->
  inner (_adapt_for_performance pd) !! "contextWindow" = Some (VI 100000)
  /\ inner (_adapt_for_performance pd) !! "maxResponseTokens" = Some (VI 4096)
  /\ final_setting (generate_adaptive_config cfg pd) "contextWindow" = Some (VI 150000)
  /\ final_setting (generate_adaptive_config cfg pd) "maxResponseTokens" = Some (VI 4096).
Proof.
  intros Hpd Hf Hl.
  assert (Hcw : inner (_adapt_for_performance pd) !! "contextWindow" = Some (VI 100000)
            /\ inner (_adapt_for_performance pd) !! "maxResponseTokens" = Some (VI 4096)).
  { apply elem_of_cons in Hpd as [->|Hpd]; [by vm_compute|].
    apply list_elem_of_singleton in Hpd as ->. by vm_compute. }
  destruct Hcw as [Hcw Hmt]. split; [done|]. split; [done|].
  rewrite !final_setting_merged, !merged_cline_settings_lookup.
  unfold inner_layers, selected_layers. simpl fmap.
  rewrite Hcw, Hmt, !(small_project_scale cfg _ Hf Hl).
  rewrite !(not_in_dom_lookup _ _ _ (proj2 (project_type_layer cfg))) by (by vm_compute).
  rewrite !(not_in_dom_lookup _ _ _ (proj2 (usage_patterns_layer cfg pd))) by (by vm_compute).
  rewrite !(not_in_dom_lookup _ _ _ (proj2 (user_settings_layer cfg))) by (by vm_compute).
  split; reflexivity.
Qed.

Lemma low_memory_tier_example_witness :
  inner (_adapt_for_performance low_memory_snapshot) !! "contextWindow" = Some (VI 100000)
  /\ inner (_adapt_for_performance low_memory_snapshot) !! "maxResponseTokens"
       = Some (VI 4096)
  /\ final_setting (generate_adaptive_config empty_config_data low_memory_snapshot)
       "contextWindow" = Some (VI 150000)
  /\ final_setting (generate_adaptive_config empty_config_data low_memory_snapshot)
       "maxResponseTokens" = Some (VI 4096).
Proof.
  apply (low_memory_tier_example empty_config_data low_memory_snapshot).
  - apply elem_of_cons. left. reflexivity.
  - simpl. lia.
  - simpl. lia.
Defined.

(** ** The memory tiers *)

Lemma total_gb_gt (total n : Z) :
  Qgtb (inject_Z total / inject_Z (1024 ^ 3)) (inject_Z n)
  = bool_decide (n * 2 ^ 30 < total)%Z.
Proof.
  change (1024 ^ 3)%Z with 1073741824%Z. change (2 ^ 30)%Z with 1073741824%Z.
  unfold Qgtb, Qle_bool, Qdiv, Qmult, Qinv, inject_Z. cbn [Qnum Qden].
  change (1 * 1073741824)%positive with 1073741824%positive.
  match goal with |- negb (?a <=? ?b)%Z = _ => destruct (Z.leb_spec a b) end;
    cbn [negb]; [rewrite bool_decide_eq_false_2|rewrite bool_decide_eq_true_2]; lia.
Qed.

Lemma total_gb_lt (total n : Z) :
  Qltb (inject_Z total / inject_Z (1024 ^ 3)) (inject_Z n)
  = bool_decide (total < n * 2 ^ 30)%Z.
Proof.
  change (1024 ^ 3)%Z with 1073741824%Z. change (2 ^ 30)%Z with 1073741824%Z.
  unfold Qltb, Qle_bool, Qdiv, Qmult, Qinv, inject_Z. cbn [Qnum Qden].
  change (1 * 1073741824)%positive with 1073741824%positive.
  match goal with |- negb (?a <=? ?b)%Z = _ => destruct (Z.leb_spec a b) end;
    cbn [negb]; [rewrite bool_decide_eq_false_2|rewrite bool_decide_eq_true_2]; lia.
Qed.

Lemma Qgtb_true a b : Qgtb a b = true <-> (b < a)%Q.
Proof.
  unfold Qgtb. rewrite negb_true_iff, <- not_true_iff_false, Qle_bool_iff.
  split; [apply Qnot_le_lt|apply Qlt_not_le].
Qed.

Lemma Qgtb_false a b : Qgtb a b = false <-> (a <= b)%Q.
Proof. unfold Qgtb. by rewrite negb_false_iff, Qle_bool_iff. Qed.

(** The claim as stated fails: on a 32 GiB machine at 85 percent the memory
    step applies the low-memory tier and not the high-memory one. *)
Lemma high_memory_tier_suppressed :
  (16 * 2 ^ 30 < default 0 (memory_total busy_large_memory))%Z
  /\ apply_memory_tier busy_large_memory ∅ = dict_update ∅ low_memory
  /\ apply_memory_tier busy_large_memory ∅ <> dict_update ∅ high_memory
  /\ inner (_adapt_for_performance busy_large_snapshot) !! "contextWindow"
       = Some (VI 100000)
  /\ ~ (forall k v, high_memory !! k = Some v ->
          apply_memory_tier busy_large_memory ∅ !! k = Some v).
Proof.
  split; [vm_compute; reflexivity|]. split; [reflexivity|].
  assert (Hcw : apply_memory_tier busy_large_memory ∅ !! "contextWindow"
                = Some (VI 100000)) by (vm_compute; reflexivity).
  split.
  { intros Heq. rewrite Heq in Hcw. vm_compute in Hcw. discriminate Hcw. }
  split; [vm_compute; reflexivity|].
  intros Hall. specialize (Hall "contextWindow" (VI 300000) eq_refl).
  rewrite Hcw in Hall. discriminate Hall.
Qed.

(** C5, amended. The two memory conditions are the arms of one
    [if ... elif ...]: with more than 16 GiB of memory the high-memory tier
    is applied when memory use is at most 80 percent, and it is the
    low-memory tier that is applied, the high one being skipped, when memory
    use is above 80 percent.  The performance layer is then that tier with
    the CPU tier and the remediation overrides written over it. *)
Theorem memory_tier_exclusive (mi : memory_info_t) (cs : tree) :
  (16 * 2 ^ 30 < default 0 (memory_total mi))%Z ->
  ((default 0 (memory_percent mi) <= 80)%Q ->
     apply_memory_tier mi cs = dict_update cs high_memory)
  /\ ((80 < default 0 (memory_percent mi))%Q ->
        apply_memory_tier mi cs = dict_update cs low_memory)
  /\ (forall pd sm, system_metrics pd = Some sm -> memory sm = Some mi ->
        _adapt_for_performance pd
        = settings_layer
            (foldl apply_issue
               (apply_cpu_tier (default no_cpu_info (cpu sm)) (apply_memory_tier mi ∅))
               (default [] (performance_issues pd)))).
Proof.
  intros Htotal. split; [|split].
  - intros Hp. apply Qgtb_false in Hp. unfold apply_memory_tier.
    change 4%Q with (inject_Z 4). change 16%Q with (inject_Z 16).
    rewrite total_gb_gt, total_gb_lt, Hp.
    rewrite (bool_decide_eq_true_2 (16 * 2 ^ 30 < _)%Z) by done.
    rewrite (bool_decide_eq_false_2 (_ < 4 * 2 ^ 30)%Z) by lia.
    reflexivity.
  - intros Hp. apply Qgtb_true in Hp. unfold apply_memory_tier.
    rewrite Hp. reflexivity.
  - intros pd sm Hsm Hmi. unfold _adapt_for_performance, system_metrics_is_empty.
    rewrite Hsm. change (default no_system_metrics (Some sm)) with sm.
    cbv zeta. rewrite Hmi. reflexivity.
Qed.

Lemma memory_tier_exclusive_witness :
  apply_memory_tier busy_large_memory ∅ = dict_update ∅ low_memory.
Proof.
  apply (memory_tier_exclusive busy_large_memory ∅).
  - vm_compute. reflexivity.
  - vm_compute. reflexivity.
Defined.

(** ** The language of the project-type layer *)

(** The claim as stated fails: in a Go project with Python files the first
    catalogued language is Python, and none of its settings is applied. *)
Lemma later_language_not_applied :
  project_specific_settings !! "go" = None
  /\ project_specific_settings !! "python" = Some python_settings
  /\ _adapt_for_project_type go_python_project = settings_layer ∅
  /\ ~ (forall k v, python_settings !! k = Some v ->
          inner (_adapt_for_project_type go_python_project) !! k = Some v).
Proof.
  split; [reflexivity|]. split; [reflexivity|]. split; [reflexivity|].
  intros Hall.
  specialize (Hall "linting" _ eq_refl). vm_compute in Hall. discriminate Hall.
Qed.

(** C6, amended. The language-specific sub-settings of the project-type
    layer are those of the head of [project_structure.languages], the
    primary language: they are applied when the head has a catalog entry,
    and nothing language-specific is applied when it has none, whatever
    languages follow it. *)
Theorem primary_language_settings (cfg : config_data_t) (ps : project_structure_t)
    (lang : string) (rest : list string) :
  project_structure cfg = Some ps ->
  languages ps = Some (lang :: rest) ->
  (forall lang_settings,
     project_specific_settings !! lang = Some lang_settings ->
     apply_language (lang :: rest) ∅ = dict_update ∅ lang_settings
     /\ _adapt_for_project_type cfg
        = settings_layer
            (apply_web ps (apply_project_type (default "unknown" (project_type ps))
                             (dict_update ∅ lang_settings))))
  /\ (project_specific_settings !! lang = None ->
      apply_language (lang :: rest) ∅ = ∅
      /\ _adapt_for_project_type cfg
         = settings_layer
             (apply_web ps (apply_project_type (default "unknown" (project_type ps)) ∅))).
Proof.
  intros Hps Hl. unfold _adapt_for_project_type. rewrite Hps.
  change (default no_project_structure (Some ps)) with ps. cbv zeta. rewrite Hl.
  change (default [] (Some (lang :: rest))) with (lang :: rest).
  unfold apply_language. split.
  - intros s Hs. rewrite Hs. split; reflexivity.
  - intros Hn. rewrite Hn. split; reflexivity.
Qed.

Lemma primary_language_settings_witness :
  apply_language ["go"; "python"] ∅ = ∅
  /\ _adapt_for_project_type go_python_project
     = settings_layer (apply_web
         {| project_type := Some "go"; languages := Some ["go"; "python"];
            frameworks := Some []; total_files := Some 10%Z; file_counts := None |}
         (apply_project_type "go" ∅)).
Proof.
  refine (proj2 (primary_language_settings go_python_project _ "go" ["python"] _ _) _).
  - reflexivity.
  - reflexivity.
  - vm_compute. reflexivity.
Defined.

(** * Further properties *)

(** ** Further properties of the merge engine *)

Lemma dom_merge_settings (base update : tree) :
  dom (_merge_settings base update) = dom base ∪ dom update.
Proof.
  apply set_eq. intros k. rewrite elem_of_union, !elem_of_dom, lookup_merge_settings.
  destruct (base !! k) as [[| |bm]|], (update !! k) as [[| |um]|];
    cbv beta iota delta [merge_slot]; split; intros H;
    try (destruct H as [H|H]); eauto;
    by (apply is_Some_None in H).
Qed.

Lemma dom_merge_layers layers : forall start : tree,
  dom (merge_layers start layers) = dom start ∪ ⋃ (dom <$> layers).
Proof.
  induction layers as [|L layers IH]; intros start; simpl.
  - set_solver.
  - unfold merge_layers in IH. rewrite IH, dom_merge_settings. set_solver.
Qed.

(** X1. A merge never drops a key: the keys of the result are those of the
    base and those of the overlay, and the keys of a fold over layers are
    those of the start tree and of every layer. *)
Theorem merge_settings_keys (base update : tree) (layers : list tree) :
  dom (_merge_settings base update) = dom base ∪ dom update
  /\ dom (merge_layers base layers) = dom base ∪ ⋃ (dom <$> layers).
Proof. split; [apply dom_merge_settings|apply dom_merge_layers]. Qed.

(** X2. An overlay without nested mappings acts as [dict.update] on the copy
    of the base. *)
Theorem merge_settings_flat_overlay (base update : tree) :
  map_Forall (fun _ v => is_dict v = false) update ->
  _merge_settings base update = dict_update base update.
Proof.
  intros Hflat. apply map_eq. intros k. unfold dict_update.
  rewrite lookup_merge_settings, lookup_union.
  destruct (update !! k) as [v|] eqn:Hk.
  - rewrite (merge_slot_nondict _ _ (Hflat _ _ Hk)). by destruct (base !! k).
  - rewrite merge_slot_absent. by destruct (base !! k).
Qed.

Lemma merge_settings_flat_overlay_witness :
  _merge_settings default_cline_settings low_memory
  = dict_update default_cline_settings low_memory.
Proof.
  apply merge_settings_flat_overlay.
  apply (bool_decide_unpack _). vm_compute. exact I.
Defined.

Lemma merge_settings_empty_r (b : tree) : _merge_settings b ∅ = b.
Proof.
  apply map_eq. intros k. by rewrite lookup_merge_settings, lookup_empty, merge_slot_absent.
Qed.

Lemma merge_settings_self_bounded n : forall b : tree,
  depth (VDict b) <= n -> _merge_settings b b = b.
Proof.
  induction n as [|n IH]; intros b Hb; [simpl in Hb; lia|].
  apply map_eq. intros k. rewrite lookup_merge_settings.
  destruct (b !! k) as [[| |bm]|] eqn:Hk; slot_cases.
  do 2 f_equal. apply IH. apply depth_lookup in Hk. lia.
Qed.

(** X3. The empty tree is neutral on both sides, and a tree merged into itself
    is unchanged. *)
Theorem merge_settings_identities (b : tree) :
  _merge_settings b ∅ = b /\ _merge_settings ∅ b = b /\ _merge_settings b b = b.
Proof.
  split; [apply merge_settings_empty_r|]. split; [apply merge_settings_empty_l|].
  by apply (merge_settings_self_bounded (depth (VDict b))).
Qed.

(** X4. Merging is not associative: there are three trees for which the
    grouping matters (a scalar between two nested mappings under one key),
    so the left-to-right fold is part of the meaning of a layer list. *)
Theorem merge_settings_not_associative :
  exists A B C : tree,
    _merge_settings (_merge_settings A B) C <> _merge_settings A (_merge_settings B C).
Proof.
  exists {[ "k" := VDict {[ "x" := VI 1 ]} ]}, {[ "k" := VI 5 ]},
         {[ "k" := VDict {[ "y" := VI 2 ]} ]}.
  intros Hassoc.
  apply (f_equal (fun m : tree => get_dict m "k" !! "x")) in Hassoc.
  vm_compute in Hassoc. discriminate Hassoc.
Qed.


(** ** [_deep_copy] over the store *)

(** X5. Copying a reference that denotes a finite tree returns, given enough
    fuel: nothing in the store is written to, the original and the copy
    denote the same tree, and every object the copy leads to is a new one,
    which the original does not lead to. *)
Theorem deep_copy_fresh (h : store) (v : ref) (t : value) :
  repr h v t ->
  exists N, forall fuel, N <= fuel -> exists v' h',
    deep_copy_st fuel v h = Some (v', h')
    /\ (forall l o, h !! l = Some o -> h' !! l = Some o)
    /\ repr h' v t
    /\ repr h' v' t
    /\ forall l, reach h' v' l -> length h <= l /\ ~ reach h' v l.
Proof.
  intros Hv. exists (S (depth t)). intros fuel Hfuel.
  destruct (deep_copy_st_spec t fuel h v) as (v' & h' & Heq & Hun & Hr); [lia|done|].
  exists v', h'. split; [done|]. split; [done|].
  split; [by eapply repr_in_unchanged|].
  split; [eapply repr_in_impl; [|exact Hr]; done|].
  intros l Hl. pose proof (repr_in_reach _ _ _ _ Hl _ Hr) as Hfresh. simpl in Hfresh.
  split; [done|]. intros Hreach.
  apply repr_in_bounded in Hv. eapply repr_in_unchanged in Hv; [|exact Hun].
  pose proof (repr_in_reach _ _ _ _ Hreach _ Hv) as [_ Hlt]. lia.
Qed.

Lemma deep_copy_fresh_witness :
  exists N, forall fuel, N <= fuel -> exists v' h',
    deep_copy_st fuel (RObj 4) demo_store = Some (v', h')
    /\ (forall l o, demo_store !! l = Some o -> h' !! l = Some o)
    /\ repr h' (RObj 4) (VDict demo_update)
    /\ repr h' v' (VDict demo_update)
    /\ forall l, reach h' v' l -> length demo_store <= l /\ ~ reach h' (RObj 4) l.
Proof. exact (deep_copy_fresh demo_store (RObj 4) (VDict demo_update) demo_store_update). Defined.


(** ** Further properties of the layer selector *)

(** The slot of a key of the final inner dictionary, spelled out over the
    five layers. *)
Lemma final_setting_slots cfg pd k :
  final_setting (generate_adaptive_config cfg pd) k
  = merge_slot (merge_slot (merge_slot (merge_slot (merge_slot
      (default_cline_settings !! k)
      (inner (_adapt_for_project_type cfg) !! k))
      (inner (_adapt_for_performance pd) !! k))
      (inner (_adapt_for_project_scale cfg) !! k))
      (inner (_adapt_for_usage_patterns cfg pd) !! k))
      (inner (_preserve_user_settings cfg) !! k).
Proof. rewrite final_setting_merged, merged_cline_settings_lookup. reflexivity. Qed.

Lemma project_type_layer_absent cfg k :
  k ∉ project_keys -> inner (_adapt_for_project_type cfg) !! k = None.
Proof. exact (not_in_dom_lookup _ _ _ (proj2 (project_type_layer cfg))). Qed.

Lemma performance_layer_absent pd k :
  k ∉ performance_keys -> inner (_adapt_for_performance pd) !! k = None.
Proof. exact (not_in_dom_lookup _ _ _ (proj2 (performance_layer pd))). Qed.

Lemma project_scale_layer_absent cfg k :
  k ∉ scale_keys -> inner (_adapt_for_project_scale cfg) !! k = None.
Proof. exact (not_in_dom_lookup _ _ _ (proj2 (project_scale_layer cfg))). Qed.

Lemma usage_patterns_layer_absent cfg pd k :
  k ∉ usage_keys -> inner (_adapt_for_usage_patterns cfg pd) !! k = None.
Proof. exact (not_in_dom_lookup _ _ _ (proj2 (usage_patterns_layer cfg pd))). Qed.

Lemma user_settings_layer_absent cfg k :
  k ∉ user_keys -> inner (_preserve_user_settings cfg) !! k = None.
Proof. exact (not_in_dom_lookup _ _ _ (proj2 (user_settings_layer cfg))). Qed.

Ltac absent_layers :=
  rewrite ?project_type_layer_absent, ?performance_layer_absent,
    ?project_scale_layer_absent, ?usage_patterns_layer_absent,
    ?user_settings_layer_absent by (by vm_compute).

(** What the scale layer holds, by the thresholds on [total_files] and the
    number of languages. *)
Lemma project_scale_layer_values cfg :
  let ps := default no_project_structure (project_structure cfg) in
  let files := default 0%Z (total_files ps) in
  let n := length (default [] (languages ps)) in
  inner (_adapt_for_project_scale cfg) !! "requestLimit"
    = Some (VI (if (100 <? files)%Z then 50 else if (50 <? files)%Z then 35 else 20))
  /\ inner (_adapt_for_project_scale cfg) !! "contextWindow"
     = Some (VI ((if (100 <? files)%Z then 250000
                  else if (50 <? files)%Z then 200000 else 150000)
                 + (if (2 <? n)%nat then 50000 else 0)))
  /\ inner (_adapt_for_project_scale cfg) !! "maxResponseTokens"
     = if (2 <? n)%nat then Some (VI 10240) else None.
Proof.
  intros ps files n. unfold _adapt_for_project_scale. rewrite inner_settings_layer.
  fold ps. fold files. fold n. unfold apply_polyglot, apply_scale.
  destruct (100 <? files)%Z, (50 <? files)%Z, (2 <? n)%nat;
    (split; [|split]); vm_compute; reflexivity.
Qed.

(** X6. The scale tier has the last word on the request limit and the context
    window: in the final tree they are the values of the thresholds on
    [total_files] (context window plus 50000 for more than two languages),
    whatever the performance data and the user's settings are. *)
Theorem scale_tier_final (cfg : config_data_t) (pd : performance_data_t) :
  let ps := default no_project_structure (project_structure cfg) in
  let files := default 0%Z (total_files ps) in
  let n := length (default [] (languages ps)) in
  final_setting (generate_adaptive_config cfg pd) "requestLimit"
    = Some (VI (if (100 <? files)%Z then 50 else if (50 <? files)%Z then 35 else 20))
  /\ final_setting (generate_adaptive_config cfg pd) "contextWindow"
     = Some (VI ((if (100 <? files)%Z then 250000
                  else if (50 <? files)%Z then 200000 else 150000)
                 + (if (2 <? n)%nat then 50000 else 0))).
Proof.
  intros ps files n.
  destruct (project_scale_layer_values cfg) as (Hrl & Hcw & _).
  fold ps files n in Hrl, Hcw.
  rewrite !final_setting_slots, Hrl, Hcw. absent_layers.
  rewrite !merge_slot_absent. split; by rewrite merge_slot_nondict.
Qed.

(** X7. More than two languages fix the final response budget at 10240, over
    the tiers and the CPU remediation; otherwise it is the performance
    layer's value, or the default 8192 when that layer sets none. *)
Theorem final_max_response_tokens (cfg : config_data_t) (pd : performance_data_t) :
  let ps := default no_project_structure (project_structure cfg) in
  let n := length (default [] (languages ps)) in
  final_setting (generate_adaptive_config cfg pd) "maxResponseTokens"
  = if (2 <? n)%nat then Some (VI 10240)
    else Some (default (VI 8192) (inner (_adapt_for_performance pd) !! "maxResponseTokens")).
Proof.
  intros ps n.
  destruct (project_scale_layer_values cfg) as (_ & _ & Hmt). fold ps n in Hmt.
  rewrite final_setting_slots, Hmt. absent_layers. rewrite !merge_slot_absent.
  destruct (2 <? n)%nat; [by rewrite merge_slot_nondict|].
  rewrite merge_slot_absent.
  destruct (inner (_adapt_for_performance pd) !! "maxResponseTokens") as [v|]; [|done].
  cbv beta iota delta [merge_slot]. by rewrite deep_copy_id.
Qed.


Lemma apply_issue_cases cs issue :
  apply_issue cs issue
  = if is_high "memory" issue
    then <["enableCaching" := VB false]> (<["memoryOptimization" := VB true]> cs)
    else if is_high "cpu" issue
    then <["maxResponseTokens" := VI 4096]> (<["parallelProcessing" := VB false]> cs)
    else cs.
Proof. reflexivity. Qed.

Ltac insert_lookups :=
  repeat (rewrite lookup_insert_eq || rewrite lookup_insert_ne by done).

Lemma apply_issues_memory issues : forall cs,
  let out := foldl apply_issue cs issues in
  (out !! "memoryOptimization"
   = if existsb (is_high "memory") issues then Some (VB true) else cs !! "memoryOptimization")
  /\ (out !! "enableCaching"
      = if existsb (is_high "memory") issues then Some (VB false) else cs !! "enableCaching").
Proof.
  induction issues as [|i issues IH]; intros cs; [done|].
  simpl. destruct (IH (apply_issue cs i)) as [IH1 IH2]. rewrite IH1, IH2.
  rewrite apply_issue_cases.
  destruct (is_high "memory" i) eqn:Hm; simpl.
  - destruct (existsb _ issues); split; insert_lookups; reflexivity.
  - destruct (existsb _ issues); [done|].
    destruct (is_high "cpu" i); split; insert_lookups; reflexivity.
Qed.

Lemma is_high_exclusive i : is_high "memory" i = true -> is_high "cpu" i = false.
Proof.
  unfold is_high. intros [Hm _]%andb_true_iff. apply String.eqb_eq in Hm.
  by rewrite Hm.
Qed.

Lemma apply_issues_cpu issues : forall cs,
  let out := foldl apply_issue cs issues in
  (out !! "parallelProcessing"
   = if existsb (is_high "cpu") issues then Some (VB false) else cs !! "parallelProcessing")
  /\ (out !! "maxResponseTokens"
      = if existsb (is_high "cpu") issues then Some (VI 4096) else cs !! "maxResponseTokens").
Proof.
  induction issues as [|i issues IH]; intros cs; [done|].
  simpl. destruct (IH (apply_issue cs i)) as [IH1 IH2]. rewrite IH1, IH2.
  rewrite apply_issue_cases.
  destruct (is_high "memory" i) eqn:Hm; simpl.
  - rewrite (is_high_exclusive _ Hm). simpl.
    destruct (existsb _ issues); [done|]. split; insert_lookups; reflexivity.
  - destruct (is_high "cpu" i); simpl.
    + destruct (existsb _ issues); split; insert_lookups; reflexivity.
    + done.
Qed.

(** X8. With system metrics present, one memory issue of high severity anywhere
    in [performance_issues] leaves [memoryOptimization = True] and
    [enableCaching = False] in the performance layer, and one CPU issue of
    high severity leaves [parallelProcessing = False] and
    [maxResponseTokens = 4096], whatever tier was applied before; with no
    system metrics the layer is empty and the issues are not read. *)
Theorem remediation_over_tiers (pd : performance_data_t) :
  let sm := default no_system_metrics (system_metrics pd) in
  let issues := default [] (performance_issues pd) in
  let layer := inner (_adapt_for_performance pd) in
  (system_metrics_is_empty sm = true -> layer = ∅)
  /\ (system_metrics_is_empty sm = false ->
      (existsb (is_high "memory") issues = true ->
         layer !! "memoryOptimization" = Some (VB true)
         /\ layer !! "enableCaching" = Some (VB false))
      /\ (existsb (is_high "cpu") issues = true ->
            layer !! "parallelProcessing" = Some (VB false)
            /\ layer !! "maxResponseTokens" = Some (VI 4096))).
Proof.
  intros sm issues layer. subst layer. unfold _adapt_for_performance. fold sm issues.
  split; intros Hsm; rewrite Hsm, inner_settings_layer; [done|].
  split; intros Hex.
  - destruct (apply_issues_memory issues
                (apply_cpu_tier (default no_cpu_info (cpu sm))
                   (apply_memory_tier (default no_memory_info (memory sm)) ∅))) as [H1 H2].
    by rewrite Hex in H1, H2.
  - destruct (apply_issues_cpu issues
                (apply_cpu_tier (default no_cpu_info (cpu sm))
                   (apply_memory_tier (default no_memory_info (memory sm)) ∅))) as [H1 H2].
    by rewrite Hex in H1, H2.
Qed.

Lemma remediation_over_tiers_witness :
  inner (_adapt_for_performance large_machine_with_issue) !! "memoryOptimization"
    = Some (VB true)
  /\ inner (_adapt_for_performance large_machine_with_issue) !! "enableCaching"
     = Some (VB false).
Proof.
  refine (proj1 (proj2 (remediation_over_tiers large_machine_with_issue) _) _);
    reflexivity.
Defined.


(** What the user layer holds: the three preserved keys, as the user's
    settings have them. *)
Lemma user_settings_layer_lookup cfg k :
  inner (_preserve_user_settings cfg) !! k
  = if bool_decide (k ∈ preserve_keys)
    then default ∅ (cline_settings (default no_vscode_settings (vscode_settings cfg))) !! k
    else None.
Proof.
  unfold _preserve_user_settings. rewrite inner_settings_layer.
  set (current := default ∅ (cline_settings (default no_vscode_settings (vscode_settings cfg)))).
  unfold preserve_keys. cbn [foldl]. unfold preserve_key.
  destruct (decide (k = "customInstructions")) as [->|H1];
    [|destruct (decide (k = "preferredLanguage")) as [->|H2];
      [|destruct (decide (k = "autoApprove")) as [->|H3]]].
  - rewrite bool_decide_eq_true_2 by dom_check.
    destruct (current !! "customInstructions"), (current !! "preferredLanguage"),
      (current !! "autoApprove"); insert_lookups; reflexivity.
  - rewrite bool_decide_eq_true_2 by dom_check.
    destruct (current !! "customInstructions"), (current !! "preferredLanguage"),
      (current !! "autoApprove"); insert_lookups; reflexivity.
  - rewrite bool_decide_eq_true_2 by dom_check.
    destruct (current !! "customInstructions"), (current !! "preferredLanguage"),
      (current !! "autoApprove"); insert_lookups; reflexivity.
  - rewrite bool_decide_eq_false_2.
    2:{ intros Hin. repeat (apply elem_of_cons in Hin as [Hin|Hin]; [done|]).
        by apply elem_of_nil in Hin. }
    destruct (current !! "customInstructions"), (current !! "preferredLanguage"),
      (current !! "autoApprove"); insert_lookups; reflexivity.
Qed.

Lemma usage_patterns_layer_values cfg pd :
  let up := default no_usage_patterns (usage_patterns cfg) in
  let sessions := default 0%Z (sessions_count up) in
  let errors := length (default [] (error_patterns up)) in
  let layer := inner (_adapt_for_usage_patterns cfg pd) in
  (layer !! "autoApprove"
   = if (100 <? sessions)%Z then Some (VB true)
     else if (sessions <? 10)%Z then Some (VB false) else None)
  /\ (layer !! "experimentalFeatures"
      = if (100 <? sessions)%Z then Some (VB true)
        else if (sessions <? 10)%Z then Some (VB false) else None)
  /\ (layer !! "debugMode"
      = if (100 <? sessions)%Z then Some (VB false)
        else if (sessions <? 10)%Z then Some (VB true) else None)
  /\ (layer !! "temperature" = if (10 <? errors)%nat then Some (VF (1 # 20)%Q) else None)
  /\ (layer !! "security"
      = if (10 <? errors)%nat
        then Some (VDict {[ "restrictFileAccess" := VB true; "sanitizeInputs" := VB true ]})
        else None).
Proof.
  intros up sessions errors layer. subst layer.
  unfold _adapt_for_usage_patterns. rewrite inner_settings_layer.
  fold up. fold sessions. cbv zeta. fold errors.
  destruct (100 <? sessions)%Z, (sessions <? 10)%Z, (10 <? errors)%nat;
    repeat split; reflexivity.
Qed.

(** X9. A value the user has set for [customInstructions], [preferredLanguage]
    or [autoApprove] is the final value of that key, over every computed
    layer. *)
Theorem user_override_wins (cfg : config_data_t) (pd : performance_data_t)
    (key : string) (v : value) :
  key ∈ preserve_keys ->
  default ∅ (cline_settings (default no_vscode_settings (vscode_settings cfg))) !! key
    = Some v ->
  final_setting (generate_adaptive_config cfg pd) key = Some v.
Proof.
  intros Hkey Hv.
  rewrite final_setting_slots, (user_settings_layer_lookup cfg key).
  rewrite bool_decide_eq_true_2, Hv by done.
  destruct (usage_patterns_layer_values cfg pd) as (Hauto & _).
  assert (Hscalar : forall x s, merge_slot x (Some (VScalar s)) = Some (VScalar s)).
  { intros x s. by apply merge_slot_nondict. }
  assert (Hover : forall s, merge_slot (Some (VScalar s)) (Some v) = Some v).
  { intros s. cbv beta iota delta [merge_slot]. by rewrite deep_copy_id. }
  repeat (apply elem_of_cons in Hkey as [->|Hkey]).
  - absent_layers. rewrite !merge_slot_absent. apply Hover.
  - absent_layers. rewrite !merge_slot_absent. apply Hover.
  - absent_layers. rewrite !merge_slot_absent, Hauto.
    repeat case_match; rewrite ?Hscalar, ?merge_slot_absent; apply Hover.
  - by apply elem_of_nil in Hkey.
Qed.

Lemma user_override_wins_witness :
  final_setting (generate_adaptive_config cautious_user_config empty_performance_data)
    "autoApprove" = Some (VB true).
Proof.
  apply user_override_wins.
  - dom_check.
  - reflexivity.
Defined.

(** X10. Nothing else of the user's settings enters the result: two snapshots
    that agree on the project structure, the usage patterns and the three
    preserved keys give the same configuration. *)
Theorem only_preserved_keys_matter (cfg cfg' : config_data_t) (pd : performance_data_t) :
  project_structure cfg = project_structure cfg' ->
  usage_patterns cfg = usage_patterns cfg' ->
  (forall key, key ∈ preserve_keys ->
     default ∅ (cline_settings (default no_vscode_settings (vscode_settings cfg))) !! key
     = default ∅ (cline_settings (default no_vscode_settings (vscode_settings cfg'))) !! key) ->
  generate_adaptive_config cfg pd = generate_adaptive_config cfg' pd.
Proof.
  intros Hps Hup Hkeys.
  assert (Huser : _preserve_user_settings cfg = _preserve_user_settings cfg').
  { rewrite (proj1 (user_settings_layer cfg)), (proj1 (user_settings_layer cfg')).
    f_equal. apply map_eq. intros k. rewrite !user_settings_layer_lookup.
    case_bool_decide; [by apply Hkeys|done]. }
  unfold generate_adaptive_config. rewrite Huser.
  unfold _adapt_for_project_type, _adapt_for_project_scale, _adapt_for_usage_patterns,
    _generate_vscode_config.
  by rewrite Hps, Hup.
Qed.

Lemma only_preserved_keys_matter_witness :
  generate_adaptive_config cautious_user_config empty_performance_data
  = generate_adaptive_config
      {| project_structure := None;
         vscode_settings := Some {| cline_settings := Some {[ "autoApprove" := VB true ]} |};
         usage_patterns := Some {| sessions_count := Some 3%Z; error_patterns := None |};
         current_rules := None; current_workflows := None |}
      empty_performance_data.
Proof.
  apply only_preserved_keys_matter; [reflexivity|reflexivity|].
  intros key Hkey.
  repeat (apply elem_of_cons in Hkey as [->|Hkey]); try reflexivity.
  by apply elem_of_nil in Hkey.
Defined.


(** X11. The usage layer in the final tree: experimental features are on exactly
    for more than 100 sessions and debug mode exactly for fewer than 10;
    auto-approval follows the former unless the user has set it; the
    temperature is 0.05 for more than ten error patterns and 0.1 otherwise;
    and the security mapping is the default one in every case, the
    determinism layer restating two of its three entries. *)
Theorem usage_layer_final (cfg : config_data_t) (pd : performance_data_t) :
  let up := default no_usage_patterns (usage_patterns cfg) in
  let sessions := default 0%Z (sessions_count up) in
  let errors := length (default [] (error_patterns up)) in
  let user := default ∅ (cline_settings (default no_vscode_settings (vscode_settings cfg))) in
  final_setting (generate_adaptive_config cfg pd) "experimentalFeatures"
    = Some (VB (100 <? sessions)%Z)
  /\ final_setting (generate_adaptive_config cfg pd) "debugMode"
     = Some (VB (sessions <? 10)%Z)
  /\ (user !! "autoApprove" = None ->
      final_setting (generate_adaptive_config cfg pd) "autoApprove"
      = Some (VB (100 <? sessions)%Z))
  /\ final_setting (generate_adaptive_config cfg pd) "temperature"
     = Some (VF (if (10 <? errors)%nat then (1 # 20)%Q else (1 # 10)%Q))
  /\ final_setting (generate_adaptive_config cfg pd) "security"
     = Some (VDict default_security).
Proof.
  intros up sessions errors user.
  destruct (usage_patterns_layer_values cfg pd) as (Hauto & Hexp & Hdbg & Htemp & Hsec).
  fold up sessions errors in Hauto, Hexp, Hdbg, Htemp, Hsec.
  split; [|split; [|split; [|split]]].
  - rewrite final_setting_slots, Hexp. absent_layers. rewrite !merge_slot_absent.
    destruct (Z.ltb_spec 100 sessions), (Z.ltb_spec sessions 10); try lia; reflexivity.
  - rewrite final_setting_slots, Hdbg. absent_layers. rewrite !merge_slot_absent.
    destruct (Z.ltb_spec 100 sessions), (Z.ltb_spec sessions 10); try lia; reflexivity.
  - intros Huser.
    rewrite final_setting_slots, Hauto, (user_settings_layer_lookup cfg "autoApprove").
    rewrite bool_decide_eq_true_2 by dom_check.
    fold user. rewrite Huser. absent_layers. rewrite !merge_slot_absent.
    destruct (Z.ltb_spec 100 sessions), (Z.ltb_spec sessions 10); try lia; reflexivity.
  - rewrite final_setting_slots, Htemp. absent_layers. rewrite !merge_slot_absent.
    destruct (10 <? errors)%nat; reflexivity.
  - rewrite final_setting_slots, Hsec. absent_layers. rewrite !merge_slot_absent.
    destruct (10 <? errors)%nat; [|reflexivity].
    reflexivity.
Qed.

Lemma usage_layer_final_witness :
  final_setting (generate_adaptive_config empty_config_data empty_performance_data)
    "autoApprove" = Some (VB false).
Proof.
  refine (proj1 (proj2 (proj2 (usage_layer_final empty_config_data empty_performance_data))) _).
  reflexivity.
Defined.




(** X12. The final tree has the key ['cline_settings'] and editor-level keys
    only; the inner dictionary keeps every default key, and has no key
    outside the defaults and the fixed key sets of the five layers. *)
Theorem final_keys (cfg : config_data_t) (pd : performance_data_t) :
  dom (generate_adaptive_config cfg pd) ⊆ {[ "cline_settings" ]} ∪ editor_keys
  /\ "cline_settings" ∈ dom (generate_adaptive_config cfg pd)
  /\ dom default_cline_settings ⊆ dom (inner (generate_adaptive_config cfg pd))
  /\ dom (inner (generate_adaptive_config cfg pd))
     ⊆ dom default_cline_settings ∪ project_keys ∪ performance_keys ∪ scale_keys
       ∪ usage_keys ∪ user_keys.
Proof.
  assert (Hinner : inner (generate_adaptive_config cfg pd) = merged_cline_settings cfg pd).
  { apply map_eq. intros k. apply (final_setting_merged cfg pd k). }
  rewrite Hinner. unfold merged_cline_settings. rewrite dom_merge_layers.
  unfold inner_layers, selected_layers. rewrite !fmap_cons, !union_list_cons.
  pose proof (proj2 (project_type_layer cfg)) as H.
  pose proof (proj2 (performance_layer pd)) as H0.
  pose proof (proj2 (project_scale_layer cfg)) as H1.
  pose proof (proj2 (usage_patterns_layer cfg pd)) as H2.
  pose proof (proj2 (user_settings_layer cfg)) as H3.
  split; [|split; [|split]].
  - rewrite generate_adaptive_config_unfold. unfold dict_update, settings_layer.
    rewrite dom_union_L, dom_singleton_L.
    apply union_subseteq. split; [|apply union_subseteq_l].
    etransitivity; [apply vscode_config_dom|apply union_subseteq_r].
  - rewrite generate_adaptive_config_unfold. unfold dict_update, settings_layer.
    rewrite dom_union_L, dom_singleton_L.
    apply elem_of_union_r. by apply elem_of_singleton.
  - apply union_subseteq_l.
  - revert H H0 H1 H2 H3.
    generalize (dom (inner (_adapt_for_project_type cfg)))
      (dom (inner (_adapt_for_performance pd)))
      (dom (inner (_adapt_for_project_scale cfg)))
      (dom (inner (_adapt_for_usage_patterns cfg pd)))
      (dom (inner (_preserve_user_settings cfg)))
      (dom default_cline_settings)
      project_keys performance_keys scale_keys usage_keys user_keys.
    clear. intros d1 d2 d3 d4 d5 d0 K1 K2 K3 K4 K5 H1 H2 H3 H4 H5.
    set_solver.
Qed.

(** *** The editor settings *)

Lemma project_specific_settings_cases lang s :
  project_specific_settings !! lang = Some s ->
  s = python_settings \/ s = javascript_settings \/ s = typescript_settings
  \/ s = web_settings.
Proof.
  unfold project_specific_settings. intros H.
  apply lookup_insert_Some in H as [[_ <-]|[_ H]]; [auto|].
  apply lookup_insert_Some in H as [[_ <-]|[_ H]]; [auto|].
  apply lookup_insert_Some in H as [[_ <-]|[_ H]]; [auto|].
  apply lookup_singleton_Some in H as [_ <-]. auto.
Qed.

(** The code style of the project-type layer is that of one of the three
    language entries of the catalog, if any. *)
Lemma project_type_layer_codeStyle cfg :
  inner (_adapt_for_project_type cfg) !! "codeStyle"
  ∈ [ None; python_settings !! "codeStyle"; javascript_settings !! "codeStyle";
      typescript_settings !! "codeStyle" ].
Proof.
  unfold _adapt_for_project_type. rewrite inner_settings_layer.
  set (ps := default no_project_structure (project_structure cfg)).
  assert (Hupd : forall (cs s : tree),
            cs !! "codeStyle" ∈ [ None; python_settings !! "codeStyle";
                                   javascript_settings !! "codeStyle";
                                   typescript_settings !! "codeStyle" ] ->
            (s = python_settings \/ s = javascript_settings \/ s = typescript_settings
             \/ s = web_settings) ->
            dict_update cs s !! "codeStyle"
            ∈ [ None; python_settings !! "codeStyle"; javascript_settings !! "codeStyle";
                typescript_settings !! "codeStyle" ]).
  { intros cs s Hcs Hs. unfold dict_update. rewrite lookup_union.
    destruct Hs as [-> | [-> | [-> | ->]]].
    - change (python_settings !! "codeStyle") with
        (Some (VDict {[ "indentation" := VI 4; "quotes" := VS "double";
                        "lineLength" := VI 88 ]})) at 1.
      rewrite union_Some_l. set_solver.
    - change (javascript_settings !! "codeStyle") with
        (Some (VDict {[ "indentation" := VI 2; "quotes" := VS "single";
                        "semicolons" := VB false; "trailingCommas" := VB true ]})) at 1.
      rewrite union_Some_l. set_solver.
    - change (typescript_settings !! "codeStyle") with
        (Some (VDict {[ "indentation" := VI 2; "quotes" := VS "single";
                        "semicolons" := VB false; "strictMode" := VB true ]})) at 1.
      rewrite union_Some_l. set_solver.
    - change (web_settings !! "codeStyle") with (@None value).
      by rewrite (left_id_L None (∪)). }
  assert (H0 : (∅ : tree) !! "codeStyle"
               ∈ [ None; python_settings !! "codeStyle"; javascript_settings !! "codeStyle";
                   typescript_settings !! "codeStyle" ]) by (rewrite lookup_empty; set_solver).
  assert (H1 : apply_language (default [] (languages ps)) ∅ !! "codeStyle"
               ∈ [ None; python_settings !! "codeStyle"; javascript_settings !! "codeStyle";
                   typescript_settings !! "codeStyle" ]).
  { unfold apply_language. destruct (default [] (languages ps)) as [|l ?]; [done|].
    destruct (project_specific_settings !! l) eqn:Hl; [|done].
    apply Hupd; [done|]. by eapply project_specific_settings_cases. }
  assert (H2 : apply_project_type (default "unknown" (project_type ps))
                 (apply_language (default [] (languages ps)) ∅) !! "codeStyle"
               ∈ [ None; python_settings !! "codeStyle"; javascript_settings !! "codeStyle";
                   typescript_settings !! "codeStyle" ]).
  { unfold apply_project_type.
    destruct (project_specific_settings !! _) eqn:Hl; [|done].
    apply Hupd; [done|]. by eapply project_specific_settings_cases. }
  unfold apply_web. destruct (_is_web_project ps); [|done].
  apply Hupd; [done|]. by right; right; right.
Qed.


Lemma vscode_config_tab_size a cfg (style : tree) :
  get_dict (get_dict a "cline_settings") "codeStyle" = style ->
  style <> ∅ ->
  truthy (get_dict (get_dict a "cline_settings") "performance" !! "memoryOptimization") = false ->
  _generate_vscode_config a cfg !! "editor.tabSize"
    = Some (default (VI 4) (style !! "indentation"))
  /\ _generate_vscode_config a cfg !! "editor.insertSpaces" = Some (VB true)
  /\ _generate_vscode_config a cfg !! "editor.detectIndentation" = Some (VB false).
Proof.
  intros Hstyle Hne Hm. unfold _generate_vscode_config. rewrite Hm, Hstyle.
  rewrite (bool_decide_eq_false_2 (style = ∅)) by done. cbn [negb].
  unfold dict_update. repeat split; by rewrite lookup_union_l'.
Qed.

(** X13. The editor settings mirror the code style: for every snapshot the
    final ['codeStyle'] is a mapping whose indentation is 2 or 4, and the
    output has [editor.tabSize] at that width, [editor.insertSpaces] on and
    [editor.detectIndentation] off. *)
Theorem editor_mirrors_code_style (cfg : config_data_t) (pd : performance_data_t) :
  exists (style : tree) (width : Z),
    final_setting (generate_adaptive_config cfg pd) "codeStyle" = Some (VDict style)
    /\ style !! "indentation" = Some (VI width)
    /\ (width = 2 \/ width = 4)%Z
    /\ generate_adaptive_config cfg pd !! "editor.tabSize" = Some (VI width)
    /\ generate_adaptive_config cfg pd !! "editor.insertSpaces" = Some (VB true)
    /\ generate_adaptive_config cfg pd !! "editor.detectIndentation" = Some (VB false).
Proof.
  assert (Hslot : final_setting (generate_adaptive_config cfg pd) "codeStyle"
                  = merge_slot (Some (VDict default_codeStyle))
                      (inner (_adapt_for_project_type cfg) !! "codeStyle")).
  { rewrite final_setting_slots. absent_layers. by rewrite !merge_slot_absent. }
  assert (Hcases : exists (style : tree) (width : Z),
            final_setting (generate_adaptive_config cfg pd) "codeStyle" = Some (VDict style)
            /\ style !! "indentation" = Some (VI width) /\ (width = 2 \/ width = 4)%Z).
  { rewrite Hslot. pose proof (project_type_layer_codeStyle cfg) as Hin.
    apply elem_of_cons in Hin as [Hin | Hin].
    { rewrite Hin. exists default_codeStyle, 4%Z. split; [reflexivity|]. split; [reflexivity|auto]. }
    apply elem_of_cons in Hin as [Hin | Hin].
    { rewrite Hin. eexists _, 4%Z. split; [reflexivity|]. split; [vm_compute; reflexivity|auto]. }
    apply elem_of_cons in Hin as [Hin | Hin].
    { rewrite Hin. eexists _, 2%Z. split; [reflexivity|]. split; [vm_compute; reflexivity|auto]. }
    apply list_elem_of_singleton in Hin.
    { rewrite Hin. eexists _, 2%Z. split; [reflexivity|]. split; [vm_compute; reflexivity|auto]. } }
  destruct Hcases as (style & width & Hfinal & Hind & Hwidth).
  exists style, width. split; [done|]. split; [done|]. split; [done|].
  rewrite final_setting_merged in Hfinal.
  destruct (vscode_config_tab_size (settings_layer (merged_cline_settings cfg pd)) cfg style)
    as (Ht & Hi & Hd).
  - rewrite get_dict_settings_layer. unfold get_dict. by rewrite Hfinal.
  - intros ->. by rewrite lookup_empty in Hind.
  - rewrite get_dict_settings_layer. unfold get_dict at 1.
    by rewrite merged_performance_section.
  - rewrite Hind in Ht. rewrite generate_adaptive_config_unfold. unfold dict_update.
    repeat split; by apply lookup_union_Some_l.
Qed.

(** *** With the project type the analyzer determines *)

Lemma python_web_keys_disjoint k v :
  python_settings !! k = Some v -> web_settings !! k = None.
Proof.
  intros Hk. apply not_elem_of_dom. apply elem_of_dom_2 in Hk.
  assert (Hdisj : dom python_settings ## dom web_settings)
    by (apply (bool_decide_unpack _); vm_compute; exact I).
  intros Hw. exact (Hdisj k Hk Hw).
Qed.

(** X14. When the project type is the one [_determine_project_type] computes
    from the languages, a project with Python files gets every Python entry
    of the catalog in its project-type layer, wherever Python stands in the
    list of languages. *)
Theorem python_project_settings (cfg : config_data_t) (langs fws : list string)
    (files : Z) (counts : gmap string Z) :
  project_structure cfg = Some (analyzed_project langs fws files counts) ->
  "python" ∈ langs ->
  forall k v, python_settings !! k = Some v ->
    inner (_adapt_for_project_type cfg) !! k = Some v.
Proof.
  intros Hps Hpy k v Hk. unfold _adapt_for_project_type. rewrite Hps, inner_settings_layer.
  change (default no_project_structure (Some ?ps)) with ps. cbv zeta.
  unfold analyzed_project at 2. cbn [project_type default from_option id].
  unfold _determine_project_type. rewrite bool_decide_eq_true_2 by done.
  unfold apply_project_type. change (project_specific_settings !! "python")
    with (Some python_settings).
  unfold apply_web, dict_update.
  assert (Htype : (python_settings ∪ apply_language
            (default [] (languages (analyzed_project langs fws files counts))) ∅) !! k
          = Some v) by (by apply lookup_union_Some_l).
  case_match; [|done].
  rewrite lookup_union_r; [done|].
  change (default ∅ (project_specific_settings !! "web")) with web_settings.
  by eapply python_web_keys_disjoint.
Qed.

Lemma python_project_settings_witness :
  inner (_adapt_for_project_type
    {| project_structure :=
         Some (analyzed_project ["go"; "python"] [] 12 ∅);
       vscode_settings := None; usage_patterns := None;
       current_rules := None; current_workflows := None |}) !! "linting"
  = Some (VDict {[ "enableFlake8" := VB true; "enableBlack" := VB true;
                   "enableMypy" := VB true ]}).
Proof.
  apply (python_project_settings _ ["go"; "python"] [] 12 ∅).
  - reflexivity.
  - dom_check.
  - reflexivity.
Defined.


(** ** Writing the settings back (main.py) *)

Lemma string_app_prefix (p s : string) : String.prefix p (p +:+ s) = true.
Proof.
  induction p as [|c p IH]; simpl; [by destruct s|].
  by destruct (ascii_dec c c).
Qed.

Lemma update_fold (s cs : tree) :
  map_fold (fun key value settings =>
              match settings with
              | Some (VDict s) => Some (VDict (<[ "cline." +:+ key := value ]> s))
              | _ => None
              end) (Some (VDict s)) cs
  = Some (VDict (kmap (String.app "cline.") cs ∪ s)).
Proof.
  apply (map_fold_weak_ind (fun r (m : tree) =>
           r = Some (VDict (kmap (String.app "cline.") m ∪ s)))).
  - rewrite kmap_empty, (left_id_L ∅ (∪)). reflexivity.
  - intros k v m r Hk ->. do 2 f_equal.
    rewrite (kmap_insert (String.app "cline.")). by rewrite insert_union_l.
Qed.

Lemma lookup_cline_key (cs : tree) (k : string) :
  (kmap (String.app "cline.") cs : tree) !! ("cline." +:+ k) = cs !! k.
Proof. apply (lookup_kmap (String.app "cline.")). Qed.

Lemma lookup_other_key (cs : tree) (key : string) :
  String.prefix "cline." key = false ->
  (kmap (String.app "cline.") cs : tree) !! key = None.
Proof.
  intros Hp. apply lookup_kmap_None; [apply _|]. intros k ->.
  by rewrite string_app_prefix in Hp.
Qed.

Lemma update_vscode_settings_object (settings_file : option tree) (config cs : tree) :
  config !! "cline_settings" = Some (VDict cs) ->
  update_vscode_settings (VDict <$> settings_file) config
  = Some (VDict (kmap (String.app "cline.") cs ∪ default ∅ settings_file)).
Proof.
  intros Hcs. unfold update_vscode_settings. rewrite Hcs. cbn [default from_option id].
  destruct settings_file as [s|]; cbn [fmap option_fmap option_map default from_option id];
    apply update_fold.
Qed.

Lemma generate_adaptive_config_cline_settings cfg pd :
  generate_adaptive_config cfg pd !! "cline_settings"
  = Some (VDict (merged_cline_settings cfg pd)).
Proof.
  rewrite generate_adaptive_config_unfold. unfold dict_update.
  rewrite lookup_union_r; [apply lookup_settings_layer|].
  eapply not_in_dom_lookup; [apply vscode_config_dom|]. by vm_compute.
Qed.

(** X15. The settings written back are the file's settings with every entry
    [key: value] of the computed ['cline_settings'] stored under
    ['cline.' + key]: such a key takes the computed value, every other
    entry of the file is kept, and a key that does not start with
    ['cline.'] is never added or changed.  A missing file counts as the
    empty object. *)
Theorem update_vscode_settings_spec (settings_file : option tree) (config cs : tree) :
  config !! "cline_settings" = Some (VDict cs) ->
  exists written : tree,
    update_vscode_settings (VDict <$> settings_file) config = Some (VDict written)
    /\ (forall k v, cs !! k = Some v -> written !! ("cline." +:+ k) = Some v)
    /\ (forall k, cs !! k = None ->
          written !! ("cline." +:+ k) = default ∅ settings_file !! ("cline." +:+ k))
    /\ (forall key, String.prefix "cline." key = false ->
          written !! key = default ∅ settings_file !! key).
Proof.
  intros Hcs. exists (kmap (String.app "cline.") cs ∪ default ∅ settings_file).
  split; [by apply update_vscode_settings_object|].
  split; [|split].
  - intros k v Hk. apply lookup_union_Some_l. by rewrite lookup_cline_key.
  - intros k Hk. rewrite lookup_union_r; [done|]. by rewrite lookup_cline_key.
  - intros key Hp. rewrite lookup_union_r; [done|]. by apply lookup_other_key.
Qed.

Lemma update_vscode_settings_spec_witness :
  exists written : tree,
    update_vscode_settings (VDict <$> Some {[ "editor.fontSize" := VI 14 ]})
      (settings_layer {[ "requestLimit" := VI 20 ]})
    = Some (VDict written)
    /\ (forall k v, ({[ "requestLimit" := VI 20 ]} : tree) !! k = Some v ->
          written !! ("cline." +:+ k) = Some v)
    /\ (forall k, ({[ "requestLimit" := VI 20 ]} : tree) !! k = None ->
          written !! ("cline." +:+ k)
          = default ∅ (Some ({[ "editor.fontSize" := VI 14 ]} : tree)) !! ("cline." +:+ k))
    /\ (forall key, String.prefix "cline." key = false ->
          written !! key = default ∅ (Some ({[ "editor.fontSize" := VI 14 ]} : tree)) !! key).
Proof.
  apply update_vscode_settings_spec. reflexivity.
Defined.

(** X16. The editor-level entries the engine computes ([editor.tabSize],
    [editor.insertSpaces], [editor.detectIndentation],
    [files.watcherExclude]) are not written by a run: after the update the
    file has under every key that does not start with ['cline.'] what it
    had before, and under ['cline.' + key] the final value of every key of
    the default catalog. *)
Theorem run_writes_cline_settings_only (settings_file : option tree)
    (cfg : config_data_t) (pd : performance_data_t) :
  exists written : tree,
    update_vscode_settings (VDict <$> settings_file) (generate_adaptive_config cfg pd)
    = Some (VDict written)
    /\ (forall key, String.prefix "cline." key = false ->
          written !! key = default ∅ settings_file !! key)
    /\ (forall k, k ∈ dom default_cline_settings ->
          is_Some (written !! ("cline." +:+ k))
          /\ written !! ("cline." +:+ k) = final_setting (generate_adaptive_config cfg pd) k).
Proof.
  exists (kmap (String.app "cline.") (merged_cline_settings cfg pd) ∪ default ∅ settings_file).
  split.
  { apply update_vscode_settings_object, generate_adaptive_config_cline_settings. }
  split.
  { intros key Hp. rewrite lookup_union_r; [done|]. by apply lookup_other_key. }
  intros k Hk. rewrite final_setting_merged.
  assert (Hsome : is_Some (merged_cline_settings cfg pd !! k)).
  { apply elem_of_dom. unfold merged_cline_settings.
    rewrite dom_merge_layers. by apply elem_of_union_l. }
  destruct Hsome as [v Hv]. rewrite Hv.
  rewrite (lookup_union_Some_l _ _ _ v) by (by rewrite lookup_cline_key). eauto.
Qed.

Lemma run_writes_cline_settings_only_witness :
  exists written : tree,
    update_vscode_settings (VDict <$> Some {[ "editor.tabSize" := VI 8 ]})
      (generate_adaptive_config empty_config_data empty_performance_data)
    = Some (VDict written)
    /\ written !! "editor.tabSize" = Some (VI 8)
    /\ written !! "cline.requestLimit"
       = final_setting (generate_adaptive_config empty_config_data empty_performance_data)
           "requestLimit".
Proof.
  destruct (run_writes_cline_settings_only (Some {[ "editor.tabSize" := VI 8 ]})
              empty_config_data empty_performance_data) as (written & Hw & Hother & Hset).
  exists written. split; [exact Hw|]. split.
  - rewrite (Hother "editor.tabSize"); reflexivity.
  - apply (Hset "requestLimit"). dom_check.
Defined.


Lemma update_fold_not_object (v : value) (cs : tree) :
  is_dict v = false ->
  map_fold (fun key value settings =>
              match settings with
              | Some (VDict s) => Some (VDict (<[ "cline." +:+ key := value ]> s))
              | _ => None
              end) (Some v) cs
  = if bool_decide (cs = ∅) then Some v else None.
Proof.
  intros Hv.
  assert (H : (cs = ∅ -> map_fold (fun key value settings =>
              match settings with
              | Some (VDict s) => Some (VDict (<[ "cline." +:+ key := value ]> s))
              | _ => None
              end) (Some v) cs = Some v)
           /\ (cs <> ∅ -> map_fold (fun key value settings =>
              match settings with
              | Some (VDict s) => Some (VDict (<[ "cline." +:+ key := value ]> s))
              | _ => None
              end) (Some v) cs = None)).
  { apply (map_fold_weak_ind (fun r (m : tree) =>
             (m = ∅ -> r = Some v) /\ (m <> ∅ -> r = None))).
    - split; [done|]. by intros [].
    - intros k x m r Hk [Hempty Hfull]. split.
      + intros Hins. by apply insert_non_empty in Hins.
      + intros _. destruct (decide (m = ∅)) as [Hm|Hm].
        * rewrite (Hempty Hm). by destruct v.
        * by rewrite (Hfull Hm). }
  destruct H as [Hempty Hfull]. case_bool_decide; [by apply Hempty|by apply Hfull].
Qed.

(** X17. The cases in which nothing is stored: a configuration without
    ['cline_settings'] leaves the file's value as it is; a
    ['cline_settings'] that is no dictionary raises; and when the file
    holds a value that is no object, the update raises as soon as there is
    an entry to store, and writes the value back unchanged when there is
    none. *)
Theorem update_vscode_settings_edge (settings_file : option value) (config : tree) :
  (config !! "cline_settings" = None ->
     update_vscode_settings settings_file config = Some (default (VDict ∅) settings_file))
  /\ (forall x, config !! "cline_settings" = Some x -> is_dict x = false ->
        update_vscode_settings settings_file config = None)
  /\ (forall v cs, settings_file = Some v -> is_dict v = false ->
        config !! "cline_settings" = Some (VDict cs) ->
        update_vscode_settings settings_file config
        = if bool_decide (cs = ∅) then Some v else None).
Proof.
  unfold update_vscode_settings. split; [|split].
  - intros ->. cbn [default from_option id]. by rewrite map_fold_empty.
  - intros x -> Hx. cbn [default from_option id]. by destruct x.
  - intros v cs -> Hv ->. cbn [default from_option id]. by apply update_fold_not_object.
Qed.

Lemma update_vscode_settings_edge_witness :
  update_vscode_settings (Some (VList [VI 1; VI 2]))
    (generate_adaptive_config empty_config_data empty_performance_data) = None.
Proof.
  destruct (update_vscode_settings_edge (Some (VList [VI 1; VI 2]))
              (generate_adaptive_config empty_config_data empty_performance_data))
    as (_ & _ & H).
  rewrite (H (VList [VI 1; VI 2])
             (merged_cline_settings empty_config_data empty_performance_data)).
  - reflexivity.
  - reflexivity.
  - reflexivity.
  - apply generate_adaptive_config_cline_settings.
Defined.

(** ** The settings file as the analyzer reads it *)

Lemma analyzed_settings_lookup (settings_file : option value) (key : string) :
  String.prefix "cline." key = false ->
  default ∅ (cline_settings (_analyze_vscode_settings settings_file)) !! key = None.
Proof.
  intros Hp. destruct settings_file as [[| |settings]|]; try done.
  cbn [_analyze_vscode_settings cline_settings default from_option id].
  apply map_lookup_filter_None. right. intros v _ Hpre. cbn in Hpre.
  by rewrite Hp in Hpre.
Qed.

Lemma analyzed_settings_keep (settings : tree) (key : string) :
  String.prefix "cline." key = true ->
  default ∅ (cline_settings (_analyze_vscode_settings (Some (VDict settings)))) !! key
  = settings !! key.
Proof.
  intros Hp. cbn [_analyze_vscode_settings cline_settings default from_option id].
  destruct (settings !! key) as [v|] eqn:Hk.
  - apply map_lookup_filter_Some. split; [done|]. cbn. by rewrite Hp.
  - apply map_lookup_filter_None. by left.
Qed.

Lemma user_settings_layer_eq (cfg cfg' : config_data_t) :
  (forall key, key ∈ preserve_keys ->
     default ∅ (cline_settings (default no_vscode_settings (vscode_settings cfg))) !! key
     = default ∅ (cline_settings (default no_vscode_settings (vscode_settings cfg'))) !! key) ->
  _preserve_user_settings cfg = _preserve_user_settings cfg'.
Proof.
  intros Hkeys.
  rewrite (proj1 (user_settings_layer cfg)), (proj1 (user_settings_layer cfg')).
  f_equal. apply map_eq. intros k. rewrite !user_settings_layer_lookup.
  case_bool_decide; [by apply Hkeys|done].
Qed.

Lemma preserve_keys_not_prefixed key :
  key ∈ preserve_keys -> String.prefix "cline." key = false.
Proof.
  intros Hin. repeat (apply elem_of_cons in Hin as [-> | Hin]; [reflexivity|]).
  by apply elem_of_nil in Hin.
Qed.

(** X18. In a run the user's settings are never preserved: the analyzer keeps
    the entries of [settings.json] under their full keys ['cline.<name>'],
    the engine looks the three preserved settings up under their bare
    names, so the user layer is empty and the computed configuration does
    not depend on the content of the file. *)
Theorem settings_file_has_no_effect (settings_file settings_file' : option value)
    (ps : project_structure_t) (up : usage_patterns_t) (cr : current_rules_t)
    (cw : current_workflows_t) (pd : performance_data_t) :
  inner (_preserve_user_settings (analyzed_config settings_file ps up cr cw)) = ∅
  /\ generate_adaptive_config (analyzed_config settings_file ps up cr cw) pd
     = generate_adaptive_config (analyzed_config settings_file' ps up cr cw) pd.
Proof.
  split.
  - apply map_eq. intros k. rewrite user_settings_layer_lookup, lookup_empty.
    case_bool_decide as Hk; [|done].
    apply analyzed_settings_lookup. by apply preserve_keys_not_prefixed.
  - assert (Huser : _preserve_user_settings (analyzed_config settings_file ps up cr cw)
                    = _preserve_user_settings (analyzed_config settings_file' ps up cr cw)).
    { apply user_settings_layer_eq. intros key Hkey.
      cbn [analyzed_config vscode_settings default from_option id].
      by rewrite !analyzed_settings_lookup by (by apply preserve_keys_not_prefixed). }
    unfold generate_adaptive_config. by rewrite Huser.
Qed.

(** What the analyzer keeps of a settings object: exactly the entries
    whose key starts with ['cline.'], with their values; a missing file
    gives the empty mapping. *)
Lemma analyze_vscode_settings_filter (settings : tree) (key : string) :
  default ∅ (cline_settings (_analyze_vscode_settings (Some (VDict settings)))) !! key
  = if String.prefix "cline." key then settings !! key else None.
Proof.
  destruct (String.prefix "cline." key) eqn:Hp.
  - by apply analyzed_settings_keep.
  - by apply analyzed_settings_lookup.
Qed.


(** ** The rules generator *)

Import RulesGenerator.

Section dedup.
Variables lower strip : string -> string.

Local Abbreviation key := (fun rule : string => strip (lower rule)).
Local Abbreviation dedup_from := (remove_duplicates_from lower strip).

Lemma remove_duplicates_from_acc rules : forall seen acc,
  dedup_from seen acc rules = acc ++ dedup_from seen [] rules.
Proof.
  induction rules as [|r rules IH]; intros seen acc; simpl.
  - by rewrite app_nil_r.
  - case_decide; [apply IH|].
    rewrite (IH _ (acc ++ [r])), (IH _ ([] ++ [r])). by rewrite <- app_assoc.
Qed.

Lemma remove_duplicates_from_cons seen r rules :
  dedup_from seen [] (r :: rules)
  = if decide (strip (lower r) ∈ seen) then dedup_from seen [] rules
    else r :: dedup_from ({[ strip (lower r) ]} ∪ seen) [] rules.
Proof.
  simpl. case_decide; [done|].
  apply (remove_duplicates_from_acc rules _ [r]).
Qed.

Lemma remove_duplicates_from_unseen rules : forall seen r,
  r ∈ dedup_from seen [] rules -> strip (lower r) ∉ seen.
Proof.
  induction rules as [|r0 rules IH]; intros seen r Hr.
  - by apply elem_of_nil in Hr.
  - rewrite remove_duplicates_from_cons in Hr. case_decide as Hseen; [by apply IH|].
    apply elem_of_cons in Hr as [->|Hr]; [done|].
    apply IH in Hr. set_solver.
Qed.

Lemma remove_duplicates_from_sublist rules : forall seen,
  sublist (dedup_from seen [] rules) rules.
Proof.
  induction rules as [|r0 rules IH]; intros seen; [constructor|].
  rewrite remove_duplicates_from_cons. case_decide.
  - apply sublist_cons. apply IH.
  - apply sublist_skip. apply IH.
Qed.

Lemma remove_duplicates_from_NoDup rules : forall seen,
  NoDup (key <$> dedup_from seen [] rules).
Proof.
  induction rules as [|r0 rules IH]; intros seen; [constructor|].
  rewrite remove_duplicates_from_cons. case_decide; [apply IH|].
  rewrite fmap_cons. constructor; [|apply IH].
  intros Hin. apply list_elem_of_fmap in Hin as (r & Hk & Hr).
  apply remove_duplicates_from_unseen in Hr. rewrite <- Hk in Hr. set_solver.
Qed.

Lemma remove_duplicates_from_complete rules : forall seen r,
  r ∈ rules -> strip (lower r) ∈ seen \/ strip (lower r) ∈ key <$> dedup_from seen [] rules.
Proof.
  induction rules as [|r0 rules IH]; intros seen r Hr.
  - by apply elem_of_nil in Hr.
  - rewrite remove_duplicates_from_cons.
    apply elem_of_cons in Hr as [->|Hr].
    + case_decide; [by left|]. right. rewrite fmap_cons. apply elem_of_cons. by left.
    + case_decide; [by apply IH|].
      destruct (IH ({[ strip (lower r0) ]} ∪ seen) r Hr) as [Hs|Hs].
      * apply elem_of_union in Hs as [Hs|Hs]; [|by left].
        apply elem_of_singleton in Hs. right. rewrite fmap_cons, Hs.
        apply elem_of_cons. by left.
      * right. rewrite fmap_cons. apply elem_of_cons. by right.
Qed.


End dedup.

(** ** Deduplication *)



(** ** Priority ordering *)

Section stable_sort.
Context {A : Type} (key : A -> Z).

Local Abbreviation le_key := (fun a b : A => (key a <= key b)%Z).

Lemma insert_by_key_perm x l : insert_by_key key x l ≡ₚ x :: l.
Proof.
  induction l as [|y l IH]; simpl; [done|].
  destruct (key x <=? key y)%Z; [done|].
  rewrite IH. apply Permutation_swap.
Qed.

Lemma sorted_by_key_perm l : sorted_by_key key l ≡ₚ l.
Proof.
  induction l as [|x l IH]; simpl; [done|].
  rewrite insert_by_key_perm. by rewrite IH.
Qed.

Lemma insert_by_key_sorted x l :
  Sorted le_key l -> Sorted le_key (insert_by_key key x l).
Proof.
  induction 1 as [|y l Hl IH Hhd]; simpl.
  - repeat constructor.
  - destruct (Z.leb_spec (key x) (key y)).
    + constructor; [by constructor|]. by constructor.
    + constructor; [done|].
      destruct l as [|z l]; simpl.
      * constructor. lia.
      * inversion Hhd; subst.
        destruct (key x <=? key z)%Z; constructor; lia.
Qed.

Lemma sorted_by_key_sorted l : Sorted le_key (sorted_by_key key l).
Proof.
  induction l as [|x l IH]; simpl; [constructor|]. by apply insert_by_key_sorted.
Qed.

Lemma sorted_by_key_strongly_sorted l : StronglySorted le_key (sorted_by_key key l).
Proof.
  apply Sorted_StronglySorted; [|apply sorted_by_key_sorted].
  intros a b c Hab Hbc. simpl in *. lia.
Qed.

(** Insertion keeps the items of every key in order, the inserted one
    ahead of those of its key. *)
Lemma insert_by_key_stable (p : Z) x l :
  filter (fun a => key a = p) (insert_by_key key x l)
  = filter (fun a => key a = p) (x :: l).
Proof.
  induction l as [|y l IH]; simpl; [done|].
  destruct (Z.leb_spec (key x) (key y)) as [Hle|Hlt]; [done|].
  rewrite (filter_cons _ y), IH, !(filter_cons _ x), !(filter_cons _ y).
  repeat case_decide; try done; lia.
Qed.

Lemma sorted_by_key_stable (p : Z) l :
  filter (fun a => key a = p) (sorted_by_key key l) = filter (fun a => key a = p) l.
Proof.
  induction l as [|x l IH]; simpl; [done|].
  rewrite insert_by_key_stable, !filter_cons, IH. done.
Qed.

(** Two sorted lists with the same items of every key, in the same
    order, are equal: a stable sort has one possible result. *)
Lemma stable_sorted_unique l1 : forall l2,
  Sorted le_key l1 -> Sorted le_key l2 ->
  (forall p, filter (fun a => key a = p) l1 = filter (fun a => key a = p) l2) ->
  l1 = l2.
Proof.
  induction l1 as [|x l1 IH]; intros l2 Hs1 Hs2 Hf.
  - destruct l2 as [|y l2]; [done|].
    specialize (Hf (key y)). rewrite filter_cons in Hf. by case_decide.
  - destruct l2 as [|y l2].
    { specialize (Hf (key x)). rewrite filter_cons in Hf. by case_decide. }
    apply Sorted_StronglySorted in Hs1 as Hss1; [|intros a b c; simpl; lia].
    apply Sorted_StronglySorted in Hs2 as Hss2; [|intros a b c; simpl; lia].
    apply StronglySorted_inv in Hss1 as [Hss1 Hx].
    apply StronglySorted_inv in Hss2 as [Hss2 Hy].
    rewrite Forall_forall in Hx, Hy.
    assert (Hxy : (key y <= key x)%Z).
    { pose proof (Hf (key x)) as Hfx. rewrite filter_cons in Hfx.
      rewrite decide_True in Hfx by done.
      assert (Hin : x ∈ filter (fun a => key a = key x) (y :: l2)).
      { rewrite <- Hfx. by left. }
      apply list_elem_of_filter in Hin as [_ Hin].
      apply elem_of_cons in Hin as [->|Hin]; [lia|]. by apply Hy. }
    assert (Hyx : (key x <= key y)%Z).
    { pose proof (Hf (key y)) as Hfy. rewrite (filter_cons _ y) in Hfy.
      rewrite decide_True in Hfy by done.
      assert (Hin : y ∈ filter (fun a => key a = key y) (x :: l1)).
      { rewrite Hfy. by left. }
      apply list_elem_of_filter in Hin as [_ Hin].
      apply elem_of_cons in Hin as [->|Hin]; [lia|]. by apply Hx. }
    assert (x = y) as <-.
    { pose proof (Hf (key x)) as Hfx. rewrite !filter_cons in Hfx.
      rewrite !decide_True in Hfx by lia. by injection Hfx. }
    f_equal. apply IH.
    + by inversion Hs1.
    + by inversion Hs2.
    + intros p. specialize (Hf p). rewrite !filter_cons in Hf.
      case_decide; [by injection Hf|done].
Qed.
Lemma sorted_by_key_5_1_3 g s p :
  key g = 5%Z -> key s = 1%Z -> key p = 3%Z ->
  sorted_by_key key [g; s; p] = [s; p; g].
Proof.
  intros Hg Hs Hp. unfold sorted_by_key. simpl.
  rewrite Hs, Hp. simpl. rewrite Hg, Hs, Hp. reflexivity.
Qed.
End stable_sort.

Lemma rule_priority_range lower rule : (1 <= rule_priority lower rule <= 5)%Z.
Proof. unfold rule_priority. repeat case_match; lia. Qed.

(** C8, as stated.  The priority is not that of the catalog category a
    rule comes from: [rule_priority] reads it off the keywords of the rule
    text.  The third general rule, the second security rule and the second
    performance rule of the catalog, given in this order, all have priority
    5 and come out in this order, not as security, performance, general;
    and the second general rule (priority 4, by its keyword) is placed
    before the second security rule (priority 5) given ahead of it. *)
Lemma catalog_categories_not_ordered :
  "Следуй принципам SOLID при разработке" ∈ base_rules !!! "general"
  /\ "Добавляй комментарии для сложных алгоритмов и бизнес-логики" ∈ base_rules !!! "general"
  /\ "Всегда валидируй пользовательский ввод" ∈ base_rules !!! "security"
  /\ "Используй кеширование для дорогостоящих операций" ∈ base_rules !!! "performance"
  /\ _prioritize_rules py_lower
       [ "Следуй принципам SOLID при разработке";
         "Всегда валидируй пользовательский ввод";
         "Используй кеширование для дорогостоящих операций" ] empty_config_data
     = [ "Следуй принципам SOLID при разработке";
         "Всегда валидируй пользовательский ввод";
         "Используй кеширование для дорогостоящих операций" ]
  /\ _prioritize_rules py_lower
       [ "Следуй принципам SOLID при разработке";
         "Всегда валидируй пользовательский ввод";
         "Используй кеширование для дорогостоящих операций" ] empty_config_data
     <> [ "Всегда валидируй пользовательский ввод";
          "Используй кеширование для дорогостоящих операций";
          "Следуй принципам SOLID при разработке" ]
  /\ _prioritize_rules py_lower
       [ "Всегда валидируй пользовательский ввод";
         "Добавляй комментарии для сложных алгоритмов и бизнес-логики" ] empty_config_data
     = [ "Добавляй комментарии для сложных алгоритмов и бизнес-логики";
         "Всегда валидируй пользовательский ввод" ].
Proof.
  split; [apply (bool_decide_unpack _); vm_compute; exact I|].
  split; [apply (bool_decide_unpack _); vm_compute; exact I|].
  split; [apply (bool_decide_unpack _); vm_compute; exact I|].
  split; [apply (bool_decide_unpack _); vm_compute; exact I|].
  split; [vm_compute; reflexivity|].
  split; [vm_compute; discriminate|].
  vm_compute; reflexivity.
Qed.

(** C8. [_prioritize_rules] returns the rules in non-decreasing priority,
    where the priority of a rule is the keyword class [rule_priority] reads
    off its lower-cased text, the first that applies of: 1 for
    ['security'], ['пароль'], ['ключ'], ['auth']; 2 for ['test'], ['тест'],
    ['качество']; 3 for ['performance'], ['производительность'],
    ['оптимиз']; 4 for ['style'], ['стиль'], ['комментар'], ['документ'];
    5 for every other rule.  The catalog category of a rule does not enter:
    by section, the rules of the catalog have the classes listed below.
    Rules of equal priority keep their order, and this fixes the result:
    any sorted list that keeps every priority class in input order is the
    one returned.  Rules of priorities 5, 1 and 3 given in that order come
    out as 1, 3, 5, as do the first general, security and performance rules
    of the catalog. *)
Theorem prioritize_rules_stable (lower : string -> string) (rules : list string)
    (cfg : config_data_t) :
  _prioritize_rules lower rules cfg ≡ₚ rules
  /\ StronglySorted (fun a b => (rule_priority lower a <= rule_priority lower b)%Z)
       (_prioritize_rules lower rules cfg)
  /\ (forall p, filter (fun r => rule_priority lower r = p) (_prioritize_rules lower rules cfg)
              = filter (fun r => rule_priority lower r = p) rules)
  /\ (forall r, (1 <= rule_priority lower r <= 5)%Z)
  /\ (forall out,
        Sorted (fun a b => (rule_priority lower a <= rule_priority lower b)%Z) out ->
        (forall p, filter (fun r => rule_priority lower r = p) out
                   = filter (fun r => rule_priority lower r = p) rules) ->
        out = _prioritize_rules lower rules cfg)
  /\ (forall g s p,
        rule_priority lower g = 5%Z -> rule_priority lower s = 1%Z ->
        rule_priority lower p = 3%Z ->
        _prioritize_rules lower [g; s; p] cfg = [s; p; g])
  /\ (rule_priority py_lower "Всегда используй понятные и описательные имена для переменных, функций и классов" = 5%Z
      /\ rule_priority py_lower "Никогда не храни пароли и секретные ключи в коде" = 1%Z
      /\ rule_priority py_lower "Оптимизируй циклы и избегай излишней вложенности" = 3%Z
      /\ _prioritize_rules py_lower
           [ "Всегда используй понятные и описательные имена для переменных, функций и классов";
             "Никогда не храни пароли и секретные ключи в коде";
             "Оптимизируй циклы и избегай излишней вложенности" ] cfg
         = [ "Никогда не храни пароли и секретные ключи в коде";
             "Оптимизируй циклы и избегай излишней вложенности";
             "Всегда используй понятные и описательные имена для переменных, функций и классов" ])
  /\ (forall r,
        rule_priority lower r
        = if any_keyword ["security"; "пароль"; "ключ"; "auth"] (lower r) then 1%Z
          else if any_keyword ["test"; "тест"; "качество"] (lower r) then 2%Z
          else if any_keyword ["performance"; "производительность"; "оптимиз"] (lower r)
            then 3%Z
          else if any_keyword ["style"; "стиль"; "комментар"; "документ"] (lower r) then 4%Z
          else 5%Z)
  /\ (rule_priority py_lower <$> base_rules !!! "general" = [5; 4; 5; 5; 5]%Z
      /\ rule_priority py_lower <$> base_rules !!! "security" = [1; 5; 5; 5; 5]%Z
      /\ rule_priority py_lower <$> base_rules !!! "performance" = [3; 5; 5; 5; 5]%Z
      /\ rule_priority py_lower <$> base_rules !!! "testing" = [2; 2; 5; 2; 2]%Z
      /\ rule_priority py_lower <$> base_rules !!! "documentation" = [5; 5; 4; 5; 4]%Z).
Proof.
  unfold _prioritize_rules.
  split; [apply sorted_by_key_perm|].
  split; [apply sorted_by_key_strongly_sorted|].
  split; [intros p; apply sorted_by_key_stable|].
  split; [apply rule_priority_range|].
  split.
  { intros out Hs Hf. apply (stable_sorted_unique (rule_priority lower)); [done| |].
    - apply sorted_by_key_sorted.
    - intros p. by rewrite Hf, sorted_by_key_stable. }
  split.
  { intros g s p. apply sorted_by_key_5_1_3. }
  split; [repeat split; vm_compute; reflexivity|].
  split; [intros r; reflexivity|].
  repeat split; vm_compute; reflexivity.
Qed.

Lemma prioritize_rules_stable_witness :
  _prioritize_rules py_lower ["Keep it simple"; "Use auth tokens"; "Measure performance"]
    empty_config_data
  = ["Use auth tokens"; "Measure performance"; "Keep it simple"].
Proof.
  refine (proj1 (proj2 (proj2 (proj2 (proj2 (proj2
            (prioritize_rules_stable py_lower [] empty_config_data))))))
            "Keep it simple" "Use auth tokens" "Measure performance" _ _ _);
    vm_compute; reflexivity.
Defined.

(** ** Missing sections *)

(** C9, at the failing input. With no snapshot section at all
    [generate_improved_rules] raises [KeyError: 'project_type'] in
    [_format_rules_file]: [project_info.get('project_type')] is [None],
    which is not ['unknown'], and [project_info['project_type']] is read. *)
Theorem generate_improved_rules_raises (lower strip : string -> string) (now : string) :
  generate_improved_rules lower strip now empty_config_data empty_performance_data
  = inl (KeyError "project_type").
Proof. reflexivity. Qed.

(** The settings pipeline on the same input returns: absent sections are
    read as their defaults. *)
Lemma generate_adaptive_config_absent_sections :
  generate_adaptive_config empty_config_data empty_performance_data
  = generate_adaptive_config default_config_data empty_performance_data.
Proof. reflexivity. Qed.


(** ** Further properties of the rules generator *)

Section formatter.
Variables lower strip : string -> string.
Variable now : string.

Lemma format_rules_file_cases rules cfg :
  let ps := default no_project_structure (project_structure cfg) in
  match project_type ps with
  | None => _format_rules_file lower now rules cfg = inl (KeyError "project_type")
  | Some _ => exists text, _format_rules_file lower now rules cfg = inr text
  end.
Proof.
  intros ps. unfold _format_rules_file. fold ps.
  destruct (project_type ps) as [t|]; [|done].
  case_bool_decide; cbn [getitem]; eauto.
Qed.

End formatter.


(** *** Lines of a text *)

Lemma string_app_cons (c : ascii) (a b : string) :
  String c a +:+ b = String c (a +:+ b).
Proof. reflexivity. Qed.

Lemma string_app_assoc (a b c : string) : (a +:+ b) +:+ c = a +:+ (b +:+ c).
Proof.
  induction a as [|x a IH]; [done|]. rewrite !string_app_cons. by f_equal.
Qed.

Lemma string_app_nil_r (a : string) : a +:+ EmptyString = a.
Proof. induction a as [|x a IH]; [done|]. rewrite string_app_cons. by f_equal. Qed.

Lemma split_lines_from_cons current c text :
  split_lines_from current (String c text)
  = if Ascii.eqb c "010" then current :: split_lines_from EmptyString text
    else split_lines_from (current +:+ String c EmptyString) text.
Proof. reflexivity. Qed.

Lemma split_lines_from_hd text : forall current,
  split_lines_from current text
  = (current +:+ hd EmptyString (split_lines text)) :: tail (split_lines text).
Proof.
  unfold split_lines. induction text as [|c text IH]; intros current.
  - cbn [split_lines_from hd tail]. by rewrite string_app_nil_r.
  - rewrite !split_lines_from_cons. destruct (Ascii.eqb c "010") eqn:Hc.
    + cbn [hd tail]. by rewrite string_app_nil_r.
    + rewrite (IH (current +:+ String c EmptyString)),
        (IH (EmptyString +:+ String c EmptyString)).
      cbn [hd tail]. by rewrite !string_app_assoc.
Qed.

Lemma split_lines_nonempty text : split_lines text <> [].
Proof. unfold split_lines. by rewrite split_lines_from_hd. Qed.

Lemma split_lines_from_newline (a b : string) : forall current,
  split_lines_from current (a +:+ newline +:+ b)
  = split_lines_from current a ++ split_lines b.
Proof.
  induction a as [|c a IH]; intros current.
  - reflexivity.
  - rewrite string_app_cons, !split_lines_from_cons.
    destruct (Ascii.eqb c "010"); by rewrite IH.
Qed.

Lemma split_lines_newline (a b : string) :
  split_lines (a +:+ newline +:+ b) = split_lines a ++ split_lines b.
Proof. apply split_lines_from_newline. Qed.

Lemma split_lines_single (line : string) :
  contains newline line = false -> split_lines line = [line].
Proof.
  assert (H : forall current, contains newline line = false ->
            split_lines_from current line = [current +:+ line]);
    [|intros Hc; exact (H EmptyString Hc)].
  induction line as [|c line IH]; intros current Hc.
  - cbn [split_lines_from]. by rewrite string_app_nil_r.
  - rewrite split_lines_from_cons. cbn [contains String.prefix newline] in Hc.
    destruct (ascii_dec "010" c) as [<-|Hne].
    + by destruct line.
    + rewrite (proj2 (Ascii.eqb_neq c "010")) by congruence.
      rewrite IH by done. by rewrite string_app_assoc.
Qed.

Lemma join_cons sep (x y : string) (l : list string) :
  join sep (x :: y :: l) = x +:+ sep +:+ join sep (y :: l).
Proof. reflexivity. Qed.

Lemma split_lines_join (lines : list string) :
  lines <> [] -> split_lines (join newline lines) = flat_map split_lines lines.
Proof.
  induction lines as [|x [|y l] IH]; intros Hne; [done|..].
  - simpl. by rewrite app_nil_r.
  - rewrite join_cons, split_lines_newline, IH by done. done.
Qed.

(** X19. Joining lines with line feeds and splitting the text again gives the
    lines back, for a list that is not empty and whose lines hold no line
    feed; the empty list is written as the empty text, which reads back as
    one empty line. *)
Theorem split_lines_join_round_trip (lines : list string) :
  Forall (fun line => contains newline line = false) lines ->
  split_lines (join newline lines) = if lines is [] then [EmptyString] else lines.
Proof.
  intros Hlines. destruct lines as [|x l]; [done|].
  rewrite split_lines_join by done.
  induction Hlines as [|y l' Hy _ IH]; [done|].
  simpl. by rewrite (split_lines_single y Hy), IH.
Qed.

Lemma split_lines_join_round_trip_witness :
  split_lines (join newline ["## Rules"; EmptyString; "- Use HTTPS"])
  = ["## Rules"; EmptyString; "- Use HTTPS"].
Proof.
  apply (split_lines_join_round_trip ["## Rules"; EmptyString; "- Use HTTPS"]).
  repeat constructor.
Defined.


(** *** The formatter *)

Lemma rule_category_cases lower rule :
  rule_category lower rule ∈ category_names.
Proof.
  unfold rule_category, category_names.
  repeat (case_match; [dom_check|]). dom_check.
Qed.










(** *** Custom rules *)

Lemma is_custom_rule_catalog lower strip rule :
  _is_custom_rule lower strip rule
  = negb (existsb (fun base_rule => String.eqb (strip (lower rule)) (strip (lower base_rule)))
            all_base_rules).
Proof. reflexivity. Qed.

Lemma is_custom_rule_true lower strip rule :
  _is_custom_rule lower strip rule = true
  <-> Forall (fun b => strip (lower rule) <> strip (lower b)) all_base_rules.
Proof.
  rewrite is_custom_rule_catalog, negb_true_iff.
  induction all_base_rules as [|b0 l IH]; simpl.
  - split; [constructor|done].
  - rewrite orb_false_iff, IH, String.eqb_neq, Forall_cons. done.
Qed.

Lemma preserve_custom_rules_filter (lower strip : string -> string) cfg text :
  rules_exists (default no_current_rules (current_rules cfg)) = Some true ->
  rules_content (default no_current_rules (current_rules cfg)) = Some text ->
  text <> EmptyString ->
  _preserve_custom_rules lower strip cfg
  = filter (fun line =>
              line <> EmptyString /\ String.prefix "#" line = false
              /\ Forall (fun b => strip (lower line) <> strip (lower b)) all_base_rules)
      (strip <$> split_lines text).
Proof.
  intros Hex Htext Hne. unfold _preserve_custom_rules.
  rewrite Hex, Htext. destruct text as [|c content]; [done|].
  generalize (split_lines (String c content)). intros lines.
  induction lines as [|raw lines IH]; [done|].
  rewrite fmap_cons. cbn [flat_map]. rewrite IH.
  destruct (decide (strip raw <> EmptyString /\ String.prefix "#" (strip raw) = false
                    /\ Forall (fun b => strip (lower (strip raw)) <> strip (lower b))
                         all_base_rules)) as [Hk|Hk].
  - rewrite filter_cons_True by done. destruct Hk as (Hne' & Hhash & Hcat).
    apply String.eqb_neq in Hne'. apply is_custom_rule_true in Hcat.
    by rewrite Hne', Hhash, Hcat.
  - rewrite filter_cons_False by done.
    destruct (negb (strip raw =? EmptyString)%string) eqn:H1; [|done].
    destruct (negb (String.prefix "#" (strip raw))) eqn:H2; [|done].
    destruct (_is_custom_rule lower strip (strip raw)) eqn:H3; [|done].
    exfalso. apply Hk. apply negb_true_iff in H1, H2. apply String.eqb_neq in H1.
    apply is_custom_rule_true in H3. done.
Qed.

(** X21. What [_preserve_custom_rules] keeps of the existing file: nothing
    when [current_rules] has no true ['exists'] or no text; otherwise the
    trimmed lines that are not empty, do not start with ['#'] and differ
    from every rule of the three catalogs after lower-casing and trimming,
    in the order of the file. *)
Theorem preserve_custom_rules_spec (lower strip : string -> string)
    (cfg : config_data_t) :
  let cr := default no_current_rules (current_rules cfg) in
  (rules_exists cr <> Some true \/ rules_content cr = None
   \/ rules_content cr = Some EmptyString ->
   _preserve_custom_rules lower strip cfg = [])
  /\ (forall text, rules_exists cr = Some true -> rules_content cr = Some text ->
      text <> EmptyString ->
      _preserve_custom_rules lower strip cfg
      = filter (fun line =>
                  line <> EmptyString /\ String.prefix "#" line = false
                  /\ Forall (fun b => strip (lower line) <> strip (lower b)) all_base_rules)
          (strip <$> split_lines text)).
Proof.
  intros cr. split.
  - intros Hcases. unfold _preserve_custom_rules. fold cr.
    destruct (rules_exists cr) as [[|]|], (rules_content cr) as [[|c content]|];
      try done; by destruct Hcases as [?|[?|?]].
  - intros text. apply preserve_custom_rules_filter.
Qed.

Lemma preserve_custom_rules_spec_witness :
  _preserve_custom_rules py_lower py_strip
    {| project_structure := None; vscode_settings := None; usage_patterns := None;
       current_rules := Some (_analyze_clinerules None); current_workflows := None |} = []
  /\ _preserve_custom_rules py_lower py_strip
       {| project_structure := None; vscode_settings := None; usage_patterns := None;
          current_rules := Some (_analyze_clinerules (Some "# Mine
 Always rebase
"));
          current_workflows := None |}
     = filter (fun line =>
                 line <> EmptyString /\ String.prefix "#" line = false
                 /\ Forall (fun b => py_strip (py_lower line) <> py_strip (py_lower b))
                      all_base_rules)
         (py_strip <$> split_lines "# Mine
 Always rebase
").
Proof.
  split.
  - apply preserve_custom_rules_spec. left. discriminate.
  - apply preserve_custom_rules_spec; [reflexivity|reflexivity|discriminate].
Defined.


(** *** A generated file read back *)

Lemma prefix_dash (s : string) :
  String.prefix "-" s = true -> exists rest, s = String "-" rest.
Proof.
  destruct s as [|c rest]; [done|]. cbn [String.prefix].
  destruct (ascii_dec "-" c) as [<-|]; [eauto|done].
Qed.

Lemma rule_line_in_body lower rules r :
  r ∈ rules ->
  "- " +:+ r ∈ flat_map (category_lines lower rules) category_names.
Proof.
  intros Hr. apply list_elem_of_In, in_flat_map.
  exists (rule_category lower r). split; [apply list_elem_of_In, rule_category_cases|].
  apply list_elem_of_In. unfold category_lines.
  assert (Hin : r ∈ filter (fun rule => rule_category lower rule = rule_category lower r) rules)
    by (by apply list_elem_of_filter).
  destruct (filter _ rules) as [|x xs]; [by apply elem_of_nil in Hin|].
  apply elem_of_app. right. apply elem_of_app. left.
  by apply (list_elem_of_fmap_2 (String.append "- ")).
Qed.

Lemma format_rules_file_lines lower now rules cfg text :
  _format_rules_file lower now rules cfg = inr text ->
  exists header,
    text = join newline
             (("# Правила Cline для проекта" :: header)
              ++ flat_map (category_lines lower rules) category_names).
Proof.
  unfold _format_rules_file.
  set (ps := default no_project_structure (project_structure cfg)).
  set (body := flat_map (category_lines lower rules) category_names).
  destruct (if bool_decide (project_type ps = Some "unknown") then _ else _)
    as [e|lines] eqn:Hlines; [done|].
  intros [= <-].
  assert (Hhd : exists h, lines = "# Правила Cline для проекта" :: h).
  { case_bool_decide; [injection Hlines as <-; eauto|].
    destruct (project_type ps); [|done]. injection Hlines as <-. eauto. }
  destruct Hhd as [h ->].
  destruct (languages ps) as [[|l ls]|], (frameworks ps) as [[|f fs]|];
    cbn [app]; eexists; reflexivity.
Qed.

Section read_back.
Variables lower strip : string -> string.
Variable now : string.

(** Trimming keeps the list marker of a written line, and lower-casing
    and trimming keep a leading hyphen; no rule of the catalogs starts with
    a hyphen after lower-casing and trimming. *)
Hypothesis strip_marker : forall s, String.prefix "-" (strip ("- " +:+ s)) = true.
Hypothesis key_hyphen :
  forall s, String.prefix "-" s = true -> String.prefix "-" (strip (lower s)) = true.
Hypothesis catalog_no_hyphen :
  Forall (fun b => String.prefix "-" (strip (lower b)) = false) all_base_rules.

Lemma hyphen_line_kept line :
  String.prefix "-" line = true ->
  line <> EmptyString /\ String.prefix "#" line = false
  /\ Forall (fun b => strip (lower line) <> strip (lower b)) all_base_rules.
Proof.
  intros Hline. destruct (prefix_dash _ Hline) as [rest ->].
  split; [done|]. split; [done|].
  eapply Forall_impl; [exact catalog_no_hyphen|].
  intros b Hb Heq. simpl in Hb. rewrite <- Heq in Hb.
  by rewrite key_hyphen in Hb.
Qed.

(** X22. The rules a run writes are read back as custom rules by the next
    run: every rule given to the formatter, written as the line
    ["- " + rule], is returned by [_preserve_custom_rules] with its list
    marker when the file written is the existing file. *)
Theorem written_rules_read_back (rules : list string) (cfg cfg' : config_data_t)
    (text r : string) :
  _format_rules_file lower now rules cfg = inr text ->
  current_rules cfg' = Some (_analyze_clinerules (Some text)) ->
  r ∈ rules ->
  contains newline r = false ->
  strip ("- " +:+ r) ∈ _preserve_custom_rules lower strip cfg'.
Proof.
  intros Htext Hcr Hr Hnl.
  destruct (format_rules_file_lines _ _ _ _ _ Htext) as [header ->].
  rewrite (preserve_custom_rules_filter lower strip cfg'
             (join newline (("# Правила Cline для проекта" :: header)
                            ++ flat_map (category_lines lower rules) category_names)));
    [|by rewrite Hcr|by rewrite Hcr|].
  2:{ cbn [app]. by destruct (header ++ _). }
  apply list_elem_of_filter. split; [apply hyphen_line_kept, strip_marker|].
  apply (list_elem_of_fmap_2 strip).
  rewrite split_lines_join by done.
  apply list_elem_of_In, in_flat_map. exists ("- " +:+ r). split.
  - apply list_elem_of_In, elem_of_app. right. by apply rule_line_in_body.
  - rewrite split_lines_single; [by left|].
    cbn [contains String.prefix newline]. rewrite !string_app_cons.
    cbn [contains String.prefix]. done.
Qed.

End read_back.


(** *** [str.lower] and [str.strip] on a leading hyphen *)

Lemma rstrip_hd c rest :
  is_space c = false -> exists rest', rstrip (String c rest) = String c rest'.
Proof.
  intros Hc. cbn [rstrip]. destruct (rstrip rest); [rewrite Hc|]; eauto.
Qed.

Lemma py_strip_hyphen rest : String.prefix "-" (py_strip (String "-" rest)) = true.
Proof.
  unfold py_strip. change (lstrip (String "-" rest)) with (String "-" rest).
  destruct (rstrip_hd "-" rest) as [rest' ->]; [reflexivity|by destruct rest'].
Qed.

Lemma py_lower_hyphen rest : py_lower (String "-" rest) = String "-" (py_lower rest).
Proof. reflexivity. Qed.

Lemma py_key_hyphen s :
  String.prefix "-" s = true -> String.prefix "-" (py_strip (py_lower s)) = true.
Proof.
  intros Hs. destruct (prefix_dash _ Hs) as [rest ->].
  rewrite py_lower_hyphen. apply py_strip_hyphen.
Qed.

Lemma py_catalog_no_hyphen :
  Forall (fun b => String.prefix "-" (py_strip (py_lower b)) = false) all_base_rules.
Proof. apply (bool_decide_unpack _). vm_compute. exact I. Qed.

Lemma written_rules_read_back_witness :
  exists text,
    _format_rules_file py_lower "2024-05-01 10:00:00" ["Use HTTPS"] (project_with_rules None)
    = inr text
    /\ py_strip ("- " +:+ "Use HTTPS")
       ∈ _preserve_custom_rules py_lower py_strip (project_with_rules (Some text)).
Proof.
  eexists. split; [reflexivity|].
  eapply (written_rules_read_back py_lower py_strip "2024-05-01 10:00:00"
            (fun s => py_strip_hyphen _) py_key_hyphen py_catalog_no_hyphen
            ["Use HTTPS"] (project_with_rules None)).
  - reflexivity.
  - reflexivity.
  - dom_check.
  - reflexivity.
Defined.


(** *** The whole generator *)

Lemma generate_improved_rules_cases lower strip now cfg pd :
  match project_type (default no_project_structure (project_structure cfg)) with
  | None => generate_improved_rules lower strip now cfg pd = inl (KeyError "project_type")
  | Some _ => exists text, generate_improved_rules lower strip now cfg pd = inr text
  end.
Proof. unfold generate_improved_rules. apply format_rules_file_cases. Qed.

(** X23. [generate_improved_rules] raises exactly when the project structure
    has no ['project_type'], and the exception is the [KeyError] of that
    key; with a project type, ['unknown'] included, it returns a text.  The
    structure the analyzer builds always has the key, so on a snapshot of
    the analyzer the generator returns. *)
Theorem generate_improved_rules_result (lower strip : string -> string) (now : string)
    (cfg : config_data_t) (pd : performance_data_t) :
  let ps := default no_project_structure (project_structure cfg) in
  (project_type ps = None ->
     generate_improved_rules lower strip now cfg pd = inl (KeyError "project_type"))
  /\ (project_type ps <> None ->
        exists text, generate_improved_rules lower strip now cfg pd = inr text)
  /\ (forall langs fws files counts,
        project_structure cfg = Some (analyzed_project langs fws files counts) ->
        exists text, generate_improved_rules lower strip now cfg pd = inr text).
Proof.
  intros ps. pose proof (generate_improved_rules_cases lower strip now cfg pd) as H.
  fold ps in H. split; [|split].
  - intros Hnone. by rewrite Hnone in H.
  - intros Hsome. by destruct (project_type ps).
  - intros langs fws files counts Hps. subst ps. by rewrite Hps in H.
Qed.

Lemma generate_improved_rules_result_witness :
  generate_improved_rules py_lower py_strip "2024-05-01 10:00:00"
    empty_config_data empty_performance_data = inl (KeyError "project_type")
  /\ exists text,
       generate_improved_rules py_lower py_strip "2024-05-01 10:00:00"
         (project_with_rules None) empty_performance_data = inr text.
Proof.
  split.
  - apply generate_improved_rules_result. reflexivity.
  - apply generate_improved_rules_result. discriminate.
Defined.

(** X24. The rules of a generated file are pairwise different after
    lower-casing and trimming, each of them is one of the rules selected
    from the catalogs, the performance data and the existing file, every
    selected rule is represented by a rule with the same lower-cased
    trimmed text, and the rules are in non-decreasing priority. *)
Theorem generated_rules_distinct (lower strip : string -> string) (now : string)
    (cfg : config_data_t) (pd : performance_data_t) (text : string) :
  generate_improved_rules lower strip now cfg pd = inr text ->
  let selected :=
    _select_base_rules cfg pd ++ _select_language_rules cfg
    ++ _select_framework_rules cfg ++ _generate_adaptive_rules pd
    ++ _preserve_custom_rules lower strip cfg in
  exists (header written : list string),
    text = join newline
             (("# Правила Cline для проекта" :: header)
              ++ flat_map (category_lines lower written) category_names)
    /\ NoDup ((fun r => strip (lower r)) <$> written)
    /\ (forall r, r ∈ written -> r ∈ selected)
    /\ (forall r, r ∈ selected ->
          strip (lower r) ∈ (fun r => strip (lower r)) <$> written)
    /\ StronglySorted (fun a b => (rule_priority lower a <= rule_priority lower b)%Z) written.
Proof.
  intros Htext selected. unfold generate_improved_rules in Htext. fold selected in Htext.
  destruct (format_rules_file_lines _ _ _ _ _ Htext) as [header ->].
  exists header, (_prioritize_rules lower (_remove_duplicates lower strip selected) cfg).
  split; [done|]. unfold _prioritize_rules, _remove_duplicates.
  pose proof (sorted_by_key_perm (rule_priority lower)
                (remove_duplicates_from lower strip ∅ [] selected)) as Hperm.
  split; [|split; [|split]].
  - rewrite Hperm. apply remove_duplicates_from_NoDup.
  - intros r Hr. rewrite Hperm in Hr.
    eapply elem_of_sublist; [exact Hr|apply remove_duplicates_from_sublist].
  - intros r Hr. rewrite Hperm.
    destruct (remove_duplicates_from_complete lower strip selected ∅ r Hr) as [H|H];
      [set_solver|done].
  - apply sorted_by_key_strongly_sorted.
Qed.

Lemma generated_rules_distinct_witness :
  exists (text : string) (header written : list string),
    generate_improved_rules py_lower py_strip "2024-05-01 10:00:00"
      (project_with_rules None) empty_performance_data = inr text
    /\ text = join newline
             (("# Правила Cline для проекта" :: header)
              ++ flat_map (category_lines py_lower written) category_names)
    /\ NoDup ((fun r => py_strip (py_lower r)) <$> written).
Proof.
  destruct (generate_improved_rules py_lower py_strip "2024-05-01 10:00:00"
              (project_with_rules None) empty_performance_data) as [e|text] eqn:Htext.
  - exfalso. revert Htext. vm_compute. discriminate.
  - destruct (generated_rules_distinct py_lower py_strip "2024-05-01 10:00:00"
                (project_with_rules None) empty_performance_data text Htext)
      as (header & written & Heq & Hnd & _).
    exists text, header, written. done.
Defined.


Import WorkflowOptimizer.

(** ** The workflow optimizer *)

Lemma existsb_concat (n : string) (ls : list (list (string * workflow_data_t))) :
  existsb (fun l => bool_decide (n ∈ l.*1)) ls
  = bool_decide (n ∈ concat ((fun l => l.*1) <$> ls)).
Proof.
  induction ls as [|l ls IH]; [done|]. simpl. rewrite IH.
  apply eq_true_iff_eq. rewrite orb_true_iff, !bool_decide_eq_true, elem_of_app. done.
Qed.

Lemma is_custom_workflow_names (n : string) (info : workflow_info_t) :
  _is_custom_workflow n info = bool_decide (n ∉ workflow_names).
Proof.
  unfold _is_custom_workflow, workflow_names. rewrite !existsb_concat.
  set (b := (map_to_list base_workflows).*1).
  assert (Hb : n ∈ dom base_workflows <-> n ∈ b).
  { subst b. rewrite elem_of_dom, list_elem_of_fmap. split.
    - intros [x Hx]. exists (n, x). split; [done|]. by apply elem_of_map_to_list.
    - intros ([k x] & -> & Hx). apply elem_of_map_to_list in Hx. eauto. }
  apply eq_true_iff_eq. rewrite bool_decide_eq_true, !elem_of_app.
  repeat case_bool_decide; split; intros; try done; naive_solver.
Qed.

Lemma workflow_names_list :
  workflow_names ≡ₚ
    [ "development"; "bugfix"; "refactoring"; "testing"; "deployment";
      "python_setup"; "python_package"; "node_setup"; "react_component";
      "django_app"; "flask_api" ].
Proof. apply (bool_decide_unpack _). vm_compute. exact I. Qed.


Section workflows.
Variable now : workflow_data_t -> string.

(** *** What is generated *)

Lemma select_base_workflows_lookup cfg pd n :
  _select_base_workflows now cfg pd !! n
  = if decide (n = "deployment") then
      if _is_deployable_project cfg
      then Some (_format_workflow now (base_workflows !!! "deployment")) else None
    else if decide (n = "testing") then
      if negb (_has_adequate_tests cfg)
      then Some (_format_workflow now (base_workflows !!! "testing")) else None
    else if decide (n = "refactoring") then
      if _needs_refactoring cfg
      then Some (_format_workflow now (base_workflows !!! "refactoring")) else None
    else if decide (n = "bugfix") then
      Some (_format_workflow now (base_workflows !!! "bugfix"))
    else if decide (n = "development") then
      Some (_format_workflow now (base_workflows !!! "development"))
    else None.
Proof.
  unfold _select_base_workflows.
  destruct (_is_deployable_project cfg), (negb (_has_adequate_tests cfg)),
    (_needs_refactoring cfg);
    repeat (case_decide; [subst n; by insert_lookups|]);
    by repeat (rewrite lookup_insert_ne by done).
Qed.

Lemma select_base_workflows_names cfg pd n :
  is_Some (_select_base_workflows now cfg pd !! n) -> n ∈ workflow_names.
Proof.
  rewrite select_base_workflows_lookup, workflow_names_list.
  repeat (case_decide; [subst n; intros _; dom_check|]).
  by intros ?%is_Some_None.
Qed.

Lemma select_workflows_names catalog cfg keys n :
  (forall key key_workflows, catalog !! key = Some key_workflows ->
     forall item, item ∈ key_workflows -> item.1 ∈ workflow_names) ->
  is_Some (select_workflows now catalog cfg keys !! n) -> n ∈ workflow_names.
Proof.
  intros Hcat. unfold select_workflows.
  assert (H : forall selected : gmap string string,
            (forall n, is_Some (selected !! n) -> n ∈ workflow_names) ->
            forall n, is_Some (foldl (fun selected key =>
                match catalog !! key with
                | Some key_workflows =>
                    foldl (fun selected item =>
                             if _is_workflow_needed item.1 cfg
                             then <[ item.1 := _format_workflow now item.2 ]> selected
                             else selected) selected key_workflows
                | None => selected
                end) selected keys !! n) -> n ∈ workflow_names).
  { induction keys as [|key keys IH]; intros selected Hsel; [done|].
    cbn [foldl]. apply IH.
    destruct (catalog !! key) as [key_workflows|] eqn:Hkey; [|done].
    specialize (Hcat _ _ Hkey). clear Hkey.
    revert selected Hsel.
    induction key_workflows as [|item l IHl]; intros selected Hsel; [done|].
    cbn [foldl]. apply IHl.
    - intros i Hi. apply Hcat. by right.
    - destruct (_is_workflow_needed item.1 cfg); [|done].
      intros m Hm. destruct (decide (m = item.1)) as [->|Hne].
      + apply Hcat. by left.
      + rewrite lookup_insert_ne in Hm by done. by apply Hsel. }
  apply H. intros m Hm. rewrite lookup_empty in Hm. by apply is_Some_None in Hm.
Qed.

Lemma elem_of_concat_names (ls : list (list (string * workflow_data_t))) l
    (item : string * workflow_data_t) :
  l ∈ ls -> item ∈ l -> item.1 ∈ concat ((fun l => l.*1) <$> ls).
Proof.
  intros Hl Hitem. induction Hl; rewrite fmap_cons; cbn [concat]; apply elem_of_app.
  - left. by apply (list_elem_of_fmap_2 fst).
  - right. auto.
Qed.

Lemma elem_of_catalog (catalog : gmap string (list (string * workflow_data_t))) key l :
  catalog !! key = Some l -> l ∈ snd <$> map_to_list catalog.
Proof.
  intros Hkey. apply list_elem_of_fmap. exists (key, l). split; [done|].
  by apply elem_of_map_to_list.
Qed.

Lemma language_workflows_names key key_workflows :
  language_workflows !! key = Some key_workflows ->
  forall item, item ∈ key_workflows -> item.1 ∈ workflow_names.
Proof.
  intros Hkey%elem_of_catalog item Hitem. unfold workflow_names.
  apply elem_of_app. right. apply elem_of_app. left.
  by eapply elem_of_concat_names.
Qed.

Lemma framework_workflows_names key key_workflows :
  framework_workflows !! key = Some key_workflows ->
  forall item, item ∈ key_workflows -> item.1 ∈ workflow_names.
Proof.
  intros Hkey%elem_of_catalog item Hitem. unfold workflow_names.
  apply elem_of_app. right. apply elem_of_app. right.
  by eapply elem_of_concat_names.
Qed.

Lemma generated_workflows_names cfg pd n :
  is_Some (generated_workflows now cfg pd !! n) -> n ∈ workflow_names.
Proof.
  unfold generated_workflows. rewrite !lookup_union_is_Some.
  intros [H|[H|[H|H]]].
  - by eapply select_workflows_names; [apply framework_workflows_names|].
  - by eapply select_workflows_names; [apply language_workflows_names|].
  - by eapply select_base_workflows_names.
  - rewrite lookup_empty in H. by apply is_Some_None in H.
Qed.

Lemma generated_workflows_project cfg cfg' pd pd' :
  project_structure cfg = project_structure cfg' ->
  generated_workflows now cfg pd = generated_workflows now cfg' pd'.
Proof.
  intros Hps. unfold generated_workflows, _select_framework_workflows,
    _select_language_workflows, _select_base_workflows, select_workflows,
    _is_workflow_needed, _has_react_indicators, _is_deployable_project,
    _has_adequate_tests, _needs_refactoring, _detect_frameworks_from_files.
  by rewrite Hps.
Qed.

End workflows.


Section optimize.
Variable now : workflow_data_t -> string.

(** *** The custom workflows *)

Lemma preserve_custom_fold (wfs : gmap string workflow_info_t) :
  match map_fold (fun workflow_name workflow_info custom_workflows =>
                match custom_workflows with
                | inl e => inl e
                | inr custom =>
                    if _is_custom_workflow workflow_name workflow_info then
                      match RulesGenerator.getitem "content" (workflow_content workflow_info) with
                      | inr content => inr (<[ workflow_name := content ]> custom)
                      | inl e => inl e
                      end
                    else inr custom
                end) (inr (∅ : gmap string string)) wfs with
  | inl e =>
      e = RulesGenerator.KeyError "content"
      /\ exists n info, wfs !! n = Some info /\ (n ∉ workflow_names)
                        /\ workflow_content info = None
  | inr custom =>
      (forall n info, wfs !! n = Some info -> n ∉ workflow_names ->
         is_Some (workflow_content info))
      /\ forall n, custom !! n
                   = if bool_decide (n ∉ workflow_names)
                     then wfs !! n ≫= workflow_content else None
  end.
Proof.
  apply (map_fold_weak_ind (fun r (m : gmap string workflow_info_t) =>
    match r with
    | inl e =>
        e = RulesGenerator.KeyError "content"
        /\ exists n info, m !! n = Some info /\ (n ∉ workflow_names)
                          /\ workflow_content info = None
    | inr custom =>
        (forall n info, m !! n = Some info -> n ∉ workflow_names ->
           is_Some (workflow_content info))
        /\ forall n, (custom : gmap string string) !! n
                     = if bool_decide (n ∉ workflow_names)
                       then m !! n ≫= workflow_content else None
    end)).
  - split; [by intros n info ?%lookup_empty_Some|].
    intros n. rewrite !lookup_empty. by case_bool_decide.
  - intros k info m r Hk IH. destruct r as [e|custom].
    + destruct IH as (-> & n & i & Hn & Hnames & Hc). split; [done|].
      exists n, i. split; [|done]. rewrite lookup_insert_ne; [done|]. by intros ->; simplify_eq.
    + destruct IH as [Hall Hcustom]. rewrite is_custom_workflow_names.
      case_bool_decide as Hcust.
      * destruct (workflow_content info) as [content|] eqn:Hcontent; cbn [RulesGenerator.getitem].
        -- split.
           ++ intros n i Hn Hnames. apply lookup_insert_Some in Hn as [[<- <-]|[_ Hn]];
                [by rewrite Hcontent|by eapply Hall].
           ++ intros n. destruct (decide (k = n)) as [<-|Hne].
              ** rewrite !lookup_insert_eq, bool_decide_eq_true_2 by done. simpl.
                 by rewrite Hcontent.
              ** rewrite !lookup_insert_ne by done. apply Hcustom.
        -- split; [done|]. exists k, info. by rewrite lookup_insert_eq.
      * split.
        -- intros n i Hn Hnames. apply lookup_insert_Some in Hn as [[<- <-]|[_ Hn]];
             [done|by eapply Hall].
        -- intros n. rewrite Hcustom. case_bool_decide as Hn; [|done].
           rewrite lookup_insert_ne; [done|]. by intros ->.
Qed.

Lemma optimize_workflows_unfold cfg pd :
  optimize_workflows now cfg pd
  = match _preserve_custom_workflows cfg with
    | inl e => inl e
    | inr custom =>
        inr (_adapt_workflows_for_performance now (custom ∪ generated_workflows now cfg pd) pd)
    end.
Proof. reflexivity. Qed.

Lemma adapt_workflows_lookup (ws : gmap string string) pd n :
  _adapt_workflows_for_performance now ws pd !! n
  = if decide (n = "performance_optimization") then
      match default [] (performance_issues pd) with
      | [] => ws !! n
      | issues => Some (_format_workflow now (perf_workflow (additional_steps issues)))
      end
    else ws !! n.
Proof.
  unfold _adapt_workflows_for_performance.
  destruct (default [] (performance_issues pd)) as [|issue issues]; [by case_decide|].
  case_decide as Hn.
  - subst n. by rewrite lookup_insert_eq.
  - by rewrite lookup_insert_ne.
Qed.

Lemma performance_optimization_name : "performance_optimization" ∉ workflow_names.
Proof. rewrite workflow_names_list. apply (bool_decide_unpack _). vm_compute. exact I. Qed.

Lemma optimize_workflows_missing (cfg : config_data_t) (pd : performance_data_t) :
  let cw := default no_current_workflows (current_workflows cfg) in
  let missing :=
    default false (workflows_exists cw) = true
    /\ exists n info, default ∅ (workflows cw) !! n = Some info
                      /\ (n ∉ workflow_names) /\ workflow_content info = None in
  (missing -> optimize_workflows now cfg pd = inl (RulesGenerator.KeyError "content"))
  /\ (~ missing -> exists ws, optimize_workflows now cfg pd = inr ws).
Proof.
  intros cw missing.
  pose proof (preserve_custom_fold (default ∅ (workflows cw))) as Hfold.
  rewrite optimize_workflows_unfold. unfold _preserve_custom_workflows. fold cw.
  destruct (default false (workflows_exists cw)) eqn:Hex.
  - destruct (map_fold _ _ _) as [e|custom].
    + destruct Hfold as (-> & Hmissing). split; [done|].
      intros Hnot. exfalso. apply Hnot. by split.
    + destruct Hfold as [Hall _]. split; [|eauto].
      intros (_ & n & info & Hn & Hnames & Hnone).
      destruct (Hall n info Hn Hnames) as [c Hc]. congruence.
  - split; [by intros [? _]|eauto].
Qed.

Lemma optimize_workflows_analyzed cfg pd files :
  current_workflows cfg = Some (_analyze_workflows files) ->
  exists ws, optimize_workflows now cfg pd = inr ws.
Proof.
  intros Hfiles. apply (optimize_workflows_missing cfg pd).
  intros (Hex & n & info & Hn & _ & Hnone).
  rewrite Hfiles in Hex, Hn. destruct files as [files|]; [|done].
  cbn [_analyze_workflows workflows default from_option id] in Hn.
  apply lookup_fmap_Some in Hn as (content & <- & _). done.
Qed.

(** X25. A run fails on the workflows only through a missing text:
    [optimize_workflows] raises the [KeyError] of ['content'] exactly when
    the existing workflows are marked as existing and one of them, whose
    name is not in the catalogs, has no ['content']; otherwise it returns.
    On the workflows the analyzer reads it always returns. *)
Theorem optimize_workflows_result (cfg : config_data_t) (pd : performance_data_t) :
  let cw := default no_current_workflows (current_workflows cfg) in
  let missing :=
    default false (workflows_exists cw) = true
    /\ exists n info, default ∅ (workflows cw) !! n = Some info
                      /\ (n ∉ workflow_names) /\ workflow_content info = None in
  (missing -> optimize_workflows now cfg pd = inl (RulesGenerator.KeyError "content"))
  /\ (~ missing -> exists ws, optimize_workflows now cfg pd = inr ws)
  /\ (forall files, current_workflows cfg = Some (_analyze_workflows files) ->
        exists ws, optimize_workflows now cfg pd = inr ws).
Proof.
  intros cw missing.
  destruct (optimize_workflows_missing cfg pd) as [Hraise Hreturn].
  split; [exact Hraise|]. split; [exact Hreturn|].
  intros files. apply optimize_workflows_analyzed.
Qed.

Lemma preserve_custom_workflows_lookup cfg custom n :
  _preserve_custom_workflows cfg = inr custom ->
  custom !! n
  = if default false (workflows_exists (default no_current_workflows (current_workflows cfg)))
       && bool_decide (n ∉ workflow_names)
    then default ∅ (workflows (default no_current_workflows (current_workflows cfg))) !! n
         ≫= workflow_content
    else None.
Proof.
  unfold _preserve_custom_workflows.
  set (cw := default no_current_workflows (current_workflows cfg)).
  pose proof (preserve_custom_fold (default ∅ (workflows cw))) as Hfold.
  destruct (default false (workflows_exists cw)).
  - destruct (map_fold _ _ _) as [e|c]; [done|]. intros [= ->].
    destruct Hfold as [_ Hc]. by rewrite Hc.
  - intros [= <-]. by rewrite lookup_empty.
Qed.

Lemma optimize_workflows_lookup cfg pd ws n :
  optimize_workflows now cfg pd = inr ws ->
  ws !! n
  = if decide (n = "performance_optimization") then
      match default [] (performance_issues pd) with
      | [] =>
          if default false (workflows_exists (default no_current_workflows (current_workflows cfg)))
          then default ∅ (workflows (default no_current_workflows (current_workflows cfg))) !! n
               ≫= workflow_content
          else None
      | issues => Some (_format_workflow now (perf_workflow (additional_steps issues)))
      end
    else if bool_decide (n ∈ workflow_names) then generated_workflows now cfg pd !! n
    else if default false (workflows_exists (default no_current_workflows (current_workflows cfg)))
    then default ∅ (workflows (default no_current_workflows (current_workflows cfg))) !! n
         ≫= workflow_content
    else None.
Proof.
  rewrite optimize_workflows_unfold.
  destruct (_preserve_custom_workflows cfg) as [e|custom] eqn:Hcustom; [done|].
  intros [= <-]. rewrite adapt_workflows_lookup, lookup_union.
  rewrite (preserve_custom_workflows_lookup _ _ n Hcustom).
  assert (Hgen : n ∉ workflow_names -> generated_workflows now cfg pd !! n = None).
  { intros Hn. apply eq_None_not_Some. intros H. by apply generated_workflows_names in H. }
  destruct (default false (workflows_exists
              (default no_current_workflows (current_workflows cfg)))); cbn [andb].
  - case_decide as Hperf.
    + subst n. rewrite (Hgen performance_optimization_name).
      rewrite bool_decide_eq_true_2 by apply performance_optimization_name.
      cbv iota. rewrite (right_id_L None (∪)).
      by destruct (default [] (performance_issues pd)).
    + destruct (decide (n ∈ workflow_names)) as [Hn|Hn].
      * rewrite (bool_decide_eq_false_2 (n ∉ workflow_names)) by (by intros ?).
        rewrite (bool_decide_eq_true_2 (n ∈ workflow_names)) by done.
        cbv iota. by rewrite (left_id_L None (∪)).
      * rewrite (bool_decide_eq_true_2 (n ∉ workflow_names)) by done.
        rewrite (bool_decide_eq_false_2 (n ∈ workflow_names)) by done.
        rewrite (Hgen Hn). cbv iota. by rewrite (right_id_L None (∪)).
  - rewrite (left_id_L None (∪)). case_decide as Hperf.
    + subst n. rewrite (Hgen performance_optimization_name).
      by destruct (default [] (performance_issues pd)).
    + case_bool_decide as Hn; [done|]. by apply Hgen.
Qed.

Lemma base_names_not_selected m key l (item : string * workflow_data_t) :
  m = "development" \/ m = "bugfix" ->
  language_workflows !! key = Some l \/ framework_workflows !! key = Some l ->
  item ∈ l -> item.1 <> m.
Proof.
  intros Hm Hkey Hitem.
  assert (Hall : Forall (fun l : list (string * workflow_data_t) =>
                           Forall (fun item => item.1 <> "development"
                                               /\ item.1 <> "bugfix") l)
                   ((snd <$> map_to_list language_workflows)
                    ++ (snd <$> map_to_list framework_workflows))).
  { apply (bool_decide_unpack _). vm_compute. exact I. }
  assert (Hl : l ∈ (snd <$> map_to_list language_workflows)
                   ++ (snd <$> map_to_list framework_workflows)).
  { apply elem_of_app. destruct Hkey as [H|H]; [left|right]; by eapply elem_of_catalog. }
  rewrite Forall_forall in Hall. specialize (Hall _ Hl).
  rewrite Forall_forall in Hall. destruct (Hall _ Hitem) as [Hd Hb].
  by destruct Hm as [-> | ->].
Qed.

(** X26. The workflows of the catalogs cannot be customised: under a name of
    the catalogs the result holds what is generated from the project
    structure, whatever the workflow directory holds under that name, and
    ['development'] and ['bugfix'] are always generated. *)
Theorem catalog_workflows_regenerated (cfg cfg' : config_data_t)
    (pd pd' : performance_data_t) (ws ws' : gmap string string) (n : string) :
  optimize_workflows now cfg pd = inr ws ->
  optimize_workflows now cfg' pd' = inr ws' ->
  project_structure cfg = project_structure cfg' ->
  n ∈ workflow_names ->
  ws !! n = ws' !! n
  /\ ws !! "development" = Some (_format_workflow now (base_workflows !!! "development"))
  /\ ws !! "bugfix" = Some (_format_workflow now (base_workflows !!! "bugfix")).
Proof.
  intros Hws Hws' Hps Hn.
  assert (Hname : forall m ws cfg pd, m ∈ workflow_names ->
            optimize_workflows now cfg pd = inr ws ->
            ws !! m = generated_workflows now cfg pd !! m).
  { intros m ws0 cfg0 pd0 Hm H0. rewrite (optimize_workflows_lookup _ _ _ m H0).
    rewrite decide_False, bool_decide_eq_true_2; [done|done|].
    intros ->. by apply performance_optimization_name. }
  assert (Hbase : forall m, m = "development" \/ m = "bugfix" ->
            ws !! m = Some (_format_workflow now (base_workflows !!! m))).
  { intros m Hm. rewrite (Hname m ws cfg pd); [|destruct Hm as [-> | ->];
      rewrite workflow_names_list; dom_check|done].
    unfold generated_workflows. rewrite !lookup_union.
    assert (Hnone : forall catalog keys,
              (forall key l, catalog !! key = Some l -> forall item, item ∈ l ->
                 item.1 <> m) ->
              select_workflows now catalog cfg keys !! m = None).
    { intros catalog keys Hcat. unfold select_workflows.
      assert (H : forall selected : gmap string string, selected !! m = None ->
                foldl (fun selected key =>
                  match catalog !! key with
                  | Some key_workflows =>
                      foldl (fun selected item =>
                               if _is_workflow_needed item.1 cfg
                               then <[ item.1 := _format_workflow now item.2 ]> selected
                               else selected) selected key_workflows
                  | None => selected
                  end) selected keys !! m = None); [|by apply H].
      induction keys as [|key keys IH]; intros selected Hsel; [done|].
      cbn [foldl]. apply IH.
      destruct (catalog !! key) as [l|] eqn:Hkey; [|done].
      specialize (Hcat _ _ Hkey). clear Hkey. revert selected Hsel.
      induction l as [|item l IHl]; intros selected Hsel; [done|].
      cbn [foldl]. apply IHl; [intros i Hi; apply Hcat; by right|].
      destruct (_is_workflow_needed item.1 cfg); [|done].
      rewrite lookup_insert_ne; [done|]. apply Hcat. by left. }
    unfold _select_framework_workflows, _select_language_workflows.
    rewrite !Hnone.
    - rewrite !(left_id_L None (∪)), lookup_empty, (right_id_L None (∪)).
      rewrite select_base_workflows_lookup. by destruct Hm as [-> | ->].
    - intros key l Hkey item Hitem. eapply base_names_not_selected; eauto.
    - intros key l Hkey item Hitem. eapply base_names_not_selected; eauto. }
  split; [|split; [apply Hbase; by left|apply Hbase; by right]].
  rewrite (Hname n ws cfg pd), (Hname n ws' cfg' pd') by done.
  by rewrite (generated_workflows_project now cfg cfg' pd pd' Hps).
Qed.

End optimize.


Section custom.
Variable now : workflow_data_t -> string.

Lemma analyzed_workflows_lookup files n :
  (if default false (workflows_exists (_analyze_workflows files))
   then default ∅ (workflows (_analyze_workflows files)) !! n ≫= workflow_content
   else None)
  = default ∅ files !! n.
Proof.
  destruct files as [files|]; cbn [_analyze_workflows workflows_exists workflows default
                                   from_option id].
  - rewrite lookup_fmap. by destruct (files !! n).
  - by rewrite lookup_empty.
Qed.

(** X27. A workflow file whose name is none of the catalogs' and is not
    ['performance_optimization'] is returned as it is, and no other such
    name is in the result. *)
Theorem custom_workflows_kept (cfg : config_data_t) (pd : performance_data_t)
    (files : option (gmap string string)) (ws : gmap string string) (n : string) :
  current_workflows cfg = Some (_analyze_workflows files) ->
  optimize_workflows now cfg pd = inr ws ->
  n ∉ workflow_names ->
  n <> "performance_optimization" ->
  ws !! n = default ∅ files !! n.
Proof.
  intros Hcw Hws Hn Hperf. rewrite (optimize_workflows_lookup now _ _ _ n Hws).
  rewrite decide_False, bool_decide_eq_false_2 by done.
  rewrite Hcw. cbn [default from_option id]. apply analyzed_workflows_lookup.
Qed.

(** X28. With at least one performance issue the result holds the generated
    performance workflow under ['performance_optimization'], with one
    added step for every memory or CPU issue, whatever file of that name
    exists; with no issue a file of that name is kept like a custom
    workflow. *)
Theorem performance_workflow_added (cfg : config_data_t) (pd : performance_data_t)
    (files : option (gmap string string)) (ws : gmap string string) :
  current_workflows cfg = Some (_analyze_workflows files) ->
  optimize_workflows now cfg pd = inr ws ->
  let issues := default [] (performance_issues pd) in
  ws !! "performance_optimization"
  = (if issues is [] then default ∅ files !! "performance_optimization"
     else Some (_format_workflow now (perf_workflow (additional_steps issues))))
  /\ length (additional_steps issues)
     = length (filter (fun issue => issue_type issue = "memory" \/ issue_type issue = "cpu")
                 issues).
Proof.
  intros Hcw Hws issues. split.
  - rewrite (optimize_workflows_lookup now _ _ _ _ Hws). rewrite decide_True by done.
    fold issues. destruct issues; [|done].
    rewrite Hcw. cbn [default from_option id]. apply analyzed_workflows_lookup.
  - unfold additional_steps. induction issues as [|issue issues IH]; [done|].
    cbn [flat_map]. rewrite length_app, IH.
    destruct (String.eqb_spec (issue_type issue) "memory") as [Hm|Hm].
    + rewrite filter_cons_True by (by left). done.
    + destruct (String.eqb_spec (issue_type issue) "cpu") as [Hc|Hc].
      * rewrite filter_cons_True by (by right). done.
      * rewrite filter_cons_False by (by intros [?|?]). done.
Qed.

End custom.

Lemma optimize_workflows_result_witness :
  optimize_workflows (fun _ => "2024-05-01 10:00:00")
    {| project_structure := None; vscode_settings := None; usage_patterns := None;
       current_rules := None;
       current_workflows :=
         Some {| workflows_exists := Some true;
                 workflows := Some {[ "release" := {| workflow_content := None |} ]} |} |}
    empty_performance_data
  = inl (RulesGenerator.KeyError "content")
  /\ (exists ws, optimize_workflows (fun _ => "2024-05-01 10:00:00")
                   empty_config_data empty_performance_data = inr ws)
  /\ (exists ws, optimize_workflows (fun _ => "2024-05-01 10:00:00")
                   (project_with_workflows (Some {[ "release" := "Tag and publish" ]}))
                   empty_performance_data = inr ws).
Proof.
  split; [|split].
  - apply optimize_workflows_result. split; [reflexivity|].
    exists "release", {| workflow_content := None |}.
    split; [reflexivity|]. split; [|reflexivity].
    rewrite workflow_names_list. apply (bool_decide_unpack _). vm_compute. exact I.
  - apply optimize_workflows_result. intros [Hex _]. discriminate Hex.
  - destruct (optimize_workflows_result (fun _ => "2024-05-01 10:00:00")
                (project_with_workflows (Some {[ "release" := "Tag and publish" ]}))
                empty_performance_data) as (_ & _ & Hfiles).
    apply (Hfiles (Some {[ "release" := "Tag and publish" ]})). reflexivity.
Defined.

Lemma catalog_workflows_regenerated_witness :
  exists ws ws',
    optimize_workflows (fun _ => "2024-05-01 10:00:00")
      (project_with_workflows (Some {[ "development" := "My own process" ]}))
      empty_performance_data = inr ws
    /\ optimize_workflows (fun _ => "2024-05-01 10:00:00")
         (project_with_workflows None) cpu_issue_data = inr ws'
    /\ ws !! "development" = ws' !! "development".
Proof.
  destruct (optimize_workflows_analyzed (fun _ => "2024-05-01 10:00:00")
              (project_with_workflows (Some {[ "development" := "My own process" ]}))
              empty_performance_data (Some {[ "development" := "My own process" ]}) eq_refl) as [ws Hws].
  destruct (optimize_workflows_analyzed (fun _ => "2024-05-01 10:00:00")
              (project_with_workflows None)
              cpu_issue_data None eq_refl) as [ws' Hws'].
  exists ws, ws'. split; [done|]. split; [done|].
  apply (catalog_workflows_regenerated _ _ _ _ _ ws ws' "development" Hws Hws').
  - reflexivity.
  - rewrite workflow_names_list. dom_check.
Defined.

Lemma custom_workflows_kept_witness :
  exists ws,
    optimize_workflows (fun _ => "2024-05-01 10:00:00")
      (project_with_workflows (Some {[ "release" := "Tag and publish" ]}))
      cpu_issue_data = inr ws
    /\ ws !! "release"
       = default ∅ (Some ({[ "release" := "Tag and publish" ]} : gmap string string))
         !! "release".
Proof.
  destruct (optimize_workflows_analyzed (fun _ => "2024-05-01 10:00:00")
              (project_with_workflows (Some {[ "release" := "Tag and publish" ]}))
              cpu_issue_data (Some {[ "release" := "Tag and publish" ]}) eq_refl) as [ws Hws].
  exists ws. split; [done|].
  apply (custom_workflows_kept (fun _ => "2024-05-01 10:00:00")
           (project_with_workflows (Some {[ "release" := "Tag and publish" ]}))
           cpu_issue_data (Some {[ "release" := "Tag and publish" ]}) ws "release").
  - reflexivity.
  - exact Hws.
  - rewrite workflow_names_list. apply (bool_decide_unpack _). vm_compute. exact I.
  - discriminate.
Defined.

Lemma performance_workflow_added_witness :
  exists ws,
    optimize_workflows (fun _ => "2024-05-01 10:00:00")
      (project_with_workflows (Some {[ "performance_optimization" := "Old notes" ]}))
      cpu_issue_data = inr ws
    /\ ws !! "performance_optimization"
       = Some (_format_workflow (fun _ => "2024-05-01 10:00:00")
                 (perf_workflow ["- Распараллеливание CPU-интенсивных операций"])).
Proof.
  destruct (optimize_workflows_analyzed (fun _ => "2024-05-01 10:00:00")
              (project_with_workflows (Some {[ "performance_optimization" := "Old notes" ]}))
              cpu_issue_data (Some {[ "performance_optimization" := "Old notes" ]}) eq_refl) as [ws Hws].
  exists ws. split; [done|].
  apply (performance_workflow_added (fun _ => "2024-05-01 10:00:00")
           (project_with_workflows (Some {[ "performance_optimization" := "Old notes" ]}))
           cpu_issue_data (Some {[ "performance_optimization" := "Old notes" ]}) ws).
  - reflexivity.
  - exact Hws.
Defined.

